(** * kubetest/azure.go: the acs-engine cluster lifecycle, embedded in Rocq

    A shallow embedding of [kubetest/azure.go].  Go code that touches the
    process environment, the file system, the network or the Azure client is
    written in a state-and-panic monad over an explicit [World]; everything
    outside the file (standard library, SDKs, sibling files of the package)
    is an oracle of the class [Externals], whose answers may depend on the
    whole history of external calls. *)

From Stdlib Require Import ZArith Lia Ascii String.
From stdpp Require Import base option list gmap strings.

Set Warnings "-register-all".

(** ** Go values *)

(** A Go [error]: [None] is [nil], [Some msg] an error whose [Error()] is
    [msg]. *)
Abbreviation error := (option string) (only parsing).

(** The [%v] verb of package fmt applied to an [error] value. *)
Definition fmt_v (e : error) : string :=
  match e with
  | None => "<nil>"
  | Some msg => msg
  end.

(** A library call returning [(T, error)]: on [Err] the Go value of type
    [T] is the zero value. *)
Inductive result (A : Type) : Type :=
| Ok (a : A)
| Err (msg : string).
Arguments Ok {A} a.
Arguments Err {A} msg.

Definition result_val {A} (zero : A) (r : result A) : A :=
  match r with Ok a => a | Err _ => zero end.

Definition result_err {A} (r : result A) : error :=
  match r with Ok _ => None | Err msg => Some msg end.

(** Heap addresses. *)
Abbreviation loc := nat (only parsing).

(** An [*os.File], identified by the name it was opened with ([f.Name()]). *)
Abbreviation File := string (only parsing).

(** A handle on the [*AzureClient] built by [getAzureClient]. *)
Abbreviation AzureClient := nat (only parsing).

(** [context.Context]; the file only ever uses [context.Background()]. *)
Inductive Context : Type := context_Background.

(** A parsed JSON document, as the decoder of encoding/json sees it.
    Number literals are kept as text. *)
Inductive jtree : Type :=
| TNull
| TBool (b : bool)
| TNum (lit : string)
| TStr (s : string)
| TArr (items : list jtree)
| TObj (members : list (string * jtree)).

(** A Go [interface{}] value as encoding/json produces it.  A
    [map[string]interface{}] is a reference into the heap of maps. *)
Inductive jval : Type :=
| VNil
| VBool (b : bool)
| VNum (lit : string)
| VStr (s : string)
| VArr (items : list jval)
| VMap (l : loc).

(** Induction over documents that also reaches the items of arrays and
    the members of objects. *)
Section jtree_induction.
Variable Q : jtree → Prop.
Hypothesis HNull : Q TNull.
Hypothesis HBool : ∀ b, Q (TBool b).
Hypothesis HNum : ∀ lit, Q (TNum lit).
Hypothesis HStr : ∀ s, Q (TStr s).
Hypothesis HArr : ∀ items, Forall Q items → Q (TArr items).
Hypothesis HObj : ∀ members, Forall (λ kt, Q kt.2) members → Q (TObj members).

Fixpoint jtree_nested_ind (t : jtree) : Q t :=
  match t with
  | TNull => HNull
  | TBool b => HBool b
  | TNum lit => HNum lit
  | TStr s => HStr s
  | TArr items =>
      HArr items
        ((fix go (l : list jtree) : Forall Q l :=
            match l with
            | [] => List.Forall_nil Q
            | x :: r => List.Forall_cons Q x r (jtree_nested_ind x) (go r)
            end) items)
  | TObj members =>
      HObj members
        ((fix go (l : list (string * jtree)) : Forall (λ kt, Q kt.2) l :=
            match l with
            | [] => List.Forall_nil _
            | x :: r => List.Forall_cons _ x r (jtree_nested_ind x.2) (go r)
            end) members)
  end.
End jtree_induction.

(** ** The package-level flags *)

Record Flags : Type := mkFlags {
  acsResourceName : string;
  acsResourceGroupName : string;
  acsLocation : string;
  acsMasterVmSize : string;
  acsAgentVmSize : string;
  acsAdminUsername : string;
  acsAdminPassword : string;
  acsAgentPoolCount : Z;
  acsAgentOSType : string;
  acsTemplatePath : string;
  acsDnsPrefix : string;
  acsEngineURL : string;
  acsEngineMD5 : string;
  acsSSHPublicKeyPath : string;
  acsWinBinariesURL : string;
  acsHyperKubeURL : string;
  acsCredentialsFile : string;
  acsOrchestratorRelease : string;
  acsWinZipBuildScript : string;
  acsNetworkPlugin : string
}.

(** The defaults of the [flag.String]/[flag.Int] declarations. *)
Definition default_flags : Flags :=
  {| acsResourceName := "";
     acsResourceGroupName := "";
     acsLocation := "westus2";
     acsMasterVmSize := "Standard_D2s_v3";
     acsAgentVmSize := "Standard_D2s_v3";
     acsAdminUsername := "";
     acsAdminPassword := "";
     acsAgentPoolCount := 2;
     acsAgentOSType := "Windows";
     acsTemplatePath := "";
     acsDnsPrefix := "";
     acsEngineURL := "";
     acsEngineMD5 := "";
     acsSSHPublicKeyPath := "";
     acsWinBinariesURL := "";
     acsHyperKubeURL := "";
     acsCredentialsFile := "";
     acsOrchestratorRelease := "1.11";
     acsWinZipBuildScript :=
       "https://raw.githubusercontent.com/Azure/acs-engine/master/scripts/build-windows-k8s.sh";
     acsNetworkPlugin := "azure" |}.

Definition set_acsResourceName (v : string) (f : Flags) : Flags :=
  mkFlags v (acsResourceGroupName f) (acsLocation f) (acsMasterVmSize f)
    (acsAgentVmSize f) (acsAdminUsername f) (acsAdminPassword f)
    (acsAgentPoolCount f) (acsAgentOSType f) (acsTemplatePath f)
    (acsDnsPrefix f) (acsEngineURL f) (acsEngineMD5 f)
    (acsSSHPublicKeyPath f) (acsWinBinariesURL f) (acsHyperKubeURL f)
    (acsCredentialsFile f) (acsOrchestratorRelease f)
    (acsWinZipBuildScript f) (acsNetworkPlugin f).

Definition set_acsResourceGroupName (v : string) (f : Flags) : Flags :=
  mkFlags (acsResourceName f) v (acsLocation f) (acsMasterVmSize f)
    (acsAgentVmSize f) (acsAdminUsername f) (acsAdminPassword f)
    (acsAgentPoolCount f) (acsAgentOSType f) (acsTemplatePath f)
    (acsDnsPrefix f) (acsEngineURL f) (acsEngineMD5 f)
    (acsSSHPublicKeyPath f) (acsWinBinariesURL f) (acsHyperKubeURL f)
    (acsCredentialsFile f) (acsOrchestratorRelease f)
    (acsWinZipBuildScript f) (acsNetworkPlugin f).

Definition set_acsDnsPrefix (v : string) (f : Flags) : Flags :=
  mkFlags (acsResourceName f) (acsResourceGroupName f) (acsLocation f)
    (acsMasterVmSize f) (acsAgentVmSize f) (acsAdminUsername f)
    (acsAdminPassword f) (acsAgentPoolCount f) (acsAgentOSType f)
    (acsTemplatePath f) v (acsEngineURL f) (acsEngineMD5 f)
    (acsSSHPublicKeyPath f) (acsWinBinariesURL f) (acsHyperKubeURL f)
    (acsCredentialsFile f) (acsOrchestratorRelease f)
    (acsWinZipBuildScript f) (acsNetworkPlugin f).

Definition set_acsSSHPublicKeyPath (v : string) (f : Flags) : Flags :=
  mkFlags (acsResourceName f) (acsResourceGroupName f) (acsLocation f)
    (acsMasterVmSize f) (acsAgentVmSize f) (acsAdminUsername f)
    (acsAdminPassword f) (acsAgentPoolCount f) (acsAgentOSType f)
    (acsTemplatePath f) (acsDnsPrefix f) (acsEngineURL f) (acsEngineMD5 f)
    v (acsWinBinariesURL f) (acsHyperKubeURL f)
    (acsCredentialsFile f) (acsOrchestratorRelease f)
    (acsWinZipBuildScript f) (acsNetworkPlugin f).

(** ** Credentials and the Cluster aggregate *)

Record Creds : Type := mkCreds {
  ClientID : string;
  ClientSecret : string;
  TenantID : string;
  SubscriptionID : string;
  StorageAccountName : string;
  StorageAccountKey : string
}.

(** [Creds{}] *)
Definition empty_Creds : Creds := mkCreds "" "" "" "" "" "".

Record Config : Type := mkConfig { Config_Creds : Creds }.

(** [type Cluster struct].  Pointer fields are optional addresses ([None]
    is [nil]); the two [map[string]interface{}] fields are references into
    the heap of maps ([None] is the nil map). *)
Record Cluster : Type := mkCluster {
  ctx : Context;
  credentials : option loc;
  location : string;
  resourceGroup : string;
  name : string;
  apiModelPath : string;
  dnsPrefix : string;
  templateJSON : option loc;
  parametersJSON : option loc;
  outputDir : string;
  sshPublicKey : string;
  adminUsername : string;
  adminPassword : string;
  masterVMSize : string;
  agentVMSize : string;
  acsCustomHyperKubeURL : string;
  acsCustomWinBinariesURL : string;
  acsEngineBinaryPath : string;
  azureClient : option AzureClient
}.

Definition set_credentials (v : option loc) (c : Cluster) : Cluster :=
  mkCluster (ctx c) v (location c) (resourceGroup c) (name c)
    (apiModelPath c) (dnsPrefix c) (templateJSON c) (parametersJSON c)
    (outputDir c) (sshPublicKey c) (adminUsername c) (adminPassword c)
    (masterVMSize c) (agentVMSize c) (acsCustomHyperKubeURL c)
    (acsCustomWinBinariesURL c) (acsEngineBinaryPath c) (azureClient c).

Definition set_apiModelPath (v : string) (c : Cluster) : Cluster :=
  mkCluster (ctx c) (credentials c) (location c) (resourceGroup c) (name c)
    v (dnsPrefix c) (templateJSON c) (parametersJSON c)
    (outputDir c) (sshPublicKey c) (adminUsername c) (adminPassword c)
    (masterVMSize c) (agentVMSize c) (acsCustomHyperKubeURL c)
    (acsCustomWinBinariesURL c) (acsEngineBinaryPath c) (azureClient c).

Definition set_templateJSON (v : option loc) (c : Cluster) : Cluster :=
  mkCluster (ctx c) (credentials c) (location c) (resourceGroup c) (name c)
    (apiModelPath c) (dnsPrefix c) v (parametersJSON c)
    (outputDir c) (sshPublicKey c) (adminUsername c) (adminPassword c)
    (masterVMSize c) (agentVMSize c) (acsCustomHyperKubeURL c)
    (acsCustomWinBinariesURL c) (acsEngineBinaryPath c) (azureClient c).

Definition set_parametersJSON (v : option loc) (c : Cluster) : Cluster :=
  mkCluster (ctx c) (credentials c) (location c) (resourceGroup c) (name c)
    (apiModelPath c) (dnsPrefix c) (templateJSON c) v
    (outputDir c) (sshPublicKey c) (adminUsername c) (adminPassword c)
    (masterVMSize c) (agentVMSize c) (acsCustomHyperKubeURL c)
    (acsCustomWinBinariesURL c) (acsEngineBinaryPath c) (azureClient c).

Definition set_acsCustomHyperKubeURL (v : string) (c : Cluster) : Cluster :=
  mkCluster (ctx c) (credentials c) (location c) (resourceGroup c) (name c)
    (apiModelPath c) (dnsPrefix c) (templateJSON c) (parametersJSON c)
    (outputDir c) (sshPublicKey c) (adminUsername c) (adminPassword c)
    (masterVMSize c) (agentVMSize c) v
    (acsCustomWinBinariesURL c) (acsEngineBinaryPath c) (azureClient c).

Definition set_acsCustomWinBinariesURL (v : string) (c : Cluster) : Cluster :=
  mkCluster (ctx c) (credentials c) (location c) (resourceGroup c) (name c)
    (apiModelPath c) (dnsPrefix c) (templateJSON c) (parametersJSON c)
    (outputDir c) (sshPublicKey c) (adminUsername c) (adminPassword c)
    (masterVMSize c) (agentVMSize c) (acsCustomHyperKubeURL c)
    v (acsEngineBinaryPath c) (azureClient c).

Definition set_acsEngineBinaryPath (v : string) (c : Cluster) : Cluster :=
  mkCluster (ctx c) (credentials c) (location c) (resourceGroup c) (name c)
    (apiModelPath c) (dnsPrefix c) (templateJSON c) (parametersJSON c)
    (outputDir c) (sshPublicKey c) (adminUsername c) (adminPassword c)
    (masterVMSize c) (agentVMSize c) (acsCustomHyperKubeURL c)
    (acsCustomWinBinariesURL c) v (azureClient c).

Definition set_azureClient (v : option AzureClient) (c : Cluster) : Cluster :=
  mkCluster (ctx c) (credentials c) (location c) (resourceGroup c) (name c)
    (apiModelPath c) (dnsPrefix c) (templateJSON c) (parametersJSON c)
    (outputDir c) (sshPublicKey c) (adminUsername c) (adminPassword c)
    (masterVMSize c) (agentVMSize c) (acsCustomHyperKubeURL c)
    (acsCustomWinBinariesURL c) (acsEngineBinaryPath c) v.

(** ** The API model handed to acs-engine

    The struct declarations ([AcsEngineApiModel], [Properties], ...) live in
    a sibling file of the package; the records below carry exactly the
    fields that the composite literal of [generateTemplate] names. *)

Record KubernetesConfig : Type := mkKubernetesConfig {
  NetworkPlugin : string;
  CustomHyperkubeImage : string;
  CustomWindowsPackageURL : string
}.

Record OrchestratorProfile : Type := mkOrchestratorProfile {
  OrchestratorType : string;
  OrchestratorRelease : string;
  OP_KubernetesConfig : KubernetesConfig
}.

Record MasterProfile : Type := mkMasterProfile {
  MP_Count : Z;
  MP_DNSPrefix : string;
  MP_VMSize : string;
  MP_IPAddressCount : Z
}.

Record AgentPoolProfile : Type := mkAgentPoolProfile {
  AP_Name : string;
  AP_VMSize : string;
  AP_Count : Z;
  AP_OSType : string;
  AP_AvailabilityProfile : string;
  AP_IPAddressCount : Z;
  AP_PreProvisionExtension : gmap string string;
  AP_Extensions : list (gmap string string)
}.

Record PublicKey : Type := mkPublicKey { KeyData : string }.
Record SSH : Type := mkSSH { PublicKeys : list PublicKey }.

Record LinuxProfile : Type := mkLinuxProfile {
  LP_AdminUsername : string;
  LP_SSHKeys : SSH
}.

Record WindowsProfile : Type := mkWindowsProfile {
  WP_AdminUsername : string;
  WP_AdminPassword : string
}.

Record ServicePrincipalProfile : Type := mkServicePrincipalProfile {
  SP_ClientID : string;
  SP_Secret : string
}.

Record Properties : Type := mkProperties {
  P_OrchestratorProfile : OrchestratorProfile;
  P_MasterProfile : MasterProfile;
  P_AgentPoolProfiles : list AgentPoolProfile;
  P_LinuxProfile : LinuxProfile;
  P_WindowsProfile : WindowsProfile;
  P_ServicePrincipalProfile : ServicePrincipalProfile;
  P_ExtensionProfiles : list (gmap string string)
}.

Record AcsEngineApiModel : Type := mkAcsEngineApiModel {
  ApiVersion : string;
  AM_Location : string;
  AM_Name : string;
  AM_Tags : gmap string string;
  AM_Properties : Properties
}.

(** [v.Properties.OrchestratorProfile.KubernetesConfig.CustomHyperkubeImage = u] *)
Definition set_CustomHyperkubeImage (u : string) (v : AcsEngineApiModel)
  : AcsEngineApiModel :=
  let p := AM_Properties v in
  let o := P_OrchestratorProfile p in
  let k := OP_KubernetesConfig o in
  mkAcsEngineApiModel (ApiVersion v) (AM_Location v) (AM_Name v) (AM_Tags v)
    (mkProperties
       (mkOrchestratorProfile (OrchestratorType o) (OrchestratorRelease o)
          (mkKubernetesConfig (NetworkPlugin k) u (CustomWindowsPackageURL k)))
       (P_MasterProfile p) (P_AgentPoolProfiles p) (P_LinuxProfile p)
       (P_WindowsProfile p) (P_ServicePrincipalProfile p)
       (P_ExtensionProfiles p)).

(** [v.Properties.OrchestratorProfile.KubernetesConfig.CustomWindowsPackageURL = u] *)
Definition set_CustomWindowsPackageURL (u : string) (v : AcsEngineApiModel)
  : AcsEngineApiModel :=
  let p := AM_Properties v in
  let o := P_OrchestratorProfile p in
  let k := OP_KubernetesConfig o in
  mkAcsEngineApiModel (ApiVersion v) (AM_Location v) (AM_Name v) (AM_Tags v)
    (mkProperties
       (mkOrchestratorProfile (OrchestratorType o) (OrchestratorRelease o)
          (mkKubernetesConfig (NetworkPlugin k) (CustomHyperkubeImage k) u))
       (P_MasterProfile p) (P_AgentPoolProfiles p) (P_LinuxProfile p)
       (P_WindowsProfile p) (P_ServicePrincipalProfile p)
       (P_ExtensionProfiles p)).

(** The custom hyperkube image of a model, as acs-engine reads it. *)
Definition hyperkube_image_of (v : AcsEngineApiModel) : string :=
  CustomHyperkubeImage (OP_KubernetesConfig (P_OrchestratorProfile (AM_Properties v))).

Definition windows_package_of (v : AcsEngineApiModel) : string :=
  CustomWindowsPackageURL (OP_KubernetesConfig (P_OrchestratorProfile (AM_Properties v))).

(** ** External calls

    One event per call that leaves the process or is written to the log;
    calls whose outcome the properties below speak about record it. *)

Inductive Event : Type :=
| EvLog (msg : string)
| EvReadFile (path : string)
| EvWriteFile (path content : string) (perm : Z)
| EvReadDir (path : string)
| EvTempDir (dir pfx : string)
| EvCreate (path : string)
| EvOpen (path : string)
| EvClose (f : File)
| EvChmod (f : File) (mode : Z)
| EvHttpRead (url : string) (f : File) (res : error)
| EvSleep (nanoseconds : Z)
| EvGetwd
| EvNow
| EvNewV1
| EvSetenv (key value : string)
| EvFinishRunning (argv : list string) (res : error)
| EvOutput (argv : list string) (res : result string)
| EvUploadFileToBlockBlob (account container blob : string) (f : File) (res : error)
| EvGetAzureClient (subscriptionID clientID tenantID clientSecret : string)
| EvEnsureResourceGroup (rg loc_ : string) (res : error)
| EvValidateDeployment (rg name_ : string) (template params : option loc) (res : error)
| EvDeployTemplate (rg name_ : string) (template params : option loc) (res : error)
| EvDeleteResourceGroup (rg : string) (res : error).

(** Everything the file calls but does not define.  The first argument of
    an effectful oracle is the history of events so far. *)
Class Externals : Type := {
  (* package path, path/filepath *)
  path_Join : list string → string;
  filepath_Base : string → string;
  (* io/ioutil, os *)
  ioutil_ReadFile : list Event → string → result string;
  ioutil_WriteFile : list Event → string → string → Z → error;
  ioutil_ReadDir : list Event → string → result (list string);
  ioutil_TempDir : list Event → string → string → result string;
  os_Create : list Event → string → error;
  os_Open : list Event → string → error;
  os_Getwd : list Event → result string;
  os_Setenv : list Event → string → string → error;
  (* time, uuid *)
  time_Now_String : list Event → string;
  uuid_NewV1_String : list Event → string;
  (* net/url: [None] is the nil [*url.URL] that comes with an error *)
  url_Parse : string → option string;
  (* encoding/json, go-toml *)
  json_MarshalIndent : AcsEngineApiModel → result string;
  json_parse : string → result jtree;
  toml_Unmarshal : string → Config → Config * error;
  (* the package's own helpers, defined in sibling files *)
  httpRead : list Event → string → File → error;
  control_FinishRunning : list Event → list string → error;
  control_Output : list Event → list string → result string;
  getAzureClient :
    list Event → string → string → string → string → result AzureClient;
  (* azure-storage-blob-go, version 2016-05-31.  [NewSharedKeyCredential]
     has one result: on an account key that is not base64 it panics, and
     [Some msg] is the value it panics with. *)
  azblob_NewSharedKeyCredential : string → string → option string;
  azblob_UploadFileToBlockBlob :
    list Event → string → string → string → string → File → error;
  blockBlobURL_String : string → string → string;
  (* methods of *AzureClient *)
  EnsureResourceGroup :
    list Event → option AzureClient → Context → string → string → error;
  ValidateDeployment :
    list Event → option AzureClient → Context → string → string →
    option loc → option loc → error;
  DeployTemplate :
    list Event → option AzureClient → Context → string → string →
    option loc → option loc → error;
  DeleteResourceGroup :
    list Event → option AzureClient → Context → string → error
}.

(** ** The world and the monad *)

Record World : Type := mkWorld {
  flags : Flags;
  environ : gmap string string;
  clusterHeap : list Cluster;
  credsHeap : list Creds;
  mapHeap : list (gmap string jval);
  trace : list Event
}.

Definition set_flags (v : Flags) (w : World) : World :=
  mkWorld v (environ w) (clusterHeap w) (credsHeap w) (mapHeap w) (trace w).
Definition set_environ (v : gmap string string) (w : World) : World :=
  mkWorld (flags w) v (clusterHeap w) (credsHeap w) (mapHeap w) (trace w).
Definition set_clusterHeap (v : list Cluster) (w : World) : World :=
  mkWorld (flags w) (environ w) v (credsHeap w) (mapHeap w) (trace w).
Definition set_credsHeap (v : list Creds) (w : World) : World :=
  mkWorld (flags w) (environ w) (clusterHeap w) v (mapHeap w) (trace w).
Definition set_mapHeap (v : list (gmap string jval)) (w : World) : World :=
  mkWorld (flags w) (environ w) (clusterHeap w) (credsHeap w) v (trace w).
Definition set_trace (v : list Event) (w : World) : World :=
  mkWorld (flags w) (environ w) (clusterHeap w) (credsHeap w) (mapHeap w) v.

(** A computation ends with a value or with a Go panic; either way it
    leaves a world behind. *)
Inductive Res (A : Type) : Type :=
| Ret (a : A) (w : World)
| Panic (msg : string) (w : World).
Arguments Ret {A} a w.
Arguments Panic {A} msg w.

Definition world_of {A} (r : Res A) : World :=
  match r with Ret _ w => w | Panic _ w => w end.

Definition M (A : Type) : Type := World → Res A.

Global Instance M_ret : MRet M := λ A a w, Ret a w.
Global Instance M_bind : MBind M := λ A B k m w,
  match m w with
  | Ret a w' => k a w'
  | Panic msg w' => Panic msg w'
  end.

Definition panic {A} (msg : string) : M A := λ w, Panic msg w.
Definition gets {A} (f : World → A) : M A := λ w, Ret (f w) w.
Definition modify (f : World → World) : M unit := λ w, Ret tt (f w).

(** [defer d] around [body]: [d] runs when [body] returns or panics. *)
Definition with_defer {A} (d : M unit) (body : M A) : M A := λ w,
  match body w with
  | Ret a w' =>
      match d w' with
      | Ret _ w'' => Ret a w''
      | Panic msg w'' => Panic msg w''
      end
  | Panic msg w' => Panic msg (world_of (d w'))
  end.

(** Record an external call. *)
Definition emit (e : Event) : M unit :=
  modify (λ w, set_trace (trace w ++ [e]) w).

(** Ask an oracle, given the history so far. *)
Definition ask {A} (f : list Event → A) : M A := gets (λ w, f (trace w)).

(** ** Small library functions written out *)

(** [s == ""] *)
Definition is_empty (s : string) : bool :=
  match s with
  | EmptyString => true
  | String _ _ => false
  end.

(** [strings.Split(s, " ")[0]]: the text before the first space. *)
Fixpoint first_field (s : string) : string :=
  match s with
  | EmptyString => EmptyString
  | String c r => if Ascii.eqb c " "%char then EmptyString else String c (first_field r)
  end.

(** An [int64] holds a value of [Z] modulo [2^64], read as signed. *)
Definition wrap64 (z : Z) : Z :=
  (z + 2 ^ 63) mod 2 ^ 64 - 2 ^ 63.

(** [time.Second], in nanoseconds. *)
Definition time_Second : Z := 1000000000.

(** [time.Duration(i) * time.Second] *)
Definition seconds (i : Z) : Z := wrap64 (wrap64 i * time_Second).

(** The error text of [json.UnmarshalTypeError] when the target is a
    [map[string]interface{}]. *)
Definition unmarshalTypeError (kind : string) : string :=
  "json: cannot unmarshal " +:+ kind +:+
  " into Go value of type map[string]interface {}".

(** The items of a JSON array, decoded left to right by [dec]. *)
Fixpoint decode_items (dec : jtree → list (gmap string jval) → jval * list (gmap string jval))
    (items : list jtree) (h : list (gmap string jval))
  : list jval * list (gmap string jval) :=
  match items with
  | [] => ([], h)
  | t :: r =>
      let '(v, h1) := dec t h in
      let '(vs, h2) := decode_items dec r h1 in
      (v :: vs, h2)
  end.

(** The members of a JSON object, decoded left to right by [dec] and
    stored into [m]; a repeated key keeps its last value. *)
Fixpoint decode_object (dec : jtree → list (gmap string jval) → jval * list (gmap string jval))
    (members : list (string * jtree)) (m : gmap string jval)
    (h : list (gmap string jval))
  : gmap string jval * list (gmap string jval) :=
  match members with
  | [] => (m, h)
  | (k, t) :: r =>
      let '(v, h1) := dec t h in
      decode_object dec r (<[k:=v]> m) h1
  end.

(** What [json.Unmarshal] does with the value of one member or item: an
    object becomes a freshly allocated map, everything else a plain
    value. *)
Fixpoint decode_value (t : jtree) (h : list (gmap string jval))
  : jval * list (gmap string jval) :=
  match t with
  | TNull => (VNil, h)
  | TBool b => (VBool b, h)
  | TNum lit => (VNum lit, h)
  | TStr s => (VStr s, h)
  | TArr items =>
      let '(vs, h') := decode_items decode_value items h in
      (VArr vs, h')
  | TObj members =>
      let '(m, h') := decode_object decode_value members ∅ h in
      (VMap (length h'), h' ++ [m])
  end.

(** Decoding the members of the top-level object into the map that already
    lives at [l]: existing entries stay, each member is stored under its
    key. *)
Fixpoint decode_members (l : loc) (members : list (string * jtree))
    (h : list (gmap string jval)) : list (gmap string jval) :=
  match members with
  | [] => h
  | (k, t) :: r =>
      let '(v, h1) := decode_value t h in
      decode_members l r (alter (λ m, <[k:=v]> m) l h1)
  end.

Section Program.
Context `{X : Externals}.

(** ** Primitive actions *)

Definition flag {A} (f : Flags → A) : M A := gets (λ w, f (flags w)).
Definition set_flag (f : Flags → Flags) : M unit :=
  modify (λ w, set_flags (f (flags w)) w).

Definition os_Getenv (key : string) : M string :=
  gets (λ w, default "" (environ w !! key)).

Definition Setenv (key value : string) : M error :=
  err ← ask (λ t, os_Setenv t key value);
  emit (EvSetenv key value);;
  match err with
  | None => modify (λ w, set_environ (<[key:=value]> (environ w)) w)
  | Some _ => mret tt
  end;;
  mret err.

Definition log_Printf (msg : string) : M unit := emit (EvLog msg).

Definition ReadFile (path : string) : M (result string) :=
  r ← ask (λ t, ioutil_ReadFile t path);
  emit (EvReadFile path);;
  mret r.

Definition WriteFile (path content : string) (perm : Z) : M error :=
  err ← ask (λ t, ioutil_WriteFile t path content perm);
  emit (EvWriteFile path content perm);;
  mret err.

Definition ReadDir (path : string) : M (result (list string)) :=
  r ← ask (λ t, ioutil_ReadDir t path);
  emit (EvReadDir path);;
  mret r.

Definition TempDir (dir pfx : string) : M (result string) :=
  r ← ask (λ t, ioutil_TempDir t dir pfx);
  emit (EvTempDir dir pfx);;
  mret r.

(** [os.Create(path)]; the file it returns has [Name() = path]. *)
Definition Create (path : string) : M (result File) :=
  err ← ask (λ t, os_Create t path);
  emit (EvCreate path);;
  mret (match err with None => Ok path | Some msg => Err msg end).

(** [os.Open(path)] *)
Definition Open (path : string) : M (result File) :=
  err ← ask (λ t, os_Open t path);
  emit (EvOpen path);;
  mret (match err with None => Ok path | Some msg => Err msg end).

Definition Close (f : File) : M unit := emit (EvClose f).
Definition Chmod (f : File) (mode : Z) : M unit := emit (EvChmod f mode).

Definition Getwd : M (result string) :=
  r ← ask os_Getwd;
  emit EvGetwd;;
  mret r.

Definition Now_String : M string :=
  s ← ask time_Now_String;
  emit EvNow;;
  mret s.

Definition NewV1_String : M string :=
  s ← ask uuid_NewV1_String;
  emit EvNewV1;;
  mret s.

Definition HttpRead (url : string) (f : File) : M error :=
  err ← ask (λ t, httpRead t url f);
  emit (EvHttpRead url f err);;
  mret err.

Definition sleep (d : Z) : M unit := emit (EvSleep d).

Definition FinishRunning (argv : list string) : M error :=
  err ← ask (λ t, control_FinishRunning t argv);
  emit (EvFinishRunning argv err);;
  mret err.

Definition Output (argv : list string) : M (result string) :=
  r ← ask (λ t, control_Output t argv);
  emit (EvOutput argv r);;
  mret r.

(** *** The heaps *)

(** [*p] on a [*Cluster] *)
Definition loadC (p : loc) : M Cluster := λ w,
  match clusterHeap w !! p with
  | Some c => Ret c w
  | None => Panic "invalid memory address or nil pointer dereference" w
  end.

(** [p.field = v] on a [*Cluster] *)
Definition storeC (p : loc) (f : Cluster → Cluster) : M unit := λ w,
  match clusterHeap w !! p with
  | Some c => Ret tt (set_clusterHeap (<[p:=f c]> (clusterHeap w)) w)
  | None => Panic "invalid memory address or nil pointer dereference" w
  end.

(** A [Cluster] variable whose address is taken. *)
Definition newC (c : Cluster) : M loc := λ w,
  Ret (length (clusterHeap w)) (set_clusterHeap (clusterHeap w ++ [c]) w).

(** [&Creds{...}] *)
Definition newCreds (cr : Creds) : M loc := λ w,
  Ret (length (credsHeap w)) (set_credsHeap (credsHeap w ++ [cr]) w).

(** [*c.credentials] *)
Definition derefCreds (p : option loc) : M Creds := λ w,
  match p with
  | Some l =>
      match credsHeap w !! l with
      | Some cr => Ret cr w
      | None => Panic "invalid memory address or nil pointer dereference" w
      end
  | None => Panic "invalid memory address or nil pointer dereference" w
  end.

(** [make(map[string]interface{})] *)
Definition make_map : M loc := λ w,
  Ret (length (mapHeap w)) (set_mapHeap (mapHeap w ++ [∅]) w).

(** [m[key]] on a [map[string]interface{}]; a nil map and a missing key
    both give the nil interface. *)
Definition map_index (m : option loc) (key : string) : M jval := λ w,
  match m with
  | None => Ret VNil w
  | Some l =>
      match mapHeap w !! l with
      | Some entries => Ret (default VNil (entries !! key)) w
      | None => Panic "invalid memory address or nil pointer dereference" w
      end
  end.

(** [v.(map[string]interface{})], the form without the second result. *)
Definition assert_map (v : jval) : M (option loc) :=
  match v with
  | VMap l => mret (Some l)
  | VNil =>
      panic "interface conversion: interface {} is nil, not map[string]interface {}"
  | _ => panic "interface conversion: interface {} is not map[string]interface {}"
  end.

(** [json.Unmarshal(data, &p.field)] for a field of type
    [map[string]interface{}], read by [get] and written by [set].  Invalid
    JSON is refused before anything is stored; [null] sets the field to the
    nil map; an object is decoded into the field's map (one is made if the
    field is nil); any other document is a type error. *)
Definition json_Unmarshal (data : string) (p : loc)
    (get : Cluster → option loc) (set : option loc → Cluster → Cluster)
  : M error :=
  match json_parse data with
  | Err msg => mret (Some msg)
  | Ok TNull => storeC p (set None);; mret None
  | Ok (TObj members) =>
      c ← loadC p;
      l ← match get c with
          | Some l => mret l
          | None => l ← make_map; storeC p (set (Some l));; mret l
          end;
      modify (λ w, set_mapHeap (decode_members l members (mapHeap w)) w);;
      mret None
  | Ok (TBool _) => mret (Some (unmarshalTypeError "bool"))
  | Ok (TNum _) => mret (Some (unmarshalTypeError "number"))
  | Ok (TStr _) => mret (Some (unmarshalTypeError "string"))
  | Ok (TArr _) => mret (Some (unmarshalTypeError "array"))
  end.

(** ** The functions of azure.go *)

(** [func (c *Cluster) getAzCredentials() error] *)
Definition getAzCredentials (c : loc) : M error :=
  file ← flag acsCredentialsFile;
  r ← ReadFile file;
  log_Printf ("Reading credentials file " +:+ file);;
  match r with
  | Err err =>
      mret (Some ("Error reading credentials file " +:+ file +:+ " " +:+ err))
  | Ok content =>
      let '(config, err) := toml_Unmarshal content (mkConfig empty_Creds) in
      l ← newCreds (Config_Creds config);
      storeC c (set_credentials (Some l));;
      match err with
      | Some err =>
          mret (Some ("Error parsing credentials file " +:+ file +:+ " " +:+ err))
      | None => mret None
      end
  end.

(** [func checkParams() error] *)
Definition checkParams : M error :=
  creds ← flag acsCredentialsFile;
  if is_empty creds then mret (Some "No credentials file path specified") else
  resourceName ← flag acsResourceName;
  (if is_empty resourceName
   then u ← NewV1_String; set_flag (set_acsResourceName ("kubetest-" +:+ u))
   else mret tt);;
  resourceGroupName ← flag acsResourceGroupName;
  (if is_empty resourceGroupName
   then n ← flag acsResourceName; set_flag (set_acsResourceGroupName (n +:+ "-rg"))
   else mret tt);;
  dnsPrefix ← flag acsDnsPrefix;
  (if is_empty dnsPrefix
   then n ← flag acsResourceName; set_flag (set_acsDnsPrefix n)
   else mret tt);;
  keyPath ← flag acsSSHPublicKeyPath;
  (if is_empty keyPath
   then home ← os_Getenv "HOME";
        set_flag (set_acsSSHPublicKeyPath (home +:+ "/.ssh/id_rsa.pub"))
   else mret tt);;
  username ← flag acsAdminUsername;
  if is_empty username
  then mret (Some "Error parsing flags. No admin username specified") else
  password ← flag acsAdminPassword;
  if is_empty password
  then mret (Some "Error parting flags. No admin password specified.") else
  mret None.

(** [func (c *Cluster) getARMClient(ctx context.Context) error].  The
    environment looked up by [azure.EnvironmentFromName] is a constant of
    the SDK; its error is overwritten by the next assignment. *)
Definition getARMClient (c : loc) (ctx : Context) : M error :=
  cl ← loadC c;
  cr ← derefCreds (credentials cl);
  r ← ask (λ t, getAzureClient t (SubscriptionID cr) (ClientID cr)
                  (TenantID cr) (ClientSecret cr));
  emit (EvGetAzureClient (SubscriptionID cr) (ClientID cr) (TenantID cr)
          (ClientSecret cr));;
  match r with
  | Err err => mret (Some ("Error trying to get Azure Client: " +:+ err))
  | Ok client => storeC c (set_azureClient (Some client));; mret None
  end.

(** [func newAcsEngine()], returning a [*Cluster] and an [error] *)
Definition newAcsEngine : M (option loc * error) :=
  err ← checkParams;
  match err with
  | Some err => mret (None, Some ("Error creating Azure K8S cluster: " +:+ err))
  | None =>
  home ← os_Getenv "HOME";
  td ← TempDir home "acs";
  let tempdir := result_val "" td in
  keyPath ← flag acsSSHPublicKeyPath;
  key ← ReadFile keyPath;
  match key with
  | Err err =>
      mret (None, Some ("Error reading SSH Key " +:+ keyPath +:+ " " +:+ err))
  | Ok sshKey =>
  f ← gets flags;
  creds ← newCreds empty_Creds;
  c ← newC {| ctx := context_Background;
              apiModelPath := acsTemplatePath f;
              name := acsResourceName f;
              dnsPrefix := acsDnsPrefix f;
              location := acsLocation f;
              resourceGroup := acsResourceGroupName f;
              outputDir := tempdir;
              sshPublicKey := sshKey;
              credentials := Some creds;
              acsCustomHyperKubeURL := "";
              acsCustomWinBinariesURL := "";
              acsEngineBinaryPath := "acs-engine";
              templateJSON := None;
              parametersJSON := None;
              adminUsername := "";
              adminPassword := "";
              masterVMSize := "";
              agentVMSize := "";
              azureClient := None |};
  _ ← getAzCredentials c;
  cl ← loadC c;
  err ← getARMClient c (ctx cl);
  match err with
  | Some err => mret (None, Some ("Failed to generate ARM client: " +:+ err))
  | None =>
  err ← Setenv "KUBERNETES_CONFORMANCE_TEST" "yes";
  match err with
  | Some err => mret (None, Some err)
  | None =>
  err ← Setenv "KUBERNETES_CONFORMANCE_PROVIDER" "azure";
  match err with
  | Some err => mret (None, Some err)
  | None => mret (Some c, None)
  end end end end end.

(** The composite literal that opens [generateTemplate]. *)
Definition apiModel_literal (f : Flags) (c : Cluster) (now : string)
    (cr : Creds) : AcsEngineApiModel :=
  {| ApiVersion := "vlabs";
     AM_Location := location c;
     AM_Name := name c;
     AM_Tags := {[ "date" := now ]};
     AM_Properties :=
       {| P_OrchestratorProfile :=
            {| OrchestratorType := "Kubernetes";
               OrchestratorRelease := acsOrchestratorRelease f;
               OP_KubernetesConfig :=
                 {| NetworkPlugin := acsNetworkPlugin f;
                    CustomHyperkubeImage := "";
                    CustomWindowsPackageURL := "" |} |};
          P_MasterProfile :=
            {| MP_Count := 1;
               MP_DNSPrefix := dnsPrefix c;
               MP_VMSize := acsMasterVmSize f;
               MP_IPAddressCount := 200 |};
          P_AgentPoolProfiles :=
            [ {| AP_Name := "agentpool0";
                 AP_VMSize := acsAgentVmSize f;
                 AP_Count := acsAgentPoolCount f;
                 AP_OSType := acsAgentOSType f;
                 AP_AvailabilityProfile := "AvailabilitySet";
                 AP_IPAddressCount := 200;
                 AP_PreProvisionExtension :=
                   <["name" := "node_setup"]> {[ "singleOrAll" := "all" ]};
                 AP_Extensions := [ {[ "name" := "winrm" ]} ] |} ];
          P_LinuxProfile :=
            {| LP_AdminUsername := acsAdminUsername f;
               LP_SSHKeys := {| PublicKeys := [ {| KeyData := sshPublicKey c |} ] |} |};
          P_WindowsProfile :=
            {| WP_AdminUsername := acsAdminUsername f;
               WP_AdminPassword := acsAdminPassword f |};
          P_ServicePrincipalProfile :=
            {| SP_ClientID := ClientID cr;
               SP_Secret := ClientSecret cr |};
          P_ExtensionProfiles :=
            [ <["name" := "node_setup"]>
                (<["version" := "v1"]>
                   (<["rootURL" :=
                        "https://k8swin.blob.core.windows.net/k8s-windows/preprovision_extensions/"]>
                      {[ "script" := "node_setup.ps1" ]}));
              <["name" := "winrm"]> {[ "version" := "v1" ]} ] |} |}.

(** The two [if ... else if ...] blocks of [generateTemplate] that fill in
    the custom image and the custom Windows package. *)
Definition apply_overrides (f : Flags) (c : Cluster) (v : AcsEngineApiModel)
  : AcsEngineApiModel :=
  let v :=
    if negb (is_empty (acsHyperKubeURL f))
    then set_CustomHyperkubeImage (acsHyperKubeURL f) v
    else if negb (is_empty (acsCustomHyperKubeURL c))
    then set_CustomHyperkubeImage (acsCustomHyperKubeURL c) v
    else v in
  if negb (is_empty (acsWinBinariesURL f))
  then set_CustomWindowsPackageURL (acsWinBinariesURL f) v
  else if negb (is_empty (acsCustomWinBinariesURL c))
  then set_CustomWindowsPackageURL (acsCustomWinBinariesURL c) v
  else v.

(** [func (c *Cluster) generateTemplate() error] *)
Definition generateTemplate (c : loc) : M error :=
  cl ← loadC c;
  f ← gets flags;
  now ← Now_String;
  cr ← derefCreds (credentials cl);
  let v := apply_overrides f cl (apiModel_literal f cl now cr) in
  let apiModel := result_val "" (json_MarshalIndent v) in
  storeC c (set_apiModelPath (path_Join [outputDir cl; "kubernetes.json"]));;
  cl ← loadC c;
  err ← WriteFile (apiModelPath cl) apiModel 420 (* 0644 *);
  match err with
  | Some err => mret (Some ("Cannot write to file: " +:+ err))
  | None => mret None
  end.

(** How the download loop of [getAcsEngine] and [getZipBuildScript] is
    left: by falling out of the [for] (a [break], or the condition
    [i < retry] failing), or by the [return err] inside it.  Either way
    [err] is the function-level variable [err]. *)
Inductive LoopExit : Type :=
| LoopDone (err : error)
| LoopReturn (err : error).

(** The [for i := 0; i < retry; i++] loop shared, up to the name of the
    URL, by [getAcsEngine] and [getZipBuildScript]; [n] counts the
    iterations still allowed by [i < retry].  The [err] declared by
    [if err := httpRead(...)] is local to that [if]: the [err] wrapped by
    [fmt.Errorf] on the next line is the function-level one. *)
Fixpoint downloadLoop (url downloadPath : string) (f : File) (retry : Z)
    (n : nat) (i : Z) (err : error) : M LoopExit :=
  match n with
  | O => mret (LoopDone err)
  | S n' =>
      log_Printf ("downloading " +:+ downloadPath +:+ " from " +:+ url +:+ ".");;
      e ← HttpRead url f;
      match e with
      | None => mret (LoopDone err)
      | Some _ =>
          let err := Some ("url=" +:+ url +:+ " failed get " +:+ downloadPath
                           +:+ ": " +:+ fmt_v err +:+ ".") in
          if (i =? retry - 1)%Z then mret (LoopReturn err) else
          log_Printf (fmt_v err);;
          sleep (seconds i);;
          downloadLoop url downloadPath f retry n' (i + 1)%Z err
      end
  end.

(** [func (c *Cluster) getAcsEngine(retry int) error] *)
Definition getAcsEngine (c : loc) (retry : Z) : M error :=
  home ← os_Getenv "HOME";
  let downloadPath := path_Join [home; "acs-engine.tar.gz"] in
  r ← Create downloadPath;
  match r with
  | Err err => mret (Some err)
  | Ok f =>
  with_defer (Close f) (
    url ← flag acsEngineURL;
    ex ← downloadLoop url downloadPath f retry (Z.to_nat retry) 0 None;
    match ex with
    | LoopReturn err => mret err
    | LoopDone _ =>
    Close f;;
    md5 ← flag acsEngineMD5;
    chk ← (if negb (is_empty md5)
           then o ← Output ["md5sum"; f];
                match o with
                | Err err => mret (Some err)
                | Ok o =>
                    if negb (String.eqb (first_field o) md5)
                    then mret (Some "Wrong md5 sum for acs-engine.")
                    else mret None
                end
           else mret None);
    match chk with
    | Some err => mret (Some err)
    | None =>
    cwd ← Getwd;
    match cwd with
    | Err err => mret (Some ("Unable to get current directory: " +:+ err +:+ " ."))
    | Ok cwd =>
    log_Printf ("Extracting tar file " +:+ f +:+ " into directory " +:+ cwd +:+ " .");;
    err ← FinishRunning ["tar"; "-xzf"; f; "--strip"; "1"];
    match err with
    | Some err => mret (Some err)
    | None =>
        storeC c (set_acsEngineBinaryPath (path_Join [cwd; "acs-engine"]));;
        mret None
    end end end end)
  end.

(** [func (c Cluster) generateARMTemplates() error] *)
Definition generateARMTemplates (c : Cluster) : M error :=
  err ← FinishRunning [acsEngineBinaryPath c; "generate"; apiModelPath c;
                       "--output-directory"; outputDir c];
  match err with
  | Some err => mret (Some ("Failed to generate ARM templates: " +:+ err +:+ "."))
  | None => mret None
  end.

(** [func (c *Cluster) loadARMTemplates() error] *)
Definition loadARMTemplates (c : loc) : M error :=
  cl ← loadC c;
  template ← ReadFile (path_Join [outputDir cl; "azuredeploy.json"]);
  match template with
  | Err err => mret (Some ("Error reading ARM template file: " +:+ err +:+ "."))
  | Ok template =>
  m ← make_map;
  storeC c (set_templateJSON (Some m));;
  err ← json_Unmarshal template c templateJSON set_templateJSON;
  match err with
  | Some err => mret (Some ("Error unmarshall template " +:+ err))
  | None =>
  cl ← loadC c;
  parameters ← ReadFile (path_Join [outputDir cl; "azuredeploy.parameters.json"]);
  match parameters with
  | Err err => mret (Some ("Error reading ARM parameters file: " +:+ err))
  | Ok parameters =>
  m ← make_map;
  storeC c (set_parametersJSON (Some m));;
  err ← json_Unmarshal parameters c parametersJSON set_parametersJSON;
  match err with
  | Some err => mret (Some ("Error unmarshall parameters " +:+ err))
  | None =>
  cl ← loadC c;
  v ← map_index (parametersJSON cl) "parameters";
  inner ← assert_map v;
  storeC c (set_parametersJSON inner);;
  mret None
  end end end end.

(** [func (c *Cluster) createCluster() error] *)
Definition createCluster (c : loc) : M error :=
  cl ← loadC c;
  d ← ReadDir (path_Join [outputDir cl; "kubeconfig"]);
  let kubecfgDir := result_val [] d in
  match kubecfgDir with
  | [] => panic "index out of range"
  | first :: _ =>
  let kubecfg := path_Join [outputDir cl; "kubeconfig"; first] in
  log_Printf ("Setting kubeconfig env variable: kubeconfig path: " +:+ kubecfg +:+ ".");;
  _ ← Setenv "KUBECONFIG" kubecfg;
  log_Printf ("Creating resurce group: " +:+ resourceGroup cl +:+ ".");;
  err ← ask (λ t, EnsureResourceGroup t (azureClient cl) (ctx cl)
                    (resourceGroup cl) (location cl));
  emit (EvEnsureResourceGroup (resourceGroup cl) (location cl) err);;
  match err with
  | Some err => mret (Some ("Could not ensure resource group: " +:+ err))
  | None =>
  log_Printf "Validating deployment templates.";;
  err ← ask (λ t, ValidateDeployment t (azureClient cl) (ctx cl)
                    (resourceGroup cl) (name cl)
                    (templateJSON cl) (parametersJSON cl));
  emit (EvValidateDeployment (resourceGroup cl) (name cl)
          (templateJSON cl) (parametersJSON cl) err);;
  match err with
  | Some err => mret (Some ("Template invalid: " +:+ err))
  | None =>
  log_Printf ("Deploying cluster " +:+ name cl +:+ " in resource group "
              +:+ resourceGroup cl +:+ ".");;
  err ← ask (λ t, DeployTemplate t (azureClient cl) (ctx cl)
                    (resourceGroup cl) (name cl)
                    (templateJSON cl) (parametersJSON cl));
  emit (EvDeployTemplate (resourceGroup cl) (name cl)
          (templateJSON cl) (parametersJSON cl) err);;
  match err with
  | Some err => mret (Some ("Cannot deploy: " +:+ err))
  | None => mret None
  end end end end.

(** [func (c *Cluster) buildHyperKube() error] *)
Definition buildHyperKube (c : loc) : M error :=
  buildNumber ← os_Getenv "BUILD_NUMBER";
  _ ← Setenv "VERSION" buildNumber;
  cwd ← Getwd;
  log_Printf ("CWD " +:+ result_val "" cwd);;
  err ← FinishRunning ["hack/dev-push-hyperkube.sh"];
  match err with
  | Some err => mret (Some err)
  | None =>
  registry ← os_Getenv "REGISTRY";
  version ← os_Getenv "VERSION";
  storeC c (set_acsCustomHyperKubeURL (registry +:+ "/hyperkube-amd64:" +:+ version));;
  cl ← loadC c;
  log_Printf ("Custom hyperkube url: " +:+ acsCustomHyperKubeURL cl);;
  mret None
  end.

(** [func (c *Cluster) uploadZip(zipPath string) error] *)
Definition uploadZip (c : loc) (zipPath : string) : M error :=
  cl ← loadC c;
  cr ← derefCreds (credentials cl);
  match azblob_NewSharedKeyCredential (StorageAccountName cr) (StorageAccountKey cr) with
  | Some msg => panic msg
  | None =>
  containerName ← os_Getenv "AZ_STORAGE_CONTAINER_NAME";
  match url_Parse ("https://" +:+ StorageAccountName cr
                   +:+ ".blob.core.windows.net/" +:+ containerName) with
  | None => panic "invalid memory address or nil pointer dereference"
  | Some containerURL =>
  r ← Open zipPath;
  match r with
  | Err err => mret (Some ("Failed to open file " +:+ zipPath +:+ " . Error " +:+ err))
  | Ok file =>
  let blob := filepath_Base file in
  err1 ← ask (λ t, azblob_UploadFileToBlockBlob t (StorageAccountName cr)
                     (StorageAccountKey cr) containerURL blob file);
  emit (EvUploadFileToBlockBlob (StorageAccountName cr) containerURL blob file err1);;
  Close file;;
  match err1 with
  | Some err1 => mret (Some err1)
  | None =>
  storeC c (set_acsCustomWinBinariesURL (blockBlobURL_String containerURL blob));;
  cl ← loadC c;
  log_Printf ("Custom win binaries url: " +:+ acsCustomWinBinariesURL cl);;
  mret None
  end end end end.

(** [func getZipBuildScript(buildScriptUrl string, retry int) (string, error)] *)
Definition getZipBuildScript (buildScriptUrl : string) (retry : Z)
  : M (string * error) :=
  home ← os_Getenv "HOME";
  let downloadPath := path_Join [home; "build-win-zip.sh"] in
  r ← Create downloadPath;
  match r with
  | Err err => mret ("", Some err)
  | Ok f =>
  with_defer (Close f) (
    ex ← downloadLoop buildScriptUrl downloadPath f retry (Z.to_nat retry) 0 None;
    match ex with
    | LoopReturn err => mret ("", err)
    | LoopDone _ =>
        Chmod f 484 (* 0744 *);;
        mret (downloadPath, None)
    end)
  end.

(** [func (c *Cluster) buildWinZip() error] *)
Definition buildWinZip (c : loc) : M error :=
  buildNumber ← os_Getenv "BUILD_NUMBER";
  let zip_name := buildNumber +:+ ".zip" in
  home ← os_Getenv "HOME";
  let build_folder := path_Join [home; "winbuild"] in
  let zip_path := path_Join [home; zip_name] in
  log_Printf ("Building " +:+ zip_name);;
  script ← flag acsWinZipBuildScript;
  '(build_script_path, err) ← getZipBuildScript script 2;
  match err with
  | Some err => mret (Some err)
  | None =>
  err ← FinishRunning [build_script_path; "-u"; zip_name; "-z"; build_folder];
  match err with
  | Some err => mret (Some err)
  | None =>
  log_Printf ("Uploading " +:+ zip_path);;
  err ← uploadZip c zip_path;
  match err with
  | Some err => mret (Some err)
  | None => mret None
  end end end.

(** [func (c Cluster) Up() error].  The receiver is a copy; the methods
    with pointer receivers called on it get the address of that copy. *)
Definition Up (c : Cluster) : M error :=
  c ← newC c;
  hyperKubeURL ← flag acsHyperKubeURL;
  err ← (if is_empty hyperKubeURL then buildHyperKube c else mret None);
  match err with
  | Some err => mret (Some ("Problem building hyperkube " +:+ err))
  | None =>
  winBinariesURL ← flag acsWinBinariesURL;
  err ← (if is_empty winBinariesURL then buildWinZip c else mret None);
  match err with
  | Some err => mret (Some ("Problem building windowsZipFile " +:+ err))
  | None =>
  cl ← loadC c;
  err ← (if is_empty (apiModelPath cl) then generateTemplate c else mret None);
  match err with
  | Some err => mret (Some ("Failed to generate apiModel: " +:+ err))
  | None =>
  engineURL ← flag acsEngineURL;
  err ← (if negb (is_empty engineURL) then getAcsEngine c 2 else mret None);
  match err with
  | Some err => mret (Some ("Failed to get ACS Engine binary: " +:+ err))
  | None =>
  cl ← loadC c;
  err ← generateARMTemplates cl;
  match err with
  | Some err => mret (Some ("Failed to generate ARM templates: " +:+ err))
  | None =>
  err ← loadARMTemplates c;
  match err with
  | Some err => mret (Some ("Error loading ARM templates: " +:+ err))
  | None =>
  err ← createCluster c;
  match err with
  | Some err => mret (Some ("Error creating cluster: " +:+ err))
  | None => mret None
  end end end end end end end.

(** [func (c Cluster) Down() error] *)
Definition Down (c : Cluster) : M error :=
  log_Printf ("Deleting resource group: " +:+ resourceGroup c +:+ ".");;
  err ← ask (λ t, DeleteResourceGroup t (azureClient c) (ctx c) (resourceGroup c));
  emit (EvDeleteResourceGroup (resourceGroup c) err);;
  mret err.

(** A method with a value receiver called through the [*Cluster] that
    [newAcsEngine] returned: [p.Up()] is [( *p).Up()]. *)
Definition call_Up (p : loc) : M error :=
  c ← loadC p;
  Up c.

End Program.

(** ** The Up sequence as a list of stages

    A second description of [Up], used to state what a failing stage does:
    the seven stages in order, each with the condition under which it
    runs, the call it makes and the text put in front of its error. *)

Inductive Stage : Type :=
| StBuildHyperKube
| StBuildWinZip
| StGenerateTemplate
| StGetAcsEngine
| StGenerateARMTemplates
| StLoadARMTemplates
| StCreateCluster.

Definition Up_stages : list Stage :=
  [StBuildHyperKube; StBuildWinZip; StGenerateTemplate; StGetAcsEngine;
   StGenerateARMTemplates; StLoadARMTemplates; StCreateCluster].

Definition stage_context (s : Stage) : string :=
  match s with
  | StBuildHyperKube => "Problem building hyperkube "
  | StBuildWinZip => "Problem building windowsZipFile "
  | StGenerateTemplate => "Failed to generate apiModel: "
  | StGetAcsEngine => "Failed to get ACS Engine binary: "
  | StGenerateARMTemplates => "Failed to generate ARM templates: "
  | StLoadARMTemplates => "Error loading ARM templates: "
  | StCreateCluster => "Error creating cluster: "
  end.

Section Stages.
Context `{X : Externals}.

(** Whether the stage runs, decided when the sequence reaches it. *)
Definition stage_guard (s : Stage) (c : loc) : M bool :=
  match s with
  | StBuildHyperKube => u ← flag acsHyperKubeURL; mret (is_empty u)
  | StBuildWinZip => u ← flag acsWinBinariesURL; mret (is_empty u)
  | StGenerateTemplate => cl ← loadC c; mret (is_empty (apiModelPath cl))
  | StGetAcsEngine => u ← flag acsEngineURL; mret (negb (is_empty u))
  | StGenerateARMTemplates | StLoadARMTemplates | StCreateCluster => mret true
  end.

Definition stage_run (s : Stage) (c : loc) : M error :=
  match s with
  | StBuildHyperKube => buildHyperKube c
  | StBuildWinZip => buildWinZip c
  | StGenerateTemplate => generateTemplate c
  | StGetAcsEngine => getAcsEngine c 2
  | StGenerateARMTemplates => cl ← loadC c; generateARMTemplates cl
  | StLoadARMTemplates => loadARMTemplates c
  | StCreateCluster => createCluster c
  end.

Fixpoint run_stages (stages : list Stage) (c : loc) : M error :=
  match stages with
  | [] => mret None
  | s :: rest =>
      b ← stage_guard s c;
      err ← (if b : bool then stage_run s c else mret None);
      match err with
      | Some err => mret (Some (stage_context s +:+ err))
      | None => run_stages rest c
      end
  end.

End Stages.

(** The rest of [Up] once the image-build stage has returned [err]: the
    text of [Up] from its first [if err != nil] on. *)
Definition Up_after_build `{X : Externals} (c : loc) (err : error) : M error :=
  match err with
  | Some err => mret (Some ("Problem building hyperkube " +:+ err))
  | None =>
  winBinariesURL ← flag acsWinBinariesURL;
  err ← (if is_empty winBinariesURL then buildWinZip c else mret None);
  match err with
  | Some err => mret (Some ("Problem building windowsZipFile " +:+ err))
  | None =>
  cl ← loadC c;
  err ← (if is_empty (apiModelPath cl) then generateTemplate c else mret None);
  match err with
  | Some err => mret (Some ("Failed to generate apiModel: " +:+ err))
  | None =>
  engineURL ← flag acsEngineURL;
  err ← (if negb (is_empty engineURL) then getAcsEngine c 2 else mret None);
  match err with
  | Some err => mret (Some ("Failed to get ACS Engine binary: " +:+ err))
  | None =>
  cl ← loadC c;
  err ← generateARMTemplates cl;
  match err with
  | Some err => mret (Some ("Failed to generate ARM templates: " +:+ err))
  | None =>
  err ← loadARMTemplates c;
  match err with
  | Some err => mret (Some ("Error loading ARM templates: " +:+ err))
  | None =>
  err ← createCluster c;
  match err with
  | Some err => mret (Some ("Error creating cluster: " +:+ err))
  | None => mret None
  end end end end end end end.

(** The world in which the body of [Up] starts: the receiver has been
    copied to a new cell. *)
Definition Up_entry (c0 : Cluster) (w : World) : World :=
  set_clusterHeap (clusterHeap w ++ [c0]) w.

(** ** Vocabulary of the properties *)

(** The calls by which [buildHyperKube] builds and pushes the image. *)
Definition is_hyperkube_build (e : Event) : bool :=
  match e with
  | EvSetenv key _ => String.eqb key "VERSION"
  | EvFinishRunning [cmd] _ => String.eqb cmd "hack/dev-push-hyperkube.sh"
  | _ => false
  end.

(** The one teardown action of the file. *)
Definition is_rollback (e : Event) : bool :=
  match e with
  | EvDeleteResourceGroup _ _ => true
  | _ => false
  end.

(** A call into the Azure client. *)
Definition is_cloud_call (e : Event) : bool :=
  match e with
  | EvEnsureResourceGroup _ _ _
  | EvValidateDeployment _ _ _ _ _
  | EvDeployTemplate _ _ _ _ _
  | EvDeleteResourceGroup _ _ => true
  | _ => false
  end.

(** What the download loop does: log, download, sleep. *)
Definition is_loop_event (e : Event) : bool :=
  match e with
  | EvLog _ | EvHttpRead _ _ _ | EvSleep _ => true
  | _ => false
  end.

(** The download attempts recorded in a trace, and the sleeps. *)
Definition is_download (e : Event) : bool :=
  match e with
  | EvHttpRead _ _ _ => true
  | _ => false
  end.

Definition downloads (t : list Event) : list Event := List.filter is_download t.

Definition sleeps (t : list Event) : list Z :=
  omap (λ e, match e with EvSleep d => Some d | _ => None end) t.

(** [wp m Q E w]: run from [w], [m] returns a value and a world satisfying
    [Q], or panics in a world satisfying [E]. *)
Definition wp {A} (m : M A) (Q : A → World → Prop) (E : World → Prop)
    (w : World) : Prop :=
  match m w with
  | Ret a w' => Q a w'
  | Panic _ w' => E w'
  end.

(** [m] keeps [I], however it ends. *)
Definition inv_ok (I : World → Prop) {A} (m : M A) : Prop :=
  ∀ w, I w → wp m (λ _, I) I w.

(** What a callee working on fresh addresses leaves of the world [w0] it
    started in: the flags, every cell of the three heaps, and a trace
    extended by events that satisfy [P]. *)
Definition inv (P : Event → bool) (w0 w : World) : Prop :=
  flags w = flags w0 ∧
  (∃ t, trace w = trace w0 ++ t ∧ Forall (λ e, P e = true) t) ∧
  clusterHeap w0 `prefix_of` clusterHeap w ∧
  credsHeap w0 `prefix_of` credsHeap w ∧
  mapHeap w0 `prefix_of` mapHeap w.

(** A decoder that only ever adds cells to the heap of maps. *)
Definition extends_heap
    (dec : jtree → list (gmap string jval) → jval * list (gmap string jval))
    (t : jtree) : Prop :=
  ∀ h, h `prefix_of` (dec t h).2.

(** The error held by the function-level [err] after [k] more failed
    attempts: each wraps the one before, starting from [err]. *)
Fixpoint stale_error (url downloadPath : string) (k : nat) (err : option string)
  : option string :=
  match k with
  | O => err
  | S k =>
      stale_error url downloadPath k
        (Some ("url=" +:+ url +:+ " failed get " +:+ downloadPath
               +:+ ": " +:+ fmt_v err +:+ "."))
  end.


(** ** A concrete environment, for running the program *)

(** [path.Join] on elements that are already clean: the non-empty ones,
    separated by slashes. *)
Definition demo_Join (elems : list string) : string :=
  String.concat "/" (List.filter (λ s, negb (is_empty s)) elems).

(** [filepath.Base] on such a path: the text after the last slash. *)
Fixpoint demo_Base (acc s : string) : string :=
  match s with
  | EmptyString => acc
  | String c r =>
      if Ascii.eqb c "/"%char then demo_Base "" r
      else demo_Base (acc +:+ String c "") r
  end.

(** An environment in which every call answers the same way whatever the
    history; the arguments are the answers that the scenarios below vary. *)
Definition demo (readFile : string → result string)
    (readDir : result (list string))
    (download : error)
    (finishRunning : list string → error)
    (md5sum : result string)
    (marshal : result string)
    (parse : string → result jtree)
    (validate : error) : Externals :=
  {| path_Join := demo_Join;
     filepath_Base := demo_Base "";
     ioutil_ReadFile := λ _ path, readFile path;
     ioutil_WriteFile := λ _ _ _ _, None;
     ioutil_ReadDir := λ _ _, readDir;
     ioutil_TempDir := λ _ dir pfx, Ok (demo_Join [dir; pfx +:+ "123"]);
     os_Create := λ _ _, None;
     os_Open := λ _ _, None;
     os_Getwd := λ _, Ok "/go/src/k8s.io/kubernetes";
     os_Setenv := λ _ _ _, None;
     time_Now_String := λ _, "2018-06-01 12:00:00 +0000 UTC";
     uuid_NewV1_String := λ _, "6ba7b810-9dad-11d1-80b4-00c04fd430c8";
     url_Parse := λ u, Some u;
     json_MarshalIndent := λ _, marshal;
     json_parse := parse;
     toml_Unmarshal := λ _ _,
       (mkConfig (mkCreds "client" "secret" "tenant" "subscription" "account" "c3RvcmFnZS1rZXk="),
        None);
     httpRead := λ _ _ _, download;
     control_FinishRunning := λ _ argv, finishRunning argv;
     control_Output := λ _ _, md5sum;
     getAzureClient := λ _ _ _ _ _, Ok 7;
     azblob_NewSharedKeyCredential := λ _ _, None;
     azblob_UploadFileToBlockBlob := λ _ _ _ _ _ _, None;
     blockBlobURL_String := λ u blob, u +:+ "/" +:+ blob;
     EnsureResourceGroup := λ _ _ _ _ _, None;
     ValidateDeployment := λ _ _ _ _ _ _ _, validate;
     DeployTemplate := λ _ _ _ _ _ _ _, None;
     DeleteResourceGroup := λ _ _ _ _, None |}.

(** Files of the happy scenario: everything is readable; the ARM
    parameters carry their [parameters] envelope. *)
Definition demo_files (path : string) : result string := Ok path.

Definition demo_parse (data : string) : result jtree :=
  if String.eqb data "/home/ci/acs123/azuredeploy.parameters.json"
  then Ok (TObj [("parameters", TObj [("location", TObj [("value", TStr "westus2")])])])
  else Ok (TObj [("resources", TArr [])]).

Definition happy : Externals :=
  demo demo_files (Ok ["kubeconfig.westus2.json"]) None (λ _, None)
    (Ok "0123abcd  /home/ci/acs-engine.tar.gz") (Ok "{}") demo_parse None.

(** The image push script fails. *)
Definition failing_build : Externals :=
  demo demo_files (Ok ["kubeconfig.westus2.json"]) None
    (λ argv, match argv with
             | ["hack/dev-push-hyperkube.sh"] => Some "exit status 1"
             | _ => None
             end)
    (Ok "0123abcd  /home/ci/acs-engine.tar.gz") (Ok "{}") demo_parse None.


(** Every download fails with [msg]. *)
Definition downloads_fail (msg : string) : Externals :=
  demo demo_files (Ok ["kubeconfig.westus2.json"]) (Some msg) (λ _, None)
    (Ok "0123abcd  /home/ci/acs-engine.tar.gz") (Ok "{}") demo_parse None.

(** The credentials file cannot be read; everything else is as in the
    happy scenario. *)
Definition creds_unreadable (msg : string) : Externals :=
  demo (λ path, if String.eqb path "/etc/azure/creds.toml" then Err msg else Ok path)
    (Ok ["kubeconfig.westus2.json"]) None (λ _, None)
    (Ok "0123abcd  /home/ci/acs-engine.tar.gz") (Ok "{}") demo_parse None.

(** [X] with other answers from [toml.Unmarshal] and [getAzureClient]. *)
Definition with_credentials (toml : Config * option string) (client : result nat)
    (X : Externals) : Externals :=
  {| path_Join := @path_Join X;
     filepath_Base := @filepath_Base X;
     ioutil_ReadFile := @ioutil_ReadFile X;
     ioutil_WriteFile := @ioutil_WriteFile X;
     ioutil_ReadDir := @ioutil_ReadDir X;
     ioutil_TempDir := @ioutil_TempDir X;
     os_Create := @os_Create X;
     os_Open := @os_Open X;
     os_Getwd := @os_Getwd X;
     os_Setenv := @os_Setenv X;
     time_Now_String := @time_Now_String X;
     uuid_NewV1_String := @uuid_NewV1_String X;
     url_Parse := @url_Parse X;
     json_MarshalIndent := @json_MarshalIndent X;
     json_parse := @json_parse X;
     toml_Unmarshal := λ _ _, toml;
     httpRead := @httpRead X;
     control_FinishRunning := @control_FinishRunning X;
     control_Output := @control_Output X;
     getAzureClient := λ _ _ _ _ _, client;
     azblob_NewSharedKeyCredential := @azblob_NewSharedKeyCredential X;
     azblob_UploadFileToBlockBlob := @azblob_UploadFileToBlockBlob X;
     blockBlobURL_String := @blockBlobURL_String X;
     EnsureResourceGroup := @EnsureResourceGroup X;
     ValidateDeployment := @ValidateDeployment X;
     DeployTemplate := @DeployTemplate X;
     DeleteResourceGroup := @DeleteResourceGroup X |}.

(** The credentials file is read, but parsing it stops with an error after
    some fields have been filled in. *)
Definition creds_unparsable (msg : string) : Externals :=
  with_credentials
    (mkConfig (mkCreds "client" "secret" "tenant" "subscription" "" ""), Some msg)
    (Ok 7) happy.

(** The credentials file cannot be read, and the Azure client refuses the
    empty credentials. *)
Definition creds_unreadable_client_refuses (msg refusal : string) : Externals :=
  with_credentials (mkConfig empty_Creds, None) (Err refusal) (creds_unreadable msg).

(** The parameters file holds the JSON document [{}]. *)
Definition parameters_without_envelope : Externals :=
  demo demo_files (Ok ["kubeconfig.westus2.json"]) None (λ _, None)
    (Ok "0123abcd  /home/ci/acs-engine.tar.gz") (Ok "{}")
    (λ data, if String.eqb data "/home/ci/acs123/azuredeploy.parameters.json"
             then Ok (TObj [])
             else Ok (TObj [("resources", TArr [])]))
    None.

(** Azure rejects the template. *)
Definition validation_fails : Externals :=
  demo demo_files (Ok ["kubeconfig.westus2.json"]) None (λ _, None)
    (Ok "0123abcd  /home/ci/acs-engine.tar.gz") (Ok "{}") demo_parse
    (Some "InvalidTemplate").


Definition demo_flags (hyperKubeURL winBinariesURL engineURL engineMD5 : string)
  : Flags :=
  {| acsResourceName := "kubetest-1";
     acsResourceGroupName := "kubetest-1-rg";
     acsLocation := "westus2";
     acsMasterVmSize := "Standard_D2s_v3";
     acsAgentVmSize := "Standard_D2s_v3";
     acsAdminUsername := "azureuser";
     acsAdminPassword := "P@ssw0rd1";
     acsAgentPoolCount := 2;
     acsAgentOSType := "Windows";
     acsTemplatePath := "";
     acsDnsPrefix := "kubetest-1";
     acsEngineURL := engineURL;
     acsEngineMD5 := engineMD5;
     acsSSHPublicKeyPath := "/home/ci/.ssh/id_rsa.pub";
     acsWinBinariesURL := winBinariesURL;
     acsHyperKubeURL := hyperKubeURL;
     acsCredentialsFile := "/etc/azure/creds.toml";
     acsOrchestratorRelease := "1.11";
     acsWinZipBuildScript :=
       "https://raw.githubusercontent.com/Azure/acs-engine/master/scripts/build-windows-k8s.sh";
     acsNetworkPlugin := "azure" |}.

(** The Cluster that [newAcsEngine] builds from those flags. *)
Definition demo_cluster : Cluster :=
  {| ctx := context_Background;
     credentials := Some 0;
     location := "westus2";
     resourceGroup := "kubetest-1-rg";
     name := "kubetest-1";
     apiModelPath := "";
     dnsPrefix := "kubetest-1";
     templateJSON := None;
     parametersJSON := None;
     outputDir := "/home/ci/acs123";
     sshPublicKey := "ssh-rsa AAAA";
     adminUsername := "";
     adminPassword := "";
     masterVMSize := "";
     agentVMSize := "";
     acsCustomHyperKubeURL := "";
     acsCustomWinBinariesURL := "";
     acsEngineBinaryPath := "acs-engine";
     azureClient := Some 7 |}.

Definition demo_world (f : Flags) : World :=
  {| flags := f;
     environ := <["HOME" := "/home/ci"]> (<["BUILD_NUMBER" := "42"]>
                  (<["REGISTRY" := "registry.example"]>
                     (<["AZ_STORAGE_CONTAINER_NAME" := "kubetest"]> ∅)));
     clusterHeap := [demo_cluster];
     credsHeap := [mkCreds "client" "secret" "tenant" "subscription" "account" "c3RvcmFnZS1rZXk="];
     mapHeap := [];
     trace := [] |}.

(** ** Further scenarios *)

(** The flags of a run that names nothing: no resource name, no resource
    group, no DNS prefix, no key path. *)
Definition unnamed_flags : Flags :=
  set_acsResourceName ""
    (set_acsResourceGroupName ""
       (set_acsDnsPrefix "" (set_acsSSHPublicKeyPath "" (demo_flags "" "" "" "")))).

(** ** The ways a call of newAcsEngine can end *)

Inductive newAcsEngine_outcome `{X : Externals} (w : World) :
    option nat * option string → World → Prop :=
| new_config_error err w' :
    checkParams w = Ret (Some err) w' →
    newAcsEngine_outcome w
      (None, Some ("Error creating Azure K8S cluster: " +:+ err)) w'
| new_key_error path err w' :
    path = acsSSHPublicKeyPath (flags w') →
    newAcsEngine_outcome w
      (None, Some ("Error reading SSH Key " +:+ path +:+ " " +:+ err)) w'
| new_client_error err w' :
    newAcsEngine_outcome w
      (None, Some ("Failed to generate ARM client: Error trying to get Azure Client: "
                   +:+ err)) w'
| new_setenv_error err w' :
    newAcsEngine_outcome w (None, Some err) w'
| new_cluster p cl l cr client w' :
    clusterHeap w !! p = None →
    clusterHeap w' !! p = Some cl →
    credsHeap w' !! l = Some cr →
    cl = {| ctx := context_Background;
            credentials := Some l;
            location := acsLocation (flags w');
            resourceGroup := acsResourceGroupName (flags w');
            name := acsResourceName (flags w');
            apiModelPath := acsTemplatePath (flags w');
            dnsPrefix := acsDnsPrefix (flags w');
            templateJSON := None;
            parametersJSON := None;
            outputDir := outputDir cl;
            sshPublicKey := sshPublicKey cl;
            adminUsername := "";
            adminPassword := "";
            masterVMSize := "";
            agentVMSize := "";
            acsCustomHyperKubeURL := "";
            acsCustomWinBinariesURL := "";
            acsEngineBinaryPath := "acs-engine";
            azureClient := Some client |} →
    acsResourceName (flags w') ≠ "" →
    acsResourceGroupName (flags w') ≠ "" →
    acsDnsPrefix (flags w') ≠ "" →
    environ w' !! "KUBERNETES_CONFORMANCE_TEST" = Some "yes" →
    environ w' !! "KUBERNETES_CONFORMANCE_PROVIDER" = Some "azure" →
    newAcsEngine_outcome w (Some p, None) w'.

(** The results of the download attempts recorded in a trace, in order. *)
Definition download_results (t : list Event) : list error :=
  omap (λ e, match e with EvHttpRead _ _ r => Some r | _ => None end) t.

(** How often a trace closes the file [f]. *)
Definition is_close (f : string) (e : Event) : bool :=
  match e with
  | EvClose g => String.eqb g f
  | _ => false
  end.

Definition closes (f : string) (t : list Event) : nat :=
  length (List.filter (is_close f) t).

(** The upload to the storage account is refused. *)
Definition upload_fails (msg : string) : Externals :=
  {| path_Join := @path_Join happy;
     filepath_Base := @filepath_Base happy;
     ioutil_ReadFile := @ioutil_ReadFile happy;
     ioutil_WriteFile := @ioutil_WriteFile happy;
     ioutil_ReadDir := @ioutil_ReadDir happy;
     ioutil_TempDir := @ioutil_TempDir happy;
     os_Create := @os_Create happy;
     os_Open := @os_Open happy;
     os_Getwd := @os_Getwd happy;
     os_Setenv := @os_Setenv happy;
     time_Now_String := @time_Now_String happy;
     uuid_NewV1_String := @uuid_NewV1_String happy;
     url_Parse := @url_Parse happy;
     json_MarshalIndent := @json_MarshalIndent happy;
     json_parse := @json_parse happy;
     toml_Unmarshal := @toml_Unmarshal happy;
     httpRead := @httpRead happy;
     control_FinishRunning := @control_FinishRunning happy;
     control_Output := @control_Output happy;
     getAzureClient := @getAzureClient happy;
     azblob_NewSharedKeyCredential := @azblob_NewSharedKeyCredential happy;
     azblob_UploadFileToBlockBlob := λ _ _ _ _ _ _, Some msg;
     blockBlobURL_String := @blockBlobURL_String happy;
     EnsureResourceGroup := @EnsureResourceGroup happy;
     ValidateDeployment := @ValidateDeployment happy;
     DeployTemplate := @DeployTemplate happy;
     DeleteResourceGroup := @DeleteResourceGroup happy |}.

(** The storage library refuses the account key: it is not base64. *)
Definition key_not_base64 : Externals :=
  {| path_Join := @path_Join happy;
     filepath_Base := @filepath_Base happy;
     ioutil_ReadFile := @ioutil_ReadFile happy;
     ioutil_WriteFile := @ioutil_WriteFile happy;
     ioutil_ReadDir := @ioutil_ReadDir happy;
     ioutil_TempDir := @ioutil_TempDir happy;
     os_Create := @os_Create happy;
     os_Open := @os_Open happy;
     os_Getwd := @os_Getwd happy;
     os_Setenv := @os_Setenv happy;
     time_Now_String := @time_Now_String happy;
     uuid_NewV1_String := @uuid_NewV1_String happy;
     url_Parse := @url_Parse happy;
     json_MarshalIndent := @json_MarshalIndent happy;
     json_parse := @json_parse happy;
     toml_Unmarshal := @toml_Unmarshal happy;
     httpRead := @httpRead happy;
     control_FinishRunning := @control_FinishRunning happy;
     control_Output := @control_Output happy;
     getAzureClient := @getAzureClient happy;
     azblob_NewSharedKeyCredential := λ _ _, Some "illegal base64 data at input byte 3";
     azblob_UploadFileToBlockBlob := @azblob_UploadFileToBlockBlob happy;
     blockBlobURL_String := @blockBlobURL_String happy;
     EnsureResourceGroup := @EnsureResourceGroup happy;
     ValidateDeployment := @ValidateDeployment happy;
     DeployTemplate := @DeployTemplate happy;
     DeleteResourceGroup := @DeleteResourceGroup happy |}.

(** The calls into the Azure client recorded in a trace, in order. *)
Definition cloud_calls (t : list Event) : list Event := List.filter is_cloud_call t.

(** ** The stages that a call of Up will run

    Whether a stage runs, read off the flags and the receiver when [Up]
    is entered. *)
Definition stage_enabled (f : Flags) (c0 : Cluster) (s : Stage) : bool :=
  match s with
  | StBuildHyperKube => is_empty (acsHyperKubeURL f)
  | StBuildWinZip => is_empty (acsWinBinariesURL f)
  | StGenerateTemplate => is_empty (apiModelPath c0)
  | StGetAcsEngine => negb (is_empty (acsEngineURL f))
  | StGenerateARMTemplates | StLoadARMTemplates | StCreateCluster => true
  end.

(** A list of stages run one after the other, without conditions. *)
Fixpoint run_unguarded `{X : Externals} (stages : list Stage) (c : nat) : M error :=
  match stages with
  | [] => mret None
  | s :: rest =>
      err ← stage_run s c;
      match err with
      | Some err => mret (Some (stage_context s +:+ err))
      | None => run_unguarded rest c
      end
  end.

(** * Properties *)

(** ** Reasoning about runs *)

Lemma is_empty_true s : is_empty s = true ↔ s = "".
Proof. destruct s; cbn; split; congruence. Qed.

Lemma is_empty_false s : is_empty s = false ↔ s ≠ "".
Proof. destruct s; cbn; split; congruence. Qed.

Lemma inv_ret I {A} (a : A) : inv_ok I (mret a).
Proof. intros w Hw. exact Hw. Qed.

Lemma inv_panic I {A} msg : inv_ok I (@panic A msg).
Proof. intros w Hw. exact Hw. Qed.

Lemma inv_gets I {A} (f : World → A) : inv_ok I (gets f).
Proof. intros w Hw. exact Hw. Qed.

Lemma inv_bind I {A B} (m : M A) (k : A → M B) :
  inv_ok I m → (∀ a, inv_ok I (k a)) → inv_ok I (m ≫= k).
Proof.
  intros Hm Hk w Hw. specialize (Hm w Hw). unfold wp in *.
  unfold mbind, M_bind. destruct (m w) as [a w'|msg w']; [|exact Hm].
  apply Hk, Hm.
Qed.

Lemma inv_defer I {A} (d : M unit) (body : M A) :
  inv_ok I d → inv_ok I body → inv_ok I (with_defer d body).
Proof.
  intros Hd Hb w Hw. specialize (Hb w Hw). unfold wp, with_defer in *.
  destruct (body w) as [a w'|msg w'].
  - specialize (Hd w' Hb). unfold wp in Hd. destruct (d w'); exact Hd.
  - specialize (Hd w' Hb). unfold wp in Hd. destruct (d w'); exact Hd.
Qed.

Section Inv.
Context `{X : Externals}.
Variable P : Event → bool.
Variable w0 : World.

Lemma inv_refl : inv P w0 w0.
Proof.
  split_and!; try reflexivity.
  exists []. split; [by rewrite app_nil_r | constructor].
Qed.

Lemma inv_emit e : P e = true → inv_ok (inv P w0) (emit e).
Proof.
  intros He [fl env ch crh mh tr] (Hf & (t & Ht & HP) & Hc & Hcr & Hm).
  cbn in *. split_and!; try assumption.
  exists (t ++ [e]). split.
  - rewrite Ht. by rewrite app_assoc.
  - apply Forall_app. split; [assumption | by constructor].
Qed.

Lemma inv_set_environ f :
  inv_ok (inv P w0) (modify (λ w, set_environ (f w) w)).
Proof. intros [fl env ch crh mh tr] Hw. exact Hw. Qed.

Lemma inv_loadC p : inv_ok (inv P w0) (loadC p).
Proof.
  intros w Hw. unfold wp, loadC. destruct (clusterHeap w !! p); exact Hw.
Qed.

Lemma inv_storeC p f :
  length (clusterHeap w0) ≤ p → inv_ok (inv P w0) (storeC p f).
Proof.
  intros Hp w Hw. unfold wp, storeC.
  destruct (clusterHeap w !! p) as [c|] eqn:Hl; [|exact Hw].
  destruct Hw as (Hf & Ht & Hc & Hcr & Hm).
  destruct w as [fl env ch crh mh tr]; cbn in *.
  split_and!; try assumption.
  destruct Hc as [k ->]. exists (<[p - length (clusterHeap w0):=f c]> k).
  by rewrite insert_app_r_alt.
Qed.

Lemma inv_derefCreds p : inv_ok (inv P w0) (derefCreds p).
Proof.
  intros w Hw. unfold wp, derefCreds. destruct p as [l|]; [|exact Hw].
  destruct (credsHeap w !! l); exact Hw.
Qed.

Lemma inv_make_map : inv_ok (inv P w0) make_map.
Proof.
  intros [fl env ch crh mh tr] (Hf & Ht & Hc & Hcr & Hm). cbn in *.
  split_and!; try assumption. by apply prefix_app_r.
Qed.

Lemma inv_map_index m key : inv_ok (inv P w0) (map_index m key).
Proof.
  intros w Hw. unfold wp, map_index. destruct m as [l|]; [|exact Hw].
  destruct (mapHeap w !! l); exact Hw.
Qed.

End Inv.

(** *** Decoding only ever extends the heap of maps *)

Lemma decode_items_prefix dec items h :
  Forall (extends_heap dec) items →
  h `prefix_of` (decode_items dec items h).2.
Proof.
  intros Hall. revert h. induction Hall as [|t r Ht _ IH]; intros h; cbn.
  - reflexivity.
  - specialize (Ht h). destruct (dec t h) as [v h1]. cbn in Ht.
    specialize (IH h1). destruct (decode_items dec r h1) as [vs h2]. cbn in *.
    by etrans.
Qed.

Lemma decode_object_prefix dec members m h :
  Forall (λ kt, extends_heap dec kt.2) members →
  h `prefix_of` (decode_object dec members m h).2.
Proof.
  intros Hall. revert m h. induction Hall as [|[k t] r Ht _ IH]; intros m h; cbn.
  - reflexivity.
  - specialize (Ht h). cbn in Ht. destruct (dec t h) as [v h1]. cbn in Ht.
    etrans; [exact Ht | apply IH].
Qed.

Lemma decode_value_prefix t : extends_heap decode_value t.
Proof.
  induction t as [| | | |items IH|members IH] using jtree_nested_ind;
    intros h; cbn; try reflexivity.
  - pose proof (decode_items_prefix decode_value items h IH) as Hp.
    destruct (decode_items decode_value items h) as [vs h']. exact Hp.
  - pose proof (decode_object_prefix decode_value members ∅ h IH) as Hp.
    destruct (decode_object decode_value members ∅ h) as [m h']. cbn in *.
    etrans; [exact Hp | by apply prefix_app_r].
Qed.

Lemma prefix_alter_ge {A} (f : A → A) (h0 h : list A) l :
  length h0 ≤ l → h0 `prefix_of` h → h0 `prefix_of` alter f l h.
Proof.
  intros Hl [k ->]. exists (alter f (l - length h0) k).
  by rewrite alter_app_r_alt.
Qed.

Lemma decode_members_prefix h0 l members h :
  length h0 ≤ l → h0 `prefix_of` h → h0 `prefix_of` decode_members l members h.
Proof.
  intros Hl. revert h. induction members as [|[k t] r IH]; intros h Hh; cbn.
  - exact Hh.
  - pose proof (decode_value_prefix t h) as Hp.
    destruct (decode_value t h) as [v h1]. cbn in Hp.
    apply IH, prefix_alter_ge; [exact Hl | by etrans].
Qed.

(** *** What the stages leave untouched *)

Ltac unfold_prims :=
  unfold flag, os_Getenv, Setenv, log_Printf, ReadFile, WriteFile, ReadDir,
    Create, Open, Close, Chmod, Getwd, Now_String, HttpRead, sleep,
    FinishRunning, Output, ask, assert_map.

Create HintDb inv_db.

Section StageInvariants.
Context `{X : Externals}.
Variable P : Event → bool.
Variable w0 : World.
Variable c : nat.
Hypothesis Hc : length (clusterHeap w0) ≤ c.

(** A map made by [make] and then filled by [json.Unmarshal] is a new
    cell: the cells of [w0] stay as they are. *)
Lemma inv_fresh_unmarshal {B} data get set (k : option string → M B) :
  (∀ v cl, get (set v cl) = v) →
  (∀ err, inv_ok (inv P w0) (k err)) →
  inv_ok (inv P w0)
    (m ← make_map; storeC c (set (Some m));;
     err ← json_Unmarshal data c get set; k err).
Proof.
  intros Hgs Hk w Hw.
  pose proof (inv_make_map P w0 w Hw) as H1. unfold wp in H1 |- *.
  unfold mbind, M_bind. destruct (make_map w) as [m w1|] eqn:Hmk; [|exact H1].
  assert (Hm : m = length (mapHeap w)) by (unfold make_map in Hmk; congruence).
  pose proof (inv_storeC P w0 c (set (Some m)) Hc w1 H1) as H2.
  unfold wp in H2.
  destruct (storeC c (set (Some m)) w1) as [[] w2|] eqn:Hst; [|exact H2].
  assert (∃ cl, clusterHeap w2 !! c = Some (set (Some m) cl)) as [cl Hcl].
  { unfold storeC in Hst. destruct (clusterHeap w1 !! c) as [cl|] eqn:Hl; [|done].
    injection Hst as <-. exists cl. destruct w1; cbn in *.
    apply list_lookup_insert_eq. by eapply lookup_lt_Some. }
  unfold json_Unmarshal. destruct (json_parse data) as [[| | | | |members]|msg];
    try (apply Hk; exact H2).
  - pose proof (inv_storeC P w0 c (set None) Hc w2 H2) as H3. unfold wp in H3.
    unfold mbind, M_bind. destruct (storeC c (set None) w2); [|exact H3].
    apply Hk, H3.
  - unfold mbind, M_bind, loadC. rewrite Hcl, Hgs. cbn.
    apply Hk. destruct H2 as (Hf & Ht & Hcc & Hcr & Hmm).
    destruct w2 as [fl env ch crh mh tr]; cbn in *. split_and!; try assumption.
    apply decode_members_prefix; [|exact Hmm].
    subst m. destruct Hw as (_ & _ & _ & _ & Hw). apply prefix_length in Hw. lia.
Qed.

Ltac inv_step HP :=
  lazymatch goal with
  | |- inv_ok _ (mbind _ make_map) =>
      apply inv_fresh_unmarshal; [reflexivity | intros ?]
  | |- inv_ok _ (mbind _ _) => apply inv_bind; [ | intros ? ]
  | |- inv_ok _ (mret _) => apply inv_ret
  | |- inv_ok _ (panic _) => apply inv_panic
  | |- inv_ok _ (gets _) => apply inv_gets
  | |- inv_ok _ (with_defer _ _) => apply inv_defer
  | |- inv_ok _ (emit _) => apply inv_emit; apply HP; reflexivity
  | |- inv_ok _ (modify _) => apply inv_set_environ
  | |- inv_ok _ (loadC _) => apply inv_loadC
  | |- inv_ok _ (storeC _ _) => apply inv_storeC; exact Hc
  | |- inv_ok _ (derefCreds _) => apply inv_derefCreds
  | |- inv_ok _ (map_index _ _) => apply inv_map_index
  | |- inv_ok _ (match ?x with _ => _ end) => destruct x
  | |- inv_ok _ _ => solve [eauto with inv_db]
  end.

Ltac inv_go HP := unfold_prims; repeat inv_step HP.

Section Later.
(** The stages after the image build make none of its calls, and nobody
    tears anything down. *)
Hypothesis HP : ∀ e, is_hyperkube_build e || is_rollback e = false → P e = true.

Lemma downloadLoop_inv url downloadPath f retry n i err :
  inv_ok (inv P w0) (downloadLoop url downloadPath f retry n i err).
Proof.
  revert i err. induction n as [|n IH]; intros i err; cbn [downloadLoop].
  - inv_go HP.
  - unfold_prims. repeat (inv_step HP; try apply IH).
Qed.
Local Hint Resolve downloadLoop_inv : inv_db.

Lemma getAcsEngine_inv retry : inv_ok (inv P w0) (getAcsEngine c retry).
Proof. unfold getAcsEngine. inv_go HP. Qed.

Lemma generateARMTemplates_inv cl : inv_ok (inv P w0) (generateARMTemplates cl).
Proof. unfold generateARMTemplates. inv_go HP. Qed.

Lemma generateTemplate_inv : inv_ok (inv P w0) (generateTemplate c).
Proof. unfold generateTemplate. inv_go HP. Qed.

Lemma loadARMTemplates_inv : inv_ok (inv P w0) (loadARMTemplates c).
Proof. unfold loadARMTemplates. inv_go HP. Qed.

Lemma createCluster_inv : inv_ok (inv P w0) (createCluster c).
Proof. unfold createCluster. inv_go HP. Qed.

Lemma uploadZip_inv zipPath : inv_ok (inv P w0) (uploadZip c zipPath).
Proof. unfold uploadZip. inv_go HP. Qed.

Lemma getZipBuildScript_inv url retry :
  inv_ok (inv P w0) (getZipBuildScript url retry).
Proof. unfold getZipBuildScript. inv_go HP. Qed.
Local Hint Resolve uploadZip_inv getZipBuildScript_inv : inv_db.

Lemma buildWinZip_inv : inv_ok (inv P w0) (buildWinZip c).
Proof. unfold buildWinZip. inv_go HP. Qed.

Local Hint Resolve buildWinZip_inv generateTemplate_inv getAcsEngine_inv
  generateARMTemplates_inv loadARMTemplates_inv createCluster_inv : inv_db.

(** [Up] from the point where the image build has been decided. *)
Lemma Up_after_build_inv (err : option string) :
  inv_ok (inv P w0) (Up_after_build c err).
Proof. unfold Up_after_build. inv_go HP. Qed.

End Later.

Section Build.
Hypothesis HP : ∀ e, is_rollback e = false → P e = true.

Lemma buildHyperKube_inv : inv_ok (inv P w0) (buildHyperKube c).
Proof. unfold buildHyperKube. inv_go HP. Qed.

End Build.

End StageInvariants.

(** *** Runs of [Up] *)

Section UpRuns.
Context `{X : Externals}.

Lemma Up_unfold c0 w :
  Up c0 w =
  (err ← (if is_empty (acsHyperKubeURL (flags w))
          then buildHyperKube (length (clusterHeap w)) else mret None);
   Up_after_build (length (clusterHeap w)) err) (Up_entry c0 w).
Proof. destruct w. reflexivity. Qed.

Lemma inv_Up_entry P c0 w : inv P w (Up_entry c0 w).
Proof.
  destruct w as [fl env ch crh mh tr]. cbn. split_and!; try reflexivity.
  - exists []. split; [by rewrite app_nil_r | constructor].
  - by apply prefix_app_r.
Qed.

Lemma Up_inv P c0 w :
  (∀ e, is_rollback e = false → P e = true) →
  inv P w (world_of (Up c0 w)).
Proof.
  intros HP. rewrite Up_unfold.
  assert (Hall : inv_ok (inv P w)
    (err ← (if is_empty (acsHyperKubeURL (flags w))
            then buildHyperKube (length (clusterHeap w)) else mret None);
     Up_after_build (length (clusterHeap w)) err)).
  { apply inv_bind.
    - destruct (is_empty _); [by apply buildHyperKube_inv | apply inv_ret].
    - intros err. apply Up_after_build_inv; [done|].
      intros e He. apply HP. by apply orb_false_elim in He as [_ ?]. }
  specialize (Hall _ (inv_Up_entry P c0 w)). unfold wp in Hall.
  match type of Hall with match ?r with _ => _ end => destruct r end; exact Hall.
Qed.

Lemma Up_skip_build_inv P c0 w :
  (∀ e, is_hyperkube_build e || is_rollback e = false → P e = true) →
  acsHyperKubeURL (flags w) ≠ "" →
  inv P w (world_of (Up c0 w)).
Proof.
  intros HP Hflag. rewrite Up_unfold.
  apply is_empty_false in Hflag. rewrite Hflag.
  pose proof (Up_after_build_inv P w (length (clusterHeap w)) (le_n _) HP None
                _ (inv_Up_entry P c0 w)) as Hall.
  unfold wp in Hall. unfold mbind, M_bind, mret, M_ret.
  match type of Hall with match ?r with _ => _ end => destruct r end; exact Hall.
Qed.

End UpRuns.

(** ** The configured control-plane image wins, and is never rebuilt *)

Lemma hyperkube_image_of_set u v :
  hyperkube_image_of (set_CustomHyperkubeImage u v) = u.
Proof. reflexivity. Qed.

Lemma hyperkube_image_of_set_package u v :
  hyperkube_image_of (set_CustomWindowsPackageURL u v) = hyperkube_image_of v.
Proof. reflexivity. Qed.

Lemma apply_overrides_hyperkube f cl v :
  acsHyperKubeURL f ≠ "" →
  hyperkube_image_of (apply_overrides f cl v) = acsHyperKubeURL f.
Proof.
  intros Hne. apply is_empty_false in Hne. unfold apply_overrides.
  rewrite Hne. cbn [negb].
  destruct (negb (is_empty (acsWinBinariesURL f))); [reflexivity|].
  destruct (negb (is_empty (acsCustomWinBinariesURL cl))); reflexivity.
Qed.

(** Symbolic execution of straight-line code: unfold the monad, then
    split on whatever the run inspects. *)
Ltac unfold_monad :=
  unfold_prims;
  unfold mbind, M_bind, mret, M_ret, gets, modify, emit, panic, loadC, storeC,
    derefCreds, newC, newCreds, make_map, map_index, with_defer.

Ltac split_run :=
  match goal with
  | |- context [match ?x with _ => _ end] =>
      lazymatch x with
      | context [match _ with _ => _ end] => fail
      | _ => destruct x eqn:?
      end
  end.

Ltac normalize_trace := rewrite <- ?app_assoc; cbn [app].

(** Every call of [buildHyperKube] starts by exporting VERSION, a call
    that [is_hyperkube_build] recognises. *)
Lemma buildHyperKube_exports_VERSION `{X : Externals} c w :
  ∃ v t, trace (world_of (buildHyperKube c w)) = trace w ++ EvSetenv "VERSION" v :: t.
Proof.
  exists (default "" (environ w !! "BUILD_NUMBER")).
  unfold buildHyperKube. unfold_monad. destruct w as [fl env ch crh mh tr]. cbn.
  repeat (split_run; cbn); normalize_trace; eexists; reflexivity.
Qed.

(** What a run of [generateTemplate] hands to [json.MarshalIndent] and
    writes, when the receiver and its credentials are there. *)
Lemma generateTemplate_run `{X : Externals} c w cl l cr :
  clusterHeap w !! c = Some cl →
  credentials cl = Some l →
  credsHeap w !! l = Some cr →
  let v := apply_overrides (flags w) cl
             (apiModel_literal (flags w) cl (time_Now_String (trace w)) cr) in
  let path := path_Join [outputDir cl; "kubernetes.json"] in
  let content := result_val "" (json_MarshalIndent v) in
  let w' := set_trace (trace w ++ [EvNow; EvWriteFile path content 420])
              (set_clusterHeap (<[c:=set_apiModelPath path cl]> (clusterHeap w)) w) in
  generateTemplate c w =
  Ret (match ioutil_WriteFile (trace w ++ [EvNow]) path content 420 with
       | Some err => Some ("Cannot write to file: " +:+ err)
       | None => None
       end) w'.
Proof.
  intros Hc Hl Hcr. unfold generateTemplate. unfold_monad.
  destruct w as [fl env ch crh mh tr]. cbn in *.
  rewrite Hc. cbn. rewrite Hl, Hcr. cbn. rewrite Hc. cbn.
  rewrite list_lookup_insert_eq by (by eapply lookup_lt_Some). cbn.
  normalize_trace. destruct (ioutil_WriteFile _ _ _ _); reflexivity.
Qed.

(** C1: when the acsengine-hyperkube-url flag is set, the model that
    [generateTemplate] builds, serializes and writes carries the flag's
    value as its custom hyperkube image, whatever the Cluster recorded in
    [acsCustomHyperKubeURL]; and a run of [Up] makes none of the calls of
    [buildHyperKube] (exporting VERSION, running the push script), however
    the run ends. *)
Theorem configured_hyperkube_image_wins `{X : Externals} (w : World) (c0 : Cluster) :
  acsHyperKubeURL (flags w) ≠ "" →
  (∀ cl now cr,
     hyperkube_image_of
       (apply_overrides (flags w) cl (apiModel_literal (flags w) cl now cr))
     = acsHyperKubeURL (flags w)) ∧
  (∀ c cl l cr,
     clusterHeap w !! c = Some cl →
     credentials cl = Some l →
     credsHeap w !! l = Some cr →
     ∃ v, hyperkube_image_of v = acsHyperKubeURL (flags w) ∧
          trace (world_of (generateTemplate c w)) =
          trace w ++ [EvNow;
                      EvWriteFile (path_Join [outputDir cl; "kubernetes.json"])
                        (result_val "" (json_MarshalIndent v)) 420]) ∧
  (∃ t, trace (world_of (Up c0 w)) = trace w ++ t ∧
        Forall (λ e, is_hyperkube_build e = false) t).
Proof.
  intros Hflag. split_and!.
  - intros cl now cr. by apply apply_overrides_hyperkube.
  - intros c cl l cr Hc Hl Hcr. eexists. split.
    + by apply (apply_overrides_hyperkube _ cl).
    + rewrite (generateTemplate_run c w cl l cr Hc Hl Hcr). destruct w; reflexivity.
  - destruct (Up_skip_build_inv
                (λ e, negb (is_hyperkube_build e || is_rollback e)) c0 w)
      as (_ & (t & Ht & Hall) & _).
    + intros e ->. reflexivity.
    + exact Hflag.
    + exists t. split; [exact Ht|].
      eapply Forall_impl; [exact Hall|]. cbn. intros e He.
      apply negb_true_iff, orb_false_elim in He. tauto.
Qed.

Lemma configured_hyperkube_image_wins_witness :
  let w := demo_world (demo_flags "registry/img:v9" "" "" "") in
  let built := set_acsCustomHyperKubeURL "registry.example/hyperkube-amd64:42"
                 demo_cluster in
  hyperkube_image_of
    (apply_overrides (flags w) built
       (apiModel_literal (flags w) built "now" empty_Creds))
  = "registry/img:v9" ∧
  ∃ t, trace (world_of (@Up happy demo_cluster w)) = t ∧
       Forall (λ e, is_hyperkube_build e = false) t.
Proof.
  intros w built.
  destruct (@configured_hyperkube_image_wins happy w demo_cluster ltac:(discriminate))
    as (Hmodel & _ & t & Ht & Hnone).
  split; [apply Hmodel | exists t; split; [exact Ht | exact Hnone]].
Defined.

(** ** Up works on a copy *)

(** C9: a call of [Up] through the caller's [*Cluster] leaves the caller's
    Cluster as it was, and with it every map and every credentials record
    that existed before the call: the stages write to the copy that [Up]
    received, and [loadARMTemplates] fills maps it has just made.  This
    holds for every way the call can end: success, an error, a panic. *)
Theorem Up_leaves_the_callers_Cluster `{X : Externals} (p : nat) (c0 : Cluster)
    (w : World) :
  clusterHeap w !! p = Some c0 →
  let w' := world_of (call_Up p w) in
  clusterHeap w' !! p = Some c0 ∧
  (∀ q c, clusterHeap w !! q = Some c → clusterHeap w' !! q = Some c) ∧
  (∀ l m, mapHeap w !! l = Some m → mapHeap w' !! l = Some m) ∧
  (∀ l cr, credsHeap w !! l = Some cr → credsHeap w' !! l = Some cr) ∧
  flags w' = flags w.
Proof.
  intros Hp w'.
  assert (Hcall : call_Up p w = Up c0 w).
  { unfold call_Up, mbind, M_bind, loadC. by rewrite Hp. }
  subst w'. rewrite Hcall.
  destruct (Up_inv (λ e, negb (is_rollback e)) c0 w) as (Hf & _ & Hc & Hcr & Hm).
  { intros e ->. reflexivity. }
  split_and!.
  - by eapply prefix_lookup_Some.
  - intros q c Hq. by eapply prefix_lookup_Some.
  - intros l m Hl. by eapply prefix_lookup_Some.
  - intros l cr Hl. by eapply prefix_lookup_Some.
  - exact Hf.
Qed.

Lemma Up_leaves_the_callers_Cluster_witness :
  let w := demo_world (demo_flags "" "" "" "") in
  clusterHeap (world_of (@call_Up happy 0 w)) !! 0 = Some demo_cluster.
Proof.
  intros w.
  exact (proj1 (@Up_leaves_the_callers_Cluster happy 0 demo_cluster w eq_refl)).
Defined.

Ltac lookup_cases i H :=
  repeat (destruct i as [|i]; cbn in H; [try discriminate H | try discriminate H]).

(** ** Deployment: validate, then deploy *)

(** C3: in every run of [createCluster], a call of [DeployTemplate] comes
    after a call of [ValidateDeployment] for the same deployment that
    returned nil; and when [ValidateDeployment] returns an error,
    [createCluster] returns "Template invalid: " followed by that error,
    which is never the text of a failed submission ("Cannot deploy: ..."),
    and the run contains no call of [DeployTemplate]. *)
Theorem createCluster_validates_before_deploying `{X : Externals} (c : nat) (w : World) :
  ∃ t, trace (world_of (createCluster c w)) = trace w ++ t ∧
    (∀ i rg n tm pm res,
       t !! i = Some (EvDeployTemplate rg n tm pm res) →
       ∃ j, j < i ∧ t !! j = Some (EvValidateDeployment rg n tm pm None)) ∧
    (∀ rg n tm pm err,
       EvValidateDeployment rg n tm pm (Some err) ∈ t →
       createCluster c w =
         Ret (Some ("Template invalid: " +:+ err)) (world_of (createCluster c w)) ∧
       (∀ err', "Template invalid: " +:+ err ≠ "Cannot deploy: " +:+ err') ∧
       ∀ rg' n' tm' pm' res, EvDeployTemplate rg' n' tm' pm' res ∉ t).
Proof.
  unfold createCluster. unfold_monad. destruct w as [fl env ch crh mh tr]. cbn.
  repeat (split_run; cbn).
  all: eexists; split; [normalize_trace; first [reflexivity | symmetry; apply app_nil_r]|].
  all: split.
  all: try (intros i rg n tm pm res Hi; lookup_cases i Hi; simplify_eq;
            exists 6; (split; [lia | reflexivity])).
  all: intros rg n tm pm err Hin; decompose_list_elem_of; simplify_eq.
  all: split_and!;
    [ reflexivity
    | intros err' Hne; cbn in Hne; discriminate Hne
    | intros rg' n' tm' pm' res Hin; decompose_list_elem_of; simplify_eq ].
Qed.

Lemma createCluster_validates_before_deploying_witness :
  let w := demo_world (demo_flags "" "" "" "") in
  let r := @createCluster validation_fails 0 w in
  r = Ret (Some "Template invalid: InvalidTemplate") (world_of r) ∧
  ∀ rg n tm pm res, EvDeployTemplate rg n tm pm res ∉ trace (world_of r).
Proof.
  intros w r.
  destruct (@createCluster_validates_before_deploying validation_fails 0 w)
    as (t & Ht & _ & Hfail).
  change (trace w ++ t) with t in Ht. fold r in Ht. rewrite Ht.
  destruct (Hfail "kubetest-1-rg" "kubetest-1" None None "InvalidTemplate")
    as (Hr & _ & Hno).
  - rewrite <- Ht. vm_compute. do 6 apply list_elem_of_further. apply list_elem_of_here.
  - split; [exact Hr | exact Hno].
Defined.

(** ** The kubeconfig that [createCluster] exports *)

(** C10: [createCluster] lists [{outputDir}/kubeconfig], drops the error
    of the listing and takes entry 0.  If the listing succeeds with at
    least one entry, the run returns (no panic), its first calls are the
    listing, a log line and [os.Setenv("KUBECONFIG", path of entry 0)],
    every call into the Azure client comes after them, and if that Setenv
    succeeds KUBECONFIG holds the path when the run ends.  If the listing
    fails or is empty, indexing entry 0 panics right after the listing. *)
Theorem createCluster_takes_first_kubeconfig `{X : Externals} (c : nat) (w : World)
    (cl : Cluster) :
  clusterHeap w !! c = Some cl →
  let dir := path_Join [outputDir cl; "kubeconfig"] in
  (∀ first rest,
     ioutil_ReadDir (trace w) dir = Ok (first :: rest) →
     let kubecfg := path_Join [outputDir cl; "kubeconfig"; first] in
     let log := EvLog ("Setting kubeconfig env variable: kubeconfig path: "
                       +:+ kubecfg +:+ ".") in
     ∃ res t,
       createCluster c w = Ret res (world_of (createCluster c w)) ∧
       trace (world_of (createCluster c w)) =
         trace w ++ [EvReadDir dir; log; EvSetenv "KUBECONFIG" kubecfg] ++ t ∧
       Forall (λ e, is_cloud_call e = false) [EvReadDir dir; log] ∧
       (os_Setenv (trace w ++ [EvReadDir dir; log]) "KUBECONFIG" kubecfg = None →
        environ (world_of (createCluster c w)) !! "KUBECONFIG" = Some kubecfg) ∧
       (∃ e, is_cloud_call e = true ∧ e ∈ t)) ∧
  (ioutil_ReadDir (trace w) dir = Ok [] ∨
   (∃ msg, ioutil_ReadDir (trace w) dir = Err msg) →
   createCluster c w =
     Panic "index out of range" (set_trace (trace w ++ [EvReadDir dir]) w)).
Proof.
  intros Hc dir. split.
  - intros first rest Hdir kubecfg log. subst dir kubecfg log.
    unfold createCluster. unfold_monad. destruct w as [fl env ch crh mh tr].
    cbn in *. rewrite Hc. cbn. rewrite Hdir. cbn.
    repeat (split_run; cbn).
    all: eexists _, _; split_and!;
      [ reflexivity
      | normalize_trace; reflexivity
      | repeat constructor
      | intros Hset;
        first [ apply lookup_insert_eq
              | exfalso; rewrite <- ?app_assoc in *; cbn [app] in *; congruence ]
      | eexists; split;
        [| apply elem_of_cons; right; apply elem_of_cons; left; reflexivity];
        reflexivity ].
  - intros Hdir. subst dir. unfold createCluster. unfold_monad.
    destruct w as [fl env ch crh mh tr]. cbn in *. rewrite Hc. cbn.
    destruct Hdir as [-> | [msg ->]]; reflexivity.
Qed.

Lemma createCluster_takes_first_kubeconfig_witness :
  let w := demo_world (demo_flags "" "" "" "") in
  ∃ res t,
    @createCluster happy 0 w = Ret res (world_of (@createCluster happy 0 w)) ∧
    trace (world_of (@createCluster happy 0 w)) =
      [EvReadDir "/home/ci/acs123/kubeconfig";
       EvLog "Setting kubeconfig env variable: kubeconfig path: /home/ci/acs123/kubeconfig/kubeconfig.westus2.json.";
       EvSetenv "KUBECONFIG" "/home/ci/acs123/kubeconfig/kubeconfig.westus2.json"] ++ t.
Proof.
  intros w.
  destruct (proj1 (@createCluster_takes_first_kubeconfig happy 0 w demo_cluster eq_refl)
              "kubeconfig.westus2.json" [] eq_refl) as (res & t & Hres & Ht & _).
  exists res, t. split; [exact Hres | exact Ht].
Defined.

(** ** A failing stage ends the Up sequence *)

(** [Up] is the run of its seven stages in order. *)
Lemma Up_run_stages `{X : Externals} c0 w :
  Up c0 w = run_stages Up_stages (length (clusterHeap w)) (Up_entry c0 w).
Proof.
  rewrite Up_unfold.
  replace (acsHyperKubeURL (flags w))
    with (acsHyperKubeURL (flags (Up_entry c0 w))) by (by destruct w).
  generalize (Up_entry c0 w) as w1. generalize (length (clusterHeap w)) as c.
  intros c w1. unfold Up_after_build, Up_stages.
  cbn [run_stages stage_guard stage_run stage_context].
  unfold mbind, M_bind, mret, M_ret, flag, gets, loadC.
  repeat first
    [ reflexivity
    | match goal with
      | |- context [is_empty ?x] => destruct (is_empty x)
      | |- context [clusterHeap ?w !! ?p] => destruct (clusterHeap w !! p)
      | |- context [buildHyperKube ?p ?w] => destruct (buildHyperKube p w) as [[?|] ?|]
      | |- context [buildWinZip ?p ?w] => destruct (buildWinZip p w) as [[?|] ?|]
      | |- context [generateTemplate ?p ?w] => destruct (generateTemplate p w) as [[?|] ?|]
      | |- context [getAcsEngine ?p ?n ?w] => destruct (getAcsEngine p n w) as [[?|] ?|]
      | |- context [generateARMTemplates ?cl ?w] =>
          destruct (generateARMTemplates cl w) as [[?|] ?|]
      | |- context [loadARMTemplates ?p ?w] => destruct (loadARMTemplates p w) as [[?|] ?|]
      | |- context [createCluster ?p ?w] => destruct (createCluster p w) as [[?|] ?|]
      end; cbn ].
Qed.

Lemma run_stages_app `{X : Externals} pre rest c w0 w1 :
  run_stages pre c w0 = Ret None w1 →
  run_stages (pre ++ rest) c w0 = run_stages rest c w1.
Proof.
  revert w0. induction pre as [|s pre IH]; intros w0 H; cbn in *.
  - by injection H as ->.
  - unfold mbind, M_bind in *.
    destruct (stage_guard s c w0) as [b w'|]; [|done].
    destruct ((if b then stage_run s c else mret None) w') as [[e|] w''|]; try done.
    by apply IH.
Qed.

Lemma stage_context_inj s s' : stage_context s' = stage_context s → s' = s.
Proof. destruct s, s'; cbn; intros H; first [reflexivity | discriminate H]. Qed.

(** C4: when the Up sequence reaches a stage (the stages before it
    returned nil or were skipped), the stage runs and returns an error,
    then [Up] returns that error behind the text that names the stage, in
    exactly the world in which the stage returned: nothing runs after the
    failing stage, neither a later stage nor an undo of an earlier one.
    The seven texts are pairwise different, and a run of [Up] contains no
    call of [DeleteResourceGroup]. *)
Theorem Up_aborts_at_the_failing_stage `{X : Externals} (c0 : Cluster) (w : World)
    (pre post : list Stage) (s : Stage) (w1 w2 : World) (err : string) :
  Up_stages = pre ++ s :: post →
  let c := length (clusterHeap w) in
  run_stages pre c (Up_entry c0 w) = Ret None w1 →
  stage_guard s c w1 = Ret true w1 →
  stage_run s c w1 = Ret (Some err) w2 →
  Up c0 w = Ret (Some (stage_context s +:+ err)) w2 ∧
  (∀ s', stage_context s' = stage_context s → s' = s) ∧
  (∃ t, trace w2 = trace w ++ t ∧ Forall (λ e, is_rollback e = false) t).
Proof.
  intros Hsplit c Hpre Hguard Hrun.
  assert (HUp : Up c0 w = Ret (Some (stage_context s +:+ err)) w2).
  { rewrite Up_run_stages, Hsplit, (run_stages_app _ _ _ _ _ Hpre).
    cbn [run_stages]. unfold mbind, M_bind. fold c. rewrite Hguard, Hrun.
    reflexivity. }
  split_and!.
  - exact HUp.
  - apply stage_context_inj.
  - destruct (Up_inv (λ e, negb (is_rollback e)) c0 w) as (_ & (t & Ht & Hall) & _).
    { intros e ->. reflexivity. }
    rewrite HUp in Ht. exists t. split; [exact Ht|].
    eapply Forall_impl; [exact Hall|]. intros e He. by apply negb_true_iff.
Qed.

Lemma Up_aborts_at_the_failing_stage_witness :
  let w := demo_world (demo_flags "" "" "" "") in
  @Up failing_build demo_cluster w =
  Ret (Some "Problem building hyperkube exit status 1")
    (world_of (@buildHyperKube failing_build 1 (Up_entry demo_cluster w))).
Proof.
  intros w.
  exact (proj1 (@Up_aborts_at_the_failing_stage failing_build demo_cluster w
                  [] _ StBuildHyperKube (Up_entry demo_cluster w) _ "exit status 1"
                  eq_refl eq_refl eq_refl eq_refl)).
Defined.

(** ** The checksum of the downloaded acs-engine *)

(** The download loop only logs, downloads and sleeps: it leaves a world
    that differs from the one it started in by those events. *)
Lemma downloadLoop_world `{X : Externals} url path f retry n i err w :
  ∃ ex t, downloadLoop url path f retry n i err w = Ret ex (set_trace (trace w ++ t) w) ∧
          Forall (λ e, is_loop_event e = true) t.
Proof.
  revert i err w. induction n as [|n IH]; intros i err w; cbn [downloadLoop].
  - exists (LoopDone err), []. split; [|constructor].
    destruct w; cbn. by rewrite app_nil_r.
  - unfold_monad. destruct w as [fl env ch crh mh tr]. cbn.
    destruct (httpRead _ url f) as [e|] eqn:He.
    + destruct (i =? retry - 1)%Z.
      * eexists _, _. split; [normalize_trace; reflexivity|]. repeat constructor.
      * cbn. edestruct IH as (ex & t & -> & Hall). cbn.
        eexists _, _. split; [normalize_trace; reflexivity|].
        repeat (constructor; [reflexivity|]). exact Hall.
    + eexists _, _. split; [normalize_trace; reflexivity|]. repeat constructor.
Qed.






(** ** What [generateTemplate] reports *)



(** ** The retry loop of the two fetches *)

Lemma seconds_small i : (0 ≤ i ≤ 9223372036)%Z → seconds i = (i * 1000000000)%Z.
Proof.
  intros Hi. unfold seconds, wrap64, time_Second.
  rewrite (Z.mod_small (i + 2 ^ 63)) by lia.
  replace (i + 2 ^ 63 - 2 ^ 63)%Z with i by lia.
  rewrite Z.mod_small by lia. lia.
Qed.

Lemma downloadLoop_S `{X : Externals} url path f retry n i err :
  downloadLoop url path f retry (S n) i err =
  (log_Printf ("downloading " +:+ path +:+ " from " +:+ url +:+ ".");;
   e ← HttpRead url f;
   match e with
   | None => mret (LoopDone err)
   | Some _ =>
       let err := Some ("url=" +:+ url +:+ " failed get " +:+ path
                        +:+ ": " +:+ fmt_v err +:+ ".") in
       if (i =? retry - 1)%Z then mret (LoopReturn err) else
       log_Printf (fmt_v err);;
       sleep (seconds i);;
       downloadLoop url path f retry n (i + 1)%Z err
   end).
Proof. reflexivity. Qed.

Lemma downloadLoop_exhausted `{X : Externals} url path f n :
  (∀ t, httpRead t url f ≠ None) →
  ∀ i err w,
  ∃ t,
    downloadLoop url path f (i + Z.of_nat (S n)) (S n) i err w =
      Ret (LoopReturn (stale_error url path (S n) err)) (set_trace (trace w ++ t) w) ∧
    length (downloads t) = S n ∧
    sleeps t = seconds <$> seqZ i (Z.of_nat n).
Proof.
  intros Hfail. induction n as [|n IH]; intros i err w.
  - remember (i + Z.of_nat 1)%Z as retry eqn:Hretry.
    rewrite downloadLoop_S. unfold_monad. destruct w as [fl env ch crh mh tr].
    cbn -[downloadLoop].
    destruct (httpRead _ url f) as [e|] eqn:He; [|by apply Hfail in He].
    destruct (Z.eqb_spec i (retry - 1)) as [_|Hne]; [|lia].
    eexists. split; [normalize_trace; reflexivity|]. split; reflexivity.
  - remember (i + Z.of_nat (S (S n)))%Z as retry eqn:Hretry.
    rewrite downloadLoop_S. unfold_monad. destruct w as [fl env ch crh mh tr].
    cbn -[downloadLoop].
    destruct (httpRead _ url f) as [e|] eqn:He; [|by apply Hfail in He].
    destruct (Z.eqb_spec i (retry - 1)) as [Heq|_]; [lia|].
    replace retry with (i + 1 + Z.of_nat (S n))%Z by lia.
    edestruct (IH (i + 1)%Z) as (t & Hrun & Hd & Hs).
    cbn -[downloadLoop]. rewrite Hrun.
    eexists. split; [cbn; normalize_trace; reflexivity|]. split.
    + unfold downloads in *. cbn. by rewrite Hd.
    + unfold sleeps in *. cbn. rewrite Hs.
      rewrite (seqZ_cons i) by lia. cbn. repeat f_equal; lia.
Qed.

(** C2: a fetch with retry count [n + 1] whose downloads all fail makes
    [n + 1] download attempts and sleeps [seconds i] after the failed
    attempt [i] for [i < n].  The error it returns is [stale_error]: the
    [err] that [fmt.Errorf] wraps is the function-level variable, nil
    after [os.Create], so the text nests "url=... failed get ...: " around
    "<nil>" and holds the error of no download attempt, the final one
    included. *)
Theorem exhausted_fetch_returns_a_stale_error `{X : Externals} (c : nat) (n : nat)
    (buildScriptUrl : string) (w : World) :
  let home := default "" (environ w !! "HOME") in
  (* getAcsEngine *)
  (let url := acsEngineURL (flags w) in
   let path := path_Join [home; "acs-engine.tar.gz"] in
   os_Create (trace w) path = None →
   (∀ t, httpRead t url path ≠ None) →
   ∃ t w',
     getAcsEngine c (Z.of_nat (S n)) w = Ret (stale_error url path (S n) None) w' ∧
     trace w' = trace w ++ t ∧
     length (downloads t) = S n ∧
     sleeps t = seconds <$> seqZ 0 (Z.of_nat n)) ∧
  (* getZipBuildScript *)
  (let path := path_Join [home; "build-win-zip.sh"] in
   os_Create (trace w) path = None →
   (∀ t, httpRead t buildScriptUrl path ≠ None) →
   ∃ t w',
     getZipBuildScript buildScriptUrl (Z.of_nat (S n)) w =
       Ret ("", stale_error buildScriptUrl path (S n) None) w' ∧
     trace w' = trace w ++ t ∧
     length (downloads t) = S n ∧
     sleeps t = seconds <$> seqZ 0 (Z.of_nat n)).
Proof.
  intros home. subst home. split.
  - intros url path Hcreate Hfail. subst url path.
    unfold getAcsEngine. unfold_monad. destruct w as [fl env ch crh mh tr].
    cbn -[downloadLoop Z.of_nat Z.to_nat] in *. rewrite Hcreate.
    cbn -[downloadLoop Z.of_nat Z.to_nat]. rewrite Nat2Z.id.
    match goal with
    | |- context [downloadLoop ?u ?p ?f _ _ _ ?e ?w0] =>
        destruct (downloadLoop_exhausted u p f n Hfail 0 e w0) as (t & Hrun & Hd & Hs)
    end.
    rewrite Z.add_0_l in Hrun. rewrite Hrun. cbn.
    eexists _, _. split; [reflexivity|]. split; [normalize_trace; reflexivity|].
    unfold downloads, sleeps in *. cbn. rewrite List.filter_app, omap_app. cbn.
    rewrite length_app, Hd, Hs, app_nil_r. cbn. split; [lia | reflexivity].
  - intros path Hcreate Hfail. subst path.
    unfold getZipBuildScript. unfold_monad. destruct w as [fl env ch crh mh tr].
    cbn -[downloadLoop Z.of_nat Z.to_nat] in *. rewrite Hcreate.
    cbn -[downloadLoop Z.of_nat Z.to_nat]. rewrite Nat2Z.id.
    match goal with
    | |- context [downloadLoop ?u ?p ?f _ _ _ ?e ?w0] =>
        destruct (downloadLoop_exhausted u p f n Hfail 0 e w0) as (t & Hrun & Hd & Hs)
    end.
    rewrite Z.add_0_l in Hrun. rewrite Hrun. cbn.
    eexists _, _. split; [reflexivity|]. split; [normalize_trace; reflexivity|].
    unfold downloads, sleeps in *. cbn. rewrite List.filter_app, omap_app. cbn.
    rewrite length_app, Hd, Hs, app_nil_r. cbn. split; [lia | reflexivity].
Qed.

Lemma exhausted_fetch_returns_a_stale_error_witness :
  let w := demo_world (demo_flags "" "" "http://e/acs.tgz" "") in
  ∃ t w',
    @getAcsEngine (downloads_fail "connection refused") 0 2 w =
      Ret (Some "url=http://e/acs.tgz failed get /home/ci/acs-engine.tar.gz: url=http://e/acs.tgz failed get /home/ci/acs-engine.tar.gz: <nil>..") w' ∧
    trace w' = t ∧
    length (downloads t) = 2 ∧
    sleeps t = [0%Z].
Proof.
  intros w.
  exact (proj1 (@exhausted_fetch_returns_a_stale_error
                  (downloads_fail "connection refused") 0 1 "" w)
           eq_refl ltac:(discriminate)).
Defined.

(** Whatever error the downloads fail with, the two fetches return the
    same text. *)
Lemma fetch_error_ignores_the_download_error (msg : string) :
  let w := demo_world (demo_flags "" "" "http://e/acs.tgz" "") in
  let r := @getAcsEngine (downloads_fail msg) 0 2 w in
  r = Ret (Some "url=http://e/acs.tgz failed get /home/ci/acs-engine.tar.gz: url=http://e/acs.tgz failed get /home/ci/acs-engine.tar.gz: <nil>..")
        (world_of r) ∧
  downloads (trace (world_of r)) =
    [EvHttpRead "http://e/acs.tgz" "/home/ci/acs-engine.tar.gz" (Some msg);
     EvHttpRead "http://e/acs.tgz" "/home/ci/acs-engine.tar.gz" (Some msg)] ∧
  sleeps (trace (world_of r)) = [0%Z] ∧
  let r' := @getZipBuildScript (downloads_fail msg) "http://e/build.sh" 1 w in
  r' = Ret ("", Some "url=http://e/build.sh failed get /home/ci/build-win-zip.sh: <nil>.")
         (world_of r') ∧
  downloads (trace (world_of r')) =
    [EvHttpRead "http://e/build.sh" "/home/ci/build-win-zip.sh" (Some msg)].
Proof. cbv zeta. split_and!; reflexivity. Qed.

(** ** Credentials at construction *)

(** C6: with a credentials file that cannot be read or cannot be parsed,
    [getAzCredentials] returns its error and [newAcsEngine] drops it: it
    goes on to build the Azure client from whatever [c.credentials] holds
    (the empty [Creds{}] after a failed read) and returns a Cluster and a
    nil error; and when the client cannot be built, the error returned is
    that of the client, not that of the credentials. *)
Theorem newAcsEngine_ignores_credentials_failure (msg refusal : string) :
  let w := demo_world (demo_flags "" "" "" "") in
  (* the file cannot be read *)
  (let r := @newAcsEngine (creds_unreadable msg) w in
   (∃ w1, @getAzCredentials (creds_unreadable msg) 0 w =
          Ret (Some ("Error reading credentials file /etc/azure/creds.toml " +:+ msg)) w1) ∧
   r = Ret (Some 1, None) (world_of r) ∧
   (∃ cl l, clusterHeap (world_of r) !! 1 = Some cl ∧ credentials cl = Some l ∧
            credsHeap (world_of r) !! l = Some empty_Creds) ∧
   EvGetAzureClient "" "" "" "" ∈ trace (world_of r)) ∧
  (* the file cannot be parsed *)
  (let r := @newAcsEngine (creds_unparsable msg) w in
   (∃ w1, @getAzCredentials (creds_unparsable msg) 0 w =
          Ret (Some ("Error parsing credentials file /etc/azure/creds.toml " +:+ msg)) w1) ∧
   r = Ret (Some 1, None) (world_of r)) ∧
  (* the file cannot be read and the client cannot be built either *)
  (let r := @newAcsEngine (creds_unreadable_client_refuses msg refusal) w in
   r = Ret (None, Some ("Failed to generate ARM client: Error trying to get Azure Client: "
                        +:+ refusal))
         (world_of r)).
Proof.
  cbv zeta. split_and!.
  - exists (world_of (@getAzCredentials (creds_unreadable msg) 0
                        (demo_world (demo_flags "" "" "" "")))).
    vm_compute. reflexivity.
  - vm_compute. reflexivity.
  - eexists _, 1. split_and!; [vm_compute; reflexivity | reflexivity | vm_compute; reflexivity].
  - vm_compute. do 4 apply list_elem_of_further. apply list_elem_of_here.
  - exists (world_of (@getAzCredentials (creds_unparsable msg) 0
                        (demo_world (demo_flags "" "" "" "")))).
    vm_compute. reflexivity.
  - vm_compute. reflexivity.
  - vm_compute. reflexivity.
Qed.

(** ** The parameters envelope *)

Lemma decode_members_cell l members h m :
  h !! l = Some m →
  ∃ m', decode_members l members h !! l = Some m' ∧
        ∀ k, k ∉ members.*1 → m' !! k = m !! k.
Proof.
  revert h m. induction members as [|[k0 t] r IH]; intros h m Hl; cbn.
  - exists m. split; [exact Hl | reflexivity].
  - pose proof (decode_value_prefix t h) as Hp.
    destruct (decode_value t h) as [v h1]. cbn in Hp.
    assert (Hl1 : h1 !! l = Some m) by (by eapply prefix_lookup_Some).
    destruct (IH (alter (λ m, <[k0:=v]> m) l h1) (<[k0:=v]> m)) as (m' & Hm' & Hk).
    { rewrite list_lookup_alter_eq, Hl1. reflexivity. }
    exists m'. split; [exact Hm'|].
    intros k Hk0. apply not_elem_of_cons in Hk0 as [Hne Hr].
    rewrite (Hk k Hr). by apply lookup_insert_ne.
Qed.

(** C8: when both files are read and parsed and the parameters document
    is an object without a member named "parameters", [loadARMTemplates]
    does not return: the type assertion on the missing entry panics. *)
Theorem loadARMTemplates_panics_without_member `{X : Externals} c w cl
    template tm parameters members :
  clusterHeap w !! c = Some cl →
  ioutil_ReadFile (trace w) (path_Join [outputDir cl; "azuredeploy.json"]) = Ok template →
  json_parse template = Ok (TObj tm) →
  ioutil_ReadFile (trace w ++ [EvReadFile (path_Join [outputDir cl; "azuredeploy.json"])])
    (path_Join [outputDir cl; "azuredeploy.parameters.json"]) = Ok parameters →
  json_parse parameters = Ok (TObj members) →
  "parameters" ∉ members.*1 →
  ∃ w', loadARMTemplates c w =
        Panic "interface conversion: interface {} is nil, not map[string]interface {}" w'.
Proof.
  intros Hc Htf Htp Hpf Hpp Hno.
  assert (Hlt : c < length (clusterHeap w)) by (by eapply lookup_lt_Some).
  unfold loadARMTemplates, json_Unmarshal. unfold_monad.
  destruct w as [fl env ch crh mh tr]. cbn in *.
  rewrite Hc. cbn. rewrite Htf. cbn. rewrite Hc. cbn. rewrite Htp. cbn.
  rewrite list_lookup_insert_eq by (rewrite ?length_insert; exact Hlt). cbn.
  rewrite list_lookup_insert_eq by (rewrite ?length_insert; exact Hlt). cbn.
  rewrite Hpf. cbn.
  rewrite list_lookup_insert_eq by (rewrite ?length_insert; exact Hlt). cbn.
  rewrite Hpp. cbn.
  rewrite list_lookup_insert_eq by (rewrite ?length_insert; exact Hlt). cbn.
  rewrite list_lookup_insert_eq by (rewrite ?length_insert; exact Hlt). cbn.
  match goal with
  | |- context [decode_members ?l members ?h] =>
      destruct (decode_members_cell l members h ∅) as (m' & -> & Hk)
  end.
  { by rewrite lookup_app_r, Nat.sub_diag. }
  cbn. rewrite (Hk _ Hno), lookup_empty. cbn. eexists. reflexivity.
Qed.

Lemma loadARMTemplates_panics_without_member_witness :
  ∃ w', @loadARMTemplates parameters_without_envelope 0
          (demo_world (demo_flags "" "" "" "")) =
        Panic "interface conversion: interface {} is nil, not map[string]interface {}" w'.
Proof.
  refine (@loadARMTemplates_panics_without_member parameters_without_envelope 0
            (demo_world (demo_flags "" "" "" "")) demo_cluster
            _ [("resources", TArr [])] _ [] eq_refl eq_refl eq_refl eq_refl eq_refl _).
  apply not_elem_of_nil.
Defined.

(** * Further properties of the code *)

(** ** checkParams *)

Lemma is_empty_append_r s t : is_empty t = false → is_empty (s +:+ t) = false.
Proof. destruct s; cbn; [done | reflexivity]. Qed.

Ltac unfold_checkParams :=
  unfold checkParams, NewV1_String, set_flag; unfold_monad.

(** X1: [checkParams] always returns, and its result depends on three
    flags only, tested in this order: no credentials file, no admin
    username, no admin password (the first missing one gives the error),
    else nil.  It never touches the environment or a heap and leaves those
    three flags as they were; without a credentials file it returns before
    doing anything at all. *)
Theorem checkParams_required_flags `{X : Externals} (w : World) :
  let f := flags w in
  ∃ w',
    checkParams w =
      Ret (if is_empty (acsCredentialsFile f)
           then Some "No credentials file path specified"
           else if is_empty (acsAdminUsername f)
           then Some "Error parsing flags. No admin username specified"
           else if is_empty (acsAdminPassword f)
           then Some "Error parting flags. No admin password specified."
           else None) w' ∧
    environ w' = environ w ∧ clusterHeap w' = clusterHeap w ∧
    credsHeap w' = credsHeap w ∧ mapHeap w' = mapHeap w ∧
    acsCredentialsFile (flags w') = acsCredentialsFile f ∧
    acsAdminUsername (flags w') = acsAdminUsername f ∧
    acsAdminPassword (flags w') = acsAdminPassword f ∧
    (acsCredentialsFile f = "" → w' = w).
Proof.
  intros f. subst f. unfold_checkParams.
  destruct w as [[] env ch crh mh tr]. cbn.
  repeat (split_run; cbn).
  all: eexists; split; [reflexivity|]; cbn; split_and!; try reflexivity.
  all: intros; subst; try discriminate; reflexivity.
Qed.

(** What a run of [checkParams] does once the credentials path is there:
    its result, the flags it leaves, the UUID it may draw. *)
Lemma checkParams_run `{X : Externals} (w : World) :
  acsCredentialsFile (flags w) ≠ "" →
  let f := flags w in
  let name' := if is_empty (acsResourceName f)
               then "kubetest-" +:+ uuid_NewV1_String (trace w)
               else acsResourceName f in
  let group' := if is_empty (acsResourceGroupName f) then name' +:+ "-rg"
                else acsResourceGroupName f in
  let dns' := if is_empty (acsDnsPrefix f) then name' else acsDnsPrefix f in
  let ssh' := if is_empty (acsSSHPublicKeyPath f)
              then default "" (environ w !! "HOME") +:+ "/.ssh/id_rsa.pub"
              else acsSSHPublicKeyPath f in
  checkParams w =
  Ret (if is_empty (acsAdminUsername f)
       then Some "Error parsing flags. No admin username specified"
       else if is_empty (acsAdminPassword f)
       then Some "Error parting flags. No admin password specified."
       else None)
      (set_trace (trace w ++ (if is_empty (acsResourceName f) then [EvNewV1] else []))
         (set_flags
            (mkFlags name' group' (acsLocation f)
               (acsMasterVmSize f) (acsAgentVmSize f) (acsAdminUsername f)
               (acsAdminPassword f) (acsAgentPoolCount f) (acsAgentOSType f)
               (acsTemplatePath f) dns' (acsEngineURL f) (acsEngineMD5 f)
               ssh' (acsWinBinariesURL f) (acsHyperKubeURL f)
               (acsCredentialsFile f) (acsOrchestratorRelease f)
               (acsWinZipBuildScript f) (acsNetworkPlugin f)) w)).
Proof.
  intros Hcreds. apply is_empty_false in Hcreds. unfold_checkParams.
  destruct w as [[name group ? ? ? user pw ? ? ? dns ? ? ssh ? ? creds ? ? ?]
                   env ch crh mh tr].
  cbn in *. rewrite Hcreds. cbn.
  repeat (cbn;
          match goal with
          | |- context [is_empty ?x] => is_var x; destruct (is_empty x)
          end).
  all: cbn; rewrite ?app_nil_r; reflexivity.
Qed.

(** Whatever [checkParams] returns past the credentials test, it leaves
    no name empty. *)
Lemma checkParams_leaves_names `{X : Externals} (w w' : World) (res : option string) :
  acsCredentialsFile (flags w) ≠ "" →
  checkParams w = Ret res w' →
  acsResourceName (flags w') ≠ "" ∧ acsResourceGroupName (flags w') ≠ "" ∧
  acsDnsPrefix (flags w') ≠ "" ∧ acsSSHPublicKeyPath (flags w') ≠ "".
Proof.
  intros Hcreds Hrun.
  rewrite (checkParams_run w Hcreds) in Hrun. injection Hrun as _ <-.
  destruct w as [[name group ? ? ? user pw ? ? ? dns ? ? ssh ? ? creds ? ? ?]
                   env ch crh mh tr].
  cbn.
  assert (Hname : is_empty (if is_empty name then "kubetest-" +:+ uuid_NewV1_String tr
                            else name) = false).
  { destruct (is_empty name) eqn:E; [reflexivity | exact E]. }
  split_and!; apply is_empty_false.
  - exact Hname.
  - destruct (is_empty group) eqn:E; [by apply is_empty_append_r | exact E].
  - destruct (is_empty dns) eqn:E; [exact Hname | exact E].
  - destruct (is_empty ssh) eqn:E; [by apply is_empty_append_r | exact E].
Qed.

(** X2: once the credentials path is there, [checkParams] fills in every
    missing name, whatever it returns: the resource name becomes
    "kubetest-" and a new UUID, the resource group that name and "-rg",
    the DNS prefix that name, the key path $HOME/.ssh/id_rsa.pub; a value
    that was given is kept.  None of the four flags is empty afterwards,
    and a UUID is drawn only when the resource name was missing. *)
Theorem checkParams_fills_defaults `{X : Externals} (w w' : World) (res : option string) :
  acsCredentialsFile (flags w) ≠ "" →
  checkParams w = Ret res w' →
  let f := flags w in
  let f' := flags w' in
  let name' := if is_empty (acsResourceName f)
               then "kubetest-" +:+ uuid_NewV1_String (trace w)
               else acsResourceName f in
  acsResourceName f' = name' ∧
  acsResourceGroupName f' =
    (if is_empty (acsResourceGroupName f) then name' +:+ "-rg"
     else acsResourceGroupName f) ∧
  acsDnsPrefix f' = (if is_empty (acsDnsPrefix f) then name' else acsDnsPrefix f) ∧
  acsSSHPublicKeyPath f' =
    (if is_empty (acsSSHPublicKeyPath f)
     then default "" (environ w !! "HOME") +:+ "/.ssh/id_rsa.pub"
     else acsSSHPublicKeyPath f) ∧
  acsResourceName f' ≠ "" ∧ acsResourceGroupName f' ≠ "" ∧
  acsDnsPrefix f' ≠ "" ∧ acsSSHPublicKeyPath f' ≠ "" ∧
  trace w' = trace w ++ (if is_empty (acsResourceName f) then [EvNewV1] else []).
Proof.
  intros Hcreds Hrun f f' name'. subst f f' name'.
  destruct (checkParams_leaves_names w w' res Hcreds Hrun) as (Hn & Hg & Hd & Hs).
  rewrite (checkParams_run w Hcreds) in Hrun. injection Hrun as _ <-.
  destruct w as [[name group ? ? ? user pw ? ? ? dns ? ? ssh ? ? creds ? ? ?]
                   env ch crh mh tr].
  cbn in *. split_and!; try reflexivity; assumption.
Qed.

Lemma checkParams_fills_defaults_witness :
  let f' := flags (world_of (@checkParams happy (demo_world unnamed_flags))) in
  acsResourceName f' = "kubetest-6ba7b810-9dad-11d1-80b4-00c04fd430c8" ∧
  acsResourceGroupName f' = "kubetest-6ba7b810-9dad-11d1-80b4-00c04fd430c8-rg" ∧
  acsDnsPrefix f' = "kubetest-6ba7b810-9dad-11d1-80b4-00c04fd430c8" ∧
  acsSSHPublicKeyPath f' = "/home/ci/.ssh/id_rsa.pub".
Proof.
  intros f'.
  destruct (@checkParams_fills_defaults happy (demo_world unnamed_flags)
              (world_of (@checkParams happy (demo_world unnamed_flags))) None
              ltac:(discriminate) ltac:(vm_compute; reflexivity))
    as (H1 & H2 & H3 & H4 & _).
  split_and!; [exact H1 | exact H2 | exact H3 | exact H4].
Defined.

(** X3: a run of [checkParams] that returned nil has left flags on which
    a second run returns nil and changes nothing: no flag, no new UUID. *)
Theorem checkParams_idempotent `{X : Externals} (w w' : World) :
  checkParams w = Ret None w' →
  checkParams w' = Ret None w'.
Proof.
  intros Hrun.
  destruct (is_empty (acsCredentialsFile (flags w))) eqn:Hc.
  { revert Hrun. unfold_checkParams. destruct w as [fl env ch crh mh tr].
    cbn in *. rewrite Hc. discriminate. }
  apply is_empty_false in Hc. rewrite (checkParams_run w Hc) in Hrun.
  destruct w as [[name group ? ? ? user pw ? ? ? dns ? ? ssh ? ? creds ? ? ?]
                   env ch crh mh tr].
  cbn in *.
  destruct (is_empty user) eqn:Hu; [discriminate|].
  destruct (is_empty pw) eqn:Hp; [discriminate|].
  injection Hrun as <-.
  rewrite checkParams_run by exact Hc. cbn. rewrite Hu, Hp.
  assert (Hname : is_empty (if is_empty name then "kubetest-" +:+ uuid_NewV1_String tr
                            else name) = false).
  { destruct (is_empty name) eqn:E; [reflexivity | exact E]. }
  rewrite Hname.
  assert (Hgroup : is_empty (if is_empty group
                             then (if is_empty name
                                   then "kubetest-" +:+ uuid_NewV1_String tr
                                   else name) +:+ "-rg"
                             else group) = false).
  { destruct (is_empty group) eqn:E; [by apply is_empty_append_r | exact E]. }
  assert (Hdns : is_empty (if is_empty dns
                           then (if is_empty name
                                 then "kubetest-" +:+ uuid_NewV1_String tr
                                 else name)
                           else dns) = false).
  { destruct (is_empty dns) eqn:E; [exact Hname | exact E]. }
  assert (Hssh : is_empty (if is_empty ssh
                           then default "" (env !! "HOME") +:+ "/.ssh/id_rsa.pub"
                           else ssh) = false).
  { destruct (is_empty ssh) eqn:E; [by apply is_empty_append_r | exact E]. }
  rewrite Hgroup, Hdns, Hssh. cbn. by rewrite app_nil_r.
Qed.

Lemma checkParams_idempotent_witness :
  let w' := world_of (@checkParams happy (demo_world unnamed_flags)) in
  @checkParams happy w' = Ret None w'.
Proof.
  intros w'.
  apply (@checkParams_idempotent happy (demo_world unnamed_flags)).
  vm_compute; reflexivity.
Defined.

(** ** newAcsEngine *)

Lemma lookup_snoc {A} (l : list A) x : (l ++ [x]) !! length l = Some x.
Proof. by rewrite lookup_app_r, Nat.sub_diag. Qed.

Lemma insert_snoc {A} (l : list A) x y : <[length l := y]> (l ++ [x]) = l ++ [y].
Proof. by rewrite insert_app_r_alt, Nat.sub_diag. Qed.

Lemma lookup_length_None {A} (l : list A) : l !! length l = None.
Proof. by apply lookup_ge_None. Qed.

(** Every call of [newAcsEngine] returns, in one of five ways. *)
Lemma newAcsEngine_cases `{X : Externals} (w : World) :
  ∃ res w', newAcsEngine w = Ret res w' ∧ newAcsEngine_outcome w res w'.
Proof.
  unfold newAcsEngine. unfold mbind at 1, M_bind at 1.
  destruct (is_empty (acsCredentialsFile (flags w))) eqn:Hc.
  { assert (Hrun : checkParams w = Ret (Some "No credentials file path specified") w).
    { unfold_checkParams. destruct w. cbn in *. by rewrite Hc. }
    rewrite Hrun. eexists _, _. split; [reflexivity|]. by constructor. }
  apply is_empty_false in Hc.
  destruct (checkParams w) as [res w1|] eqn:Hrun;
    [|by rewrite (checkParams_run w Hc) in Hrun].
  destruct (checkParams_leaves_names w w1 res Hc Hrun) as (Hn & Hg & Hd & _).
  destruct res as [err|].
  { eexists _, _. split; [reflexivity|]. by constructor. }
  assert (Hheap : clusterHeap w1 = clusterHeap w).
  { rewrite (checkParams_run w Hc) in Hrun. by injection Hrun as _ <-. }
  clear Hrun Hc.
  unfold getAzCredentials, getARMClient, TempDir. unfold_monad.
  destruct w1 as [fl env ch crh mh tr]. cbn in Hheap, Hn, Hg, Hd. subst ch. cbn.
  destruct (ioutil_ReadFile _ _) as [key|kerr] eqn:Hkey; cbn.
  2:{ eexists _, _. split; [reflexivity|]. by apply new_key_error. }
  repeat (cbn; first [rewrite lookup_snoc | rewrite insert_snoc | split_run]).
  all: eexists _, _; (split; [reflexivity|]).
  all: try (by apply new_client_error).
  all: try (by apply new_setenv_error).
  all: eapply new_cluster; cbn;
      [ apply lookup_length_None | apply lookup_snoc | apply lookup_snoc
      | reflexivity | assumption | assumption | assumption | .. ].
  all: try (rewrite lookup_insert_ne by discriminate; apply lookup_insert_eq).
  all: try apply lookup_insert_eq.
Qed.

(** X4: [newAcsEngine] always returns (it cannot dereference a nil
    pointer: the Cluster and the credentials record it works on are its
    own), and it returns either a Cluster and no error, or no Cluster and
    an error, never both and never neither. *)
Theorem newAcsEngine_returns_cluster_xor_error `{X : Externals} (w : World) :
  ∃ p err w', newAcsEngine w = Ret (p, err) w' ∧
    (p = None ∧ err ≠ None ∨ p ≠ None ∧ err = None).
Proof.
  destruct (newAcsEngine_cases w) as ([p err] & w' & Hrun & Hout).
  exists p, err, w'. split; [exact Hrun|].
  inversion Hout; subst; first [by left | by right].
Qed.

(** X5: a Cluster returned by [newAcsEngine] is a new one, it has an
    Azure client and a credentials record, its name, resource group, DNS
    prefix, location and model path are the values of the flags after
    [checkParams] (so the first three are not empty), nothing has been
    built or loaded yet (default acs-engine binary, no custom URLs, nil
    templates), and the two KUBERNETES_CONFORMANCE variables are set in
    the environment. *)
Theorem newAcsEngine_cluster_is_ready `{X : Externals} (w w' : World) (p : nat)
    (err : option string) :
  newAcsEngine w = Ret (Some p, err) w' →
  ∃ cl l cr client,
    clusterHeap w !! p = None ∧
    clusterHeap w' !! p = Some cl ∧
    credentials cl = Some l ∧ credsHeap w' !! l = Some cr ∧
    azureClient cl = Some client ∧
    name cl = acsResourceName (flags w') ∧ name cl ≠ "" ∧
    resourceGroup cl = acsResourceGroupName (flags w') ∧ resourceGroup cl ≠ "" ∧
    dnsPrefix cl = acsDnsPrefix (flags w') ∧ dnsPrefix cl ≠ "" ∧
    location cl = acsLocation (flags w') ∧
    apiModelPath cl = acsTemplatePath (flags w') ∧
    acsEngineBinaryPath cl = "acs-engine" ∧
    acsCustomHyperKubeURL cl = "" ∧ acsCustomWinBinariesURL cl = "" ∧
    templateJSON cl = None ∧ parametersJSON cl = None ∧
    environ w' !! "KUBERNETES_CONFORMANCE_TEST" = Some "yes" ∧
    environ w' !! "KUBERNETES_CONFORMANCE_PROVIDER" = Some "azure".
Proof.
  intros Hrun.
  destruct (newAcsEngine_cases w) as (res & w'' & Hrun' & Hout).
  rewrite Hrun in Hrun'. injection Hrun' as <- <-.
  inversion Hout as [| | | |p' cl l cr client w2 Hfresh Hcl Hcr Heq Hn Hg Hd He1 He2];
    subst p' w2.
  exists cl, l, cr, client. rewrite Heq. cbn.
  split_and!; try reflexivity; try assumption.
  by rewrite Heq in Hcl.
Qed.

Lemma newAcsEngine_cluster_is_ready_witness :
  let w := demo_world (demo_flags "" "" "" "") in
  let w' := world_of (@newAcsEngine happy w) in
  ∃ cl l cr client,
    clusterHeap w !! 1 = None ∧
    clusterHeap w' !! 1 = Some cl ∧
    credentials cl = Some l ∧ credsHeap w' !! l = Some cr ∧
    azureClient cl = Some client ∧
    name cl = acsResourceName (flags w') ∧ name cl ≠ "" ∧
    resourceGroup cl = acsResourceGroupName (flags w') ∧ resourceGroup cl ≠ "" ∧
    dnsPrefix cl = acsDnsPrefix (flags w') ∧ dnsPrefix cl ≠ "" ∧
    location cl = acsLocation (flags w') ∧
    apiModelPath cl = acsTemplatePath (flags w') ∧
    acsEngineBinaryPath cl = "acs-engine" ∧
    acsCustomHyperKubeURL cl = "" ∧ acsCustomWinBinariesURL cl = "" ∧
    templateJSON cl = None ∧ parametersJSON cl = None ∧
    environ w' !! "KUBERNETES_CONFORMANCE_TEST" = Some "yes" ∧
    environ w' !! "KUBERNETES_CONFORMANCE_PROVIDER" = Some "azure".
Proof.
  intros w w'.
  apply (@newAcsEngine_cluster_is_ready happy w w' 1 None).
  vm_compute; reflexivity.
Defined.

(** ** getAzCredentials *)

(** X6: on a live receiver [getAzCredentials] always returns.  If the
    file cannot be read it returns "Error reading credentials file ..."
    and leaves both heaps alone.  If the file is read, [c.credentials] is
    pointed at a new record holding whatever [toml.Unmarshal] left in a
    zero [Config], also when parsing failed (the result is then "Error
    parsing credentials file ..."); the record it pointed at before is
    not written to, and nothing else of the Cluster changes. *)
Theorem getAzCredentials_swaps_the_record `{X : Externals} (c : nat) (w : World)
    (cl : Cluster) :
  clusterHeap w !! c = Some cl →
  let file := acsCredentialsFile (flags w) in
  ∃ res w',
    getAzCredentials c w = Ret res w' ∧
    credsHeap w `prefix_of` credsHeap w' ∧
    match ioutil_ReadFile (trace w) file with
    | Err msg =>
        res = Some ("Error reading credentials file " +:+ file +:+ " " +:+ msg) ∧
        clusterHeap w' = clusterHeap w ∧ credsHeap w' = credsHeap w
    | Ok content =>
        let parsed := toml_Unmarshal content (mkConfig empty_Creds) in
        let l := length (credsHeap w) in
        res = (match parsed.2 with
               | Some msg =>
                   Some ("Error parsing credentials file " +:+ file +:+ " " +:+ msg)
               | None => None
               end) ∧
        clusterHeap w' = <[c := set_credentials (Some l) cl]> (clusterHeap w) ∧
        credsHeap w' = credsHeap w ++ [Config_Creds parsed.1]
    end.
Proof.
  intros Hc file. subst file. unfold getAzCredentials. unfold_monad.
  destruct w as [fl env ch crh mh tr]. cbn in *.
  destruct (ioutil_ReadFile tr _) as [content|msg]; cbn.
  - destruct (toml_Unmarshal content _) as [config perr]. cbn. rewrite Hc. cbn.
    destruct perr; eexists _, _; (split; [reflexivity|]); cbn;
      (split; [by apply prefix_app_r | done]).
  - eexists _, _. split; [reflexivity|]. done.
Qed.

Lemma getAzCredentials_swaps_the_record_witness :
  let w := demo_world (demo_flags "" "" "" "") in
  ∃ w',
    @getAzCredentials (creds_unparsable "toml: line 3: bad key") 0 w =
      Ret (Some "Error parsing credentials file /etc/azure/creds.toml toml: line 3: bad key")
          w' ∧
    clusterHeap w' = [set_credentials (Some 1) demo_cluster] ∧
    credsHeap w' = credsHeap w ++ [mkCreds "client" "secret" "tenant" "subscription" "" ""].
Proof.
  intros w.
  destruct (@getAzCredentials_swaps_the_record (creds_unparsable "toml: line 3: bad key") 0 w
              demo_cluster eq_refl)
    as (res & w' & Hrun & _ & Hres & Hcl & Hcr).
  exists w'. rewrite Hrun, Hres. split_and!; [reflexivity | exact Hcl | exact Hcr].
Defined.

(** ** generateTemplate *)

Lemma apply_overrides_closed f cl v :
  let image := if negb (is_empty (acsHyperKubeURL f)) then acsHyperKubeURL f
               else if negb (is_empty (acsCustomHyperKubeURL cl))
               then acsCustomHyperKubeURL cl
               else hyperkube_image_of v in
  let package := if negb (is_empty (acsWinBinariesURL f)) then acsWinBinariesURL f
                 else if negb (is_empty (acsCustomWinBinariesURL cl))
                 then acsCustomWinBinariesURL cl
                 else windows_package_of v in
  apply_overrides f cl v =
  set_CustomWindowsPackageURL package (set_CustomHyperkubeImage image v).
Proof.
  unfold apply_overrides.
  destruct v as [? ? ? ? [[? ? []] ? ? ? ? ? ?]].
  destruct (negb (is_empty (acsHyperKubeURL f))),
    (negb (is_empty (acsCustomHyperKubeURL cl))),
    (negb (is_empty (acsWinBinariesURL f))),
    (negb (is_empty (acsCustomWinBinariesURL cl))); reflexivity.
Qed.

(** X7: the model that [generateTemplate] serializes and writes is the
    literal with two fields filled in independently of each other.  The
    custom Windows package is the acsengine-win-binaries-url flag when it
    is set, else the URL recorded by [uploadZip], else empty; the custom
    hyperkube image is the one recorded by [buildHyperKube] when its flag
    is empty.  After the call, whether or not the write failed,
    [c.apiModelPath] is {outputDir}/kubernetes.json, the path written to,
    and no other field of the Cluster has changed. *)
Theorem generateTemplate_uses_built_artifacts `{X : Externals} (c : nat) (w : World)
    (cl : Cluster) (l : nat) (cr : Creds) :
  clusterHeap w !! c = Some cl →
  credentials cl = Some l →
  credsHeap w !! l = Some cr →
  let f := flags w in
  let lit := apiModel_literal f cl (time_Now_String (trace w)) cr in
  let path := path_Join [outputDir cl; "kubernetes.json"] in
  ∃ v res w',
    generateTemplate c w = Ret res w' ∧
    trace w' = trace w ++
      [EvNow; EvWriteFile path (result_val "" (json_MarshalIndent v)) 420] ∧
    clusterHeap w' = <[c := set_apiModelPath path cl]> (clusterHeap w) ∧
    v = set_CustomWindowsPackageURL (windows_package_of v)
          (set_CustomHyperkubeImage (hyperkube_image_of v) lit) ∧
    windows_package_of v =
      (if is_empty (acsWinBinariesURL f) then acsCustomWinBinariesURL cl
       else acsWinBinariesURL f) ∧
    hyperkube_image_of v =
      (if is_empty (acsHyperKubeURL f) then acsCustomHyperKubeURL cl
       else acsHyperKubeURL f).
Proof.
  intros Hc Hl Hcr f lit path. subst f lit path.
  rewrite (generateTemplate_run c w cl l cr Hc Hl Hcr).
  eexists _, _, _. split; [reflexivity|].
  split; [destruct w; reflexivity|]. split; [destruct w; reflexivity|].
  rewrite apply_overrides_closed. cbn.
  destruct (is_empty (acsWinBinariesURL (flags w))),
    (is_empty (acsHyperKubeURL (flags w))),
    (is_empty (acsCustomWinBinariesURL cl)) eqn:Hw,
    (is_empty (acsCustomHyperKubeURL cl)) eqn:Hh; cbn;
    try apply is_empty_true in Hw; try apply is_empty_true in Hh;
    rewrite ?Hw, ?Hh; split_and!; reflexivity.
Qed.

Lemma generateTemplate_uses_built_artifacts_witness :
  let w := demo_world (demo_flags "" "" "" "") in
  let built :=
    set_acsCustomWinBinariesURL "https://account.blob.core.windows.net/kubetest/42.zip"
      (set_acsCustomHyperKubeURL "registry.example/hyperkube-amd64:42" demo_cluster) in
  let w1 := set_clusterHeap [built] w in
  ∃ v res w',
    @generateTemplate happy 0 w1 = Ret res w' ∧
    windows_package_of v = "https://account.blob.core.windows.net/kubetest/42.zip" ∧
    hyperkube_image_of v = "registry.example/hyperkube-amd64:42" ∧
    clusterHeap w' = [set_apiModelPath "/home/ci/acs123/kubernetes.json" built].
Proof.
  intros w built w1.
  destruct (@generateTemplate_uses_built_artifacts happy 0 w1 built 0 _
              eq_refl eq_refl eq_refl)
    as (v & res & w' & Hrun & _ & Hheap & _ & Hpkg & Himg).
  exists v, res, w'. split_and!; [exact Hrun | exact Hpkg | exact Himg | exact Hheap].
Defined.

(** ** The download loop, whatever the downloads answer *)

Lemma downloadLoop_attempts `{X : Externals} url path f retry n :
  ∀ i err w,
  ∃ ex t (errs : list string),
    downloadLoop url path f retry n i err w = Ret ex (set_trace (trace w ++ t) w) ∧
    match ex with
    | LoopDone e =>
        e = stale_error url path (length errs) err ∧
        sleeps t = seconds <$> seqZ i (Z.of_nat (length errs)) ∧
        (download_results t = (Some <$> errs) ++ [None] ∧ length errs < n ∨
         download_results t = Some <$> errs ∧ length errs = n ∧
         ¬ (i ≤ retry - 1 < i + Z.of_nat n)%Z)
    | LoopReturn e =>
        e = stale_error url path (length errs) err ∧
        download_results t = Some <$> errs ∧
        (i + Z.of_nat (length errs) = retry)%Z ∧ 0 < length errs ≤ n ∧
        sleeps t = seconds <$> seqZ i (Z.of_nat (length errs) - 1)
    end.
Proof.
  induction n as [|n IH]; intros i err w.
  - exists (LoopDone err), [], []. split.
    + destruct w; cbn. by rewrite app_nil_r.
    + cbn. split_and!; [reflexivity | reflexivity |]. right. split_and!; [done | done | lia].
  - rewrite downloadLoop_S. unfold_monad. destruct w as [fl env ch crh mh tr].
    cbn -[downloadLoop].
    destruct (httpRead _ url f) as [e|] eqn:He.
    + destruct (Z.eqb_spec i (retry - 1)) as [Heq|Hne].
      * eexists _, _, [e]. split; [normalize_trace; reflexivity|].
        cbn. split_and!; try reflexivity; lia.
      * cbn -[downloadLoop].
        edestruct (IH (i + 1)%Z) as (ex & t & errs & Hrun & Hex).
        rewrite Hrun. cbn.
        eexists ex, _, (e :: errs). split; [normalize_trace; reflexivity|].
        destruct ex as [e'|e']; cbn.
        -- destruct Hex as (-> & Hs & Hd). split_and!; [reflexivity | |].
           ++ unfold sleeps in *. cbn. rewrite Hs.
              rewrite (seqZ_cons i) by lia. cbn. repeat f_equal; lia.
           ++ unfold download_results in *. cbn.
              destruct Hd as [[-> ?]|(-> & ? & ?)]; [left | right];
                split_and!; try reflexivity; lia.
        -- destruct Hex as (-> & Hd & Hi & Hlen & Hs).
           split_and!; try reflexivity; try lia.
           ++ unfold download_results in *. cbn. by rewrite Hd.
           ++ unfold sleeps in *. cbn. rewrite Hs.
              rewrite (seqZ_cons i) by lia. cbn. repeat f_equal; lia.
    + eexists _, _, []. split; [normalize_trace; reflexivity|].
      cbn. split_and!; [reflexivity | reflexivity |]. left. split; [reflexivity | lia].
Qed.

(** X8: the [for] loop of the two fetches, started as they start it,
    always terminates; it makes at most [retry] download attempts, and
    every attempt but the last one made has failed: nothing is downloaded
    again after a success.  It is left by [return] only when all [retry]
    attempts failed, and otherwise its last attempt succeeded (or, for
    [retry <= 0], there was none).  The sleep after failed attempt [i] is
    [i] seconds, and there is no sleep after the attempt that ends the
    loop.  Only log lines, downloads and sleeps happen. *)
Theorem fetch_loop_stops_at_first_success `{X : Externals}
    (url path f : string) (retry : Z) (w : World) :
  ∃ ex t (errs : list string),
    downloadLoop url path f retry (Z.to_nat retry) 0 None w =
      Ret ex (set_trace (trace w ++ t) w) ∧
    Forall (λ e, is_loop_event e = true) t ∧
    (Z.of_nat (length (download_results t)) ≤ Z.max 0 retry)%Z ∧
    match ex with
    | LoopDone _ =>
        download_results t = (Some <$> errs) ++ (if (0 <? retry)%Z then [None] else []) ∧
        sleeps t = seconds <$> seqZ 0 (Z.of_nat (length errs))
    | LoopReturn e =>
        download_results t = Some <$> errs ∧
        Z.of_nat (length errs) = retry ∧
        sleeps t = seconds <$> seqZ 0 (retry - 1) ∧
        e = stale_error url path (length errs) None
    end.
Proof.
  destruct (downloadLoop_attempts url path f retry (Z.to_nat retry) 0%Z None w)
    as (ex & t & errs & Hrun & Hex).
  destruct (downloadLoop_world url path f retry (Z.to_nat retry) 0%Z None w)
    as (ex' & t' & Hrun' & Hall).
  rewrite Hrun in Hrun'. injection Hrun' as <- Ht. apply app_inv_head in Ht as <-.
  exists ex, t, errs. split; [exact Hrun|]. split; [exact Hall|].
  destruct ex as [e|e].
  - destruct Hex as (_ & Hs & [[Hd Hlen]|(Hd & Hlen & Hno)]).
    + assert (0 < retry)%Z by lia.
      destruct (Z.ltb_spec 0 retry); [|lia].
      rewrite Hd, length_app, length_fmap. cbn. split_and!; [lia | done | done].
    + assert (retry ≤ 0)%Z by lia.
      destruct (Z.ltb_spec 0 retry); [lia|].
      rewrite Hd, length_fmap, app_nil_r. split_and!; [lia | done | done].
  - destruct Hex as (-> & Hd & Hi & Hlen & Hs).
    rewrite Hd, length_fmap. split_and!; try done; try lia.
    rewrite Hs. f_equal. f_equal. lia.
Qed.

Lemma closes_app f t1 t2 : closes f (t1 ++ t2) = closes f t1 + closes f t2.
Proof. unfold closes. by rewrite List.filter_app, length_app. Qed.

Lemma closes_loop f t : Forall (λ e, is_loop_event e = true) t → closes f t = 0.
Proof.
  unfold closes. induction 1 as [|e t He _ IH]; [reflexivity|].
  cbn. destruct e; try discriminate He; exact IH.
Qed.

Lemma closes_close f : closes f [EvClose f] = 1.
Proof. unfold closes. cbn. by rewrite String.eqb_refl. Qed.

(** What both fetches know about their loop: it only logs, downloads and
    sleeps, and the error it returns from inside is never nil. *)
Lemma downloadLoop_exit `{X : Externals} url path f retry n i err w :
  ∃ ex t,
    downloadLoop url path f retry n i err w = Ret ex (set_trace (trace w ++ t) w) ∧
    Forall (λ e, is_loop_event e = true) t ∧
    match ex with LoopReturn None => False | _ => True end.
Proof.
  revert i err w. induction n as [|n IH]; intros i err w.
  - exists (LoopDone err), []. split_and!; [|constructor|done].
    destruct w; cbn. by rewrite app_nil_r.
  - rewrite downloadLoop_S. unfold_monad. destruct w as [fl env ch crh mh tr].
    cbn -[downloadLoop].
    destruct (httpRead _ url f) as [e|] eqn:He.
    + destruct (i =? retry - 1)%Z.
      * eexists _, _. split_and!; [normalize_trace; reflexivity| |done].
        repeat constructor.
      * cbn -[downloadLoop]. edestruct IH as (ex & t & -> & Hall & Hex). cbn.
        eexists _, _. split_and!; [normalize_trace; reflexivity| |exact Hex].
        repeat (constructor; [reflexivity|]). exact Hall.
    + eexists _, _. split_and!; [normalize_trace; reflexivity| |done].
      repeat constructor.
Qed.

(** ** The two fetches *)

(** X9: [getZipBuildScript] always returns and changes nothing but the
    trace.  If [os.Create] fails it returns that error and does nothing
    else.  Otherwise the file is closed exactly once, as the last action
    of the call, on the error path as well (the deferred Close); between
    Create and Close there is only the loop, followed on success, and
    only then, by one [Chmod] to 0744.  On success the path returned is
    $HOME/build-win-zip.sh; with an error the path returned is empty. *)
Theorem getZipBuildScript_closes_the_script `{X : Externals} (url : string) (retry : Z)
    (w : World) :
  let path := path_Join [default "" (environ w !! "HOME"); "build-win-zip.sh"] in
  ∃ res t,
    getZipBuildScript url retry w = Ret res (set_trace (trace w ++ EvCreate path :: t) w) ∧
    match os_Create (trace w) path with
    | Some msg => res = ("", Some msg) ∧ t = []
    | None =>
        ∃ t', t = t' ++ [EvClose path] ∧ closes path t' = 0 ∧
          match res.2 with
          | None =>
              res.1 = path ∧
              ∃ t'', t' = t'' ++ [EvChmod path 484] ∧
                     Forall (λ e, is_loop_event e = true) t''
          | Some _ => res.1 = "" ∧ Forall (λ e, is_loop_event e = true) t'
          end
    end.
Proof.
  intros path. subst path. unfold getZipBuildScript. unfold_monad.
  destruct w as [fl env ch crh mh tr]. cbn -[downloadLoop].
  destruct (os_Create tr _) as [msg|] eqn:Hcreate; cbn -[downloadLoop].
  { eexists _, []. split; [reflexivity|]. done. }
  match goal with
  | |- context [downloadLoop ?u ?p ?f ?r ?n ?i ?e ?w] =>
      destruct (downloadLoop_exit u p f r n i e w) as (ex & t & -> & Hall & Hex)
  end.
  cbn. destruct ex as [e|[e|]]; cbn; [| |done].
  - eexists (_, None), _. split; [normalize_trace; reflexivity|].
    eexists (t ++ [EvChmod _ 484]). split; [by rewrite <- app_assoc|].
    rewrite closes_app, (closes_loop _ _ Hall). split; [reflexivity|].
    cbn. split; [reflexivity|]. by exists t.
  - eexists (_, Some e), _. split; [normalize_trace; reflexivity|].
    exists t. split; [reflexivity|]. split; [by apply closes_loop|].
    done.
Qed.

(** X10: a fetch asked for no attempt at all ([retry <= 0]) reports
    success without having downloaded anything: [getZipBuildScript]
    creates the file, makes it executable, closes it and returns its path
    with a nil error. *)
Theorem getZipBuildScript_succeeds_without_attempts `{X : Externals} (url : string)
    (retry : Z) (w : World) :
  let path := path_Join [default "" (environ w !! "HOME"); "build-win-zip.sh"] in
  (retry ≤ 0)%Z →
  os_Create (trace w) path = None →
  getZipBuildScript url retry w =
    Ret (path, None)
      (set_trace (trace w ++ [EvCreate path; EvChmod path 484; EvClose path]) w).
Proof.
  intros path Hretry Hcreate. subst path. unfold getZipBuildScript.
  replace (Z.to_nat retry) with 0 by lia. unfold_monad.
  destruct w as [fl env ch crh mh tr]. cbn in *. rewrite Hcreate. cbn.
  normalize_trace. reflexivity.
Qed.

Lemma getZipBuildScript_succeeds_without_attempts_witness :
  let w := demo_world (demo_flags "" "" "" "") in
  @getZipBuildScript happy "https://example.org/build.sh" 0 w =
    Ret ("/home/ci/build-win-zip.sh", None)
      (set_trace [EvCreate "/home/ci/build-win-zip.sh";
                  EvChmod "/home/ci/build-win-zip.sh" 484;
                  EvClose "/home/ci/build-win-zip.sh"] w).
Proof.
  intros w.
  apply (@getZipBuildScript_succeeds_without_attempts happy
           "https://example.org/build.sh" 0 w); [lia | reflexivity].
Defined.

Ltac count_closes Hall :=
  rewrite ?closes_app, (closes_loop _ _ Hall); unfold closes; cbn;
  rewrite ?String.eqb_refl; cbn.

(** X11: on a live receiver [getAcsEngine] always returns, and the only
    thing it changes besides the trace is [c.acsEngineBinaryPath], and
    that only when it returns nil: the path becomes "acs-engine" under
    the directory that the call of [os.Getwd] in this run returned, and
    tar has run on the download and returned nil.  With an error the
    Cluster is as before.  Past a successful [os.Create] the last action
    is always a Close of the download; on the nil path the file is closed
    twice (the explicit Close after the loop, then the deferred one). *)
Theorem getAcsEngine_records_the_binary `{X : Externals} (c : nat) (retry : Z)
    (w : World) (cl : Cluster) :
  clusterHeap w !! c = Some cl →
  let path := path_Join [default "" (environ w !! "HOME"); "acs-engine.tar.gz"] in
  ∃ res t heap,
    getAcsEngine c retry w =
      Ret res (set_trace (trace w ++ EvCreate path :: t) (set_clusterHeap heap w)) ∧
    match res with
    | None =>
        (∃ cwd t1 t2,
           t = t1 ++ EvGetwd :: t2 ∧
           os_Getwd (trace w ++ EvCreate path :: t1) = Ok cwd ∧
           heap = <[c := set_acsEngineBinaryPath (path_Join [cwd; "acs-engine"]) cl]>
                    (clusterHeap w)) ∧
        EvFinishRunning ["tar"; "-xzf"; path; "--strip"; "1"] None ∈ t ∧
        closes path t = 2
    | Some _ => heap = clusterHeap w ∧ closes path t ≤ 2
    end ∧
    match os_Create (trace w) path with
    | Some msg => res = Some msg ∧ t = []
    | None => last t = Some (EvClose path)
    end.
Proof.
  intros Hc path. subst path. unfold getAcsEngine. unfold_monad.
  destruct w as [fl env ch crh mh tr]. cbn -[downloadLoop] in *.
  destruct (os_Create tr _) as [msg|] eqn:Hcreate; cbn -[downloadLoop].
  { eexists _, [], _. split; [reflexivity|]. cbn. split_and!; try done.
    unfold closes; cbn; lia. }
  match goal with
  | |- context [downloadLoop ?u ?p ?f ?r ?n ?i ?e ?w] =>
      destruct (downloadLoop_exit u p f r n i e w) as (ex & t & -> & Hall & Hex)
  end.
  cbn. destruct ex as [e|[e|]]; cbn; [| |done].
  - repeat (cbn; first [rewrite Hc | split_run]).
    all: cbn; eexists _, _, _; (split; [normalize_trace; reflexivity|]).
    all: cbn; (split; [|by rewrite last_app]).
    all: try (split; [reflexivity|count_closes Hall; lia]).
    all: split_and!;
      [ | apply list_elem_of_In, in_or_app; right; cbn; tauto
        | count_closes Hall; reflexivity ].
    all: match goal with
         | H : os_Getwd _ = Ok ?cwd |- _ =>
             rewrite <- ?app_assoc in H; cbn [app] in H;
             match type of H with
             | os_Getwd (_ ++ _ :: ?t ++ ?rest) = _ =>
                 exists cwd, (t ++ rest); eexists;
                 split_and!; [by rewrite <- app_assoc | exact H | reflexivity]
             end
         end.
  - eexists _, _, _. split; [normalize_trace; reflexivity|].
    cbn. split; [|by rewrite last_app].
    split; [reflexivity|count_closes Hall; lia].
Qed.

Lemma getAcsEngine_records_the_binary_witness :
  let w := demo_world (demo_flags "" "" "https://example.org/acs-engine.tar.gz" "") in
  let path := "/home/ci/acs-engine.tar.gz" in
  ∃ res t heap,
    @getAcsEngine happy 0 2 w =
      Ret res (set_trace (EvCreate path :: t) (set_clusterHeap heap w)) ∧
    match res with
    | None =>
        (∃ cwd t1 t2,
           t = t1 ++ EvGetwd :: t2 ∧
           @os_Getwd happy (EvCreate path :: t1) = Ok cwd ∧
           heap = [set_acsEngineBinaryPath (@path_Join happy [cwd; "acs-engine"])
                     demo_cluster]) ∧
        EvFinishRunning ["tar"; "-xzf"; path; "--strip"; "1"] None ∈ t ∧
        closes path t = 2
    | Some _ => heap = [demo_cluster] ∧ closes path t ≤ 2
    end ∧
    last t = Some (EvClose path).
Proof.
  intros w path.
  exact (@getAcsEngine_records_the_binary happy 0 2 w demo_cluster eq_refl).
Defined.

(** ** The two build stages *)

(** X12: on a live receiver [buildHyperKube] always returns, and its
    result is the result of the push script, unwrapped.  It exports
    VERSION first; the error of that [os.Setenv] is dropped, so VERSION
    is the build number afterwards only if the export succeeded.  When
    the script returns nil, [c.acsCustomHyperKubeURL] becomes
    "{REGISTRY}/hyperkube-amd64:{VERSION}" with the values the two
    variables have when the call returns; when it fails the Cluster is
    as before.  Flags, credentials and maps are never touched. *)
Theorem buildHyperKube_names_the_image `{X : Externals} (c : nat) (w : World)
    (cl : Cluster) :
  clusterHeap w !! c = Some cl →
  let build := default "" (environ w !! "BUILD_NUMBER") in
  ∃ res t w',
    buildHyperKube c w = Ret res w' ∧
    trace w' = trace w ++ EvSetenv "VERSION" build :: t ∧
    EvFinishRunning ["hack/dev-push-hyperkube.sh"] res ∈ t ∧
    flags w' = flags w ∧ credsHeap w' = credsHeap w ∧ mapHeap w' = mapHeap w ∧
    environ w' = (match os_Setenv (trace w) "VERSION" build with
                  | None => <["VERSION" := build]> (environ w)
                  | Some _ => environ w
                  end) ∧
    clusterHeap w' =
      (match res with
       | None =>
           <[c := set_acsCustomHyperKubeURL
                    (default "" (environ w' !! "REGISTRY") +:+ "/hyperkube-amd64:"
                     +:+ default "" (environ w' !! "VERSION")) cl]> (clusterHeap w)
       | Some _ => clusterHeap w
       end).
Proof.
  intros Hc build. subst build. unfold buildHyperKube. unfold_monad.
  destruct w as [fl env ch crh mh tr]. cbn in *.
  assert (Hlt : c < length ch) by (by eapply lookup_lt_Some).
  repeat (cbn; first [rewrite Hc | rewrite list_lookup_insert_eq by exact Hlt
                     | split_run]).
  all: cbn; eexists _, _, _; (split; [reflexivity|]); cbn.
  all: split; [normalize_trace; reflexivity|].
  all: split; [repeat first [apply list_elem_of_here | apply list_elem_of_further]|].
  all: split_and!; reflexivity.
Qed.

Lemma buildHyperKube_names_the_image_witness :
  let w := demo_world (demo_flags "" "" "" "") in
  ∃ t w',
    @buildHyperKube happy 0 w = Ret None w' ∧
    trace w' = EvSetenv "VERSION" "42" :: t ∧
    clusterHeap w' =
      [set_acsCustomHyperKubeURL "registry.example/hyperkube-amd64:42" demo_cluster].
Proof.
  intros w.
  destruct (@buildHyperKube_names_the_image happy 0 w demo_cluster eq_refl)
    as (res & t & w' & Hrun & Ht & _ & _ & _ & _ & Henv & Hheap).
  assert (Hres : res = None).
  { assert (H : @buildHyperKube happy 0 w =
                Ret None (world_of (@buildHyperKube happy 0 w)))
      by (vm_compute; reflexivity).
    rewrite Hrun in H. by injection H as ->. }
  subst res. exists t, w'. split_and!; [exact Hrun | exact Ht |].
  rewrite Hheap, Henv. reflexivity.
Defined.

(** X13: with a live receiver and credentials, [uploadZip] does not
    return when [azblob.NewSharedKeyCredential] panics on the account key
    or when the container URL does not parse (the nil URL is
    dereferenced): it panics before opening anything.  Otherwise it
    returns.  If [os.Open] fails it returns "Failed to open file ..." and
    uploads nothing.  Once the file is open, it is uploaded under its
    base name and then closed exactly once, whether or not the upload
    failed; the upload's error is returned unwrapped, and
    [c.acsCustomWinBinariesURL] is set, to the blob's URL, only when the
    upload returned nil. *)
Theorem uploadZip_closes_and_records `{X : Externals} (c : nat) (zipPath : string)
    (w : World) (cl : Cluster) (l : nat) (cr : Creds) :
  clusterHeap w !! c = Some cl →
  credentials cl = Some l →
  credsHeap w !! l = Some cr →
  let container := default "" (environ w !! "AZ_STORAGE_CONTAINER_NAME") in
  match azblob_NewSharedKeyCredential (StorageAccountName cr) (StorageAccountKey cr),
        url_Parse ("https://" +:+ StorageAccountName cr
                   +:+ ".blob.core.windows.net/" +:+ container) with
  | Some msg, _ => uploadZip c zipPath w = Panic msg w
  | None, None =>
      uploadZip c zipPath w =
        Panic "invalid memory address or nil pointer dereference" w
  | None, Some u =>
      let blob := filepath_Base zipPath in
      let err1 := azblob_UploadFileToBlockBlob (trace w ++ [EvOpen zipPath])
                    (StorageAccountName cr) (StorageAccountKey cr) u blob zipPath in
      let url := blockBlobURL_String u blob in
      uploadZip c zipPath w =
        match os_Open (trace w) zipPath with
        | Some msg =>
            Ret (Some ("Failed to open file " +:+ zipPath +:+ " . Error " +:+ msg))
              (set_trace (trace w ++ [EvOpen zipPath]) w)
        | None =>
            Ret err1
              (set_trace
                 (trace w ++
                  [EvOpen zipPath;
                   EvUploadFileToBlockBlob (StorageAccountName cr) u blob zipPath err1;
                   EvClose zipPath] ++
                  (match err1 with
                   | Some _ => []
                   | None => [EvLog ("Custom win binaries url: " +:+ url)]
                   end))
                 (set_clusterHeap
                    (match err1 with
                     | Some _ => clusterHeap w
                     | None =>
                         <[c := set_acsCustomWinBinariesURL url cl]> (clusterHeap w)
                     end)
                    w))
        end
  end.
Proof.
  intros Hc Hl Hcr container. subst container. unfold uploadZip. unfold_monad.
  destruct w as [fl env ch crh mh tr]. cbn in *.
  assert (Hlt : c < length ch) by (by eapply lookup_lt_Some).
  rewrite Hc. cbn. rewrite Hl, Hcr. cbn.
  destruct (azblob_NewSharedKeyCredential _ _) as [msg|]; [reflexivity|].
  cbn. destruct (url_Parse _) as [u|]; [|reflexivity].
  cbn. destruct (os_Open tr zipPath) as [msg|]; cbn; [reflexivity|].
  destruct (azblob_UploadFileToBlockBlob _ _ _ _ _ _) as [e1|]; cbn.
  - normalize_trace. reflexivity.
  - rewrite Hc. cbn. rewrite list_lookup_insert_eq by exact Hlt. cbn.
    normalize_trace. reflexivity.
Qed.

Lemma uploadZip_closes_and_records_witness :
  let w := demo_world (demo_flags "" "" "" "") in
  @uploadZip (upload_fails "403 Forbidden") 0 "/home/ci/42.zip" w =
    Ret (Some "403 Forbidden")
      (set_trace
         [EvOpen "/home/ci/42.zip";
          EvUploadFileToBlockBlob "account"
            "https://account.blob.core.windows.net/kubetest" "42.zip"
            "/home/ci/42.zip" (Some "403 Forbidden");
          EvClose "/home/ci/42.zip"] w) ∧
  @uploadZip key_not_base64 0 "/home/ci/42.zip" w =
    Panic "illegal base64 data at input byte 3" w.
Proof.
  intros w. split.
  - exact (@uploadZip_closes_and_records (upload_fails "403 Forbidden") 0
             "/home/ci/42.zip" w demo_cluster 0 _ eq_refl eq_refl eq_refl).
  - exact (@uploadZip_closes_and_records key_not_base64 0
             "/home/ci/42.zip" w demo_cluster 0 _ eq_refl eq_refl eq_refl).
Defined.

(** X14: in every run of [buildWinZip], however it ends: the only command
    run is the fetched build script, with the arguments -u
    {BUILD_NUMBER}.zip -z $HOME/winbuild, and only after a download of
    the script from the acsengine-win-zip-script URL has succeeded; the
    only upload is that of $HOME/{BUILD_NUMBER}.zip, and only after the
    script has returned nil; and the script is downloaded at most
    twice. *)
Theorem buildWinZip_builds_before_uploading `{X : Externals} (c : nat) (w : World) :
  let home := default "" (environ w !! "HOME") in
  let script := path_Join [home; "build-win-zip.sh"] in
  let zip_name := default "" (environ w !! "BUILD_NUMBER") +:+ ".zip" in
  let url := acsWinZipBuildScript (flags w) in
  ∃ t, trace (world_of (buildWinZip c w)) = trace w ++ t ∧
    (∀ i argv r,
       t !! i = Some (EvFinishRunning argv r) →
       argv = [script; "-u"; zip_name; "-z"; path_Join [home; "winbuild"]] ∧
       ∃ j, j < i ∧ t !! j = Some (EvHttpRead url script None)) ∧
    (∀ i acct u blob f r,
       t !! i = Some (EvUploadFileToBlockBlob acct u blob f r) →
       f = path_Join [home; zip_name] ∧
       ∃ j argv, j < i ∧ t !! j = Some (EvFinishRunning argv None)) ∧
    length (download_results t) ≤ 2.
Proof.
  intros home script zip_name url. subst home script zip_name url.
  unfold buildWinZip, getZipBuildScript, uploadZip.
  change (Z.to_nat 2) with 2. cbn [downloadLoop].
  change (0 =? 2 - 1)%Z with false. change (0 + 1 =? 2 - 1)%Z with true.
  unfold_monad. destruct w as [fl env ch crh mh tr]. cbn.
  repeat (split_run; cbn).
  all: eexists; split; [normalize_trace; first [reflexivity | symmetry; apply app_nil_r]|].
  all: split_and!;
    [ intros i argv r Hi; lookup_cases i Hi; simplify_eq;
      (split;
       [ reflexivity
       | first [ exists 3; (split; [lia | reflexivity])
               | exists 7; (split; [lia | reflexivity]) ] ])
    | intros i acct u blob f r Hi; lookup_cases i Hi; simplify_eq;
      (split;
       [ reflexivity
       | first [ exists 6; eexists; (split; [lia | reflexivity])
               | exists 10; eexists; (split; [lia | reflexivity]) ] ])
    | cbn; lia ].
Qed.

(** ** createCluster *)

(** A run of [createCluster] that returned nil ended with a deployment
    that returned nil. *)
Lemma createCluster_nil `{X : Externals} c w w' :
  createCluster c w = Ret None w' →
  ∃ t rg n tm pm,
    trace w' = trace w ++ t ++ [EvDeployTemplate rg n tm pm None].
Proof.
  unfold createCluster. unfold_monad. destruct w as [fl env ch crh mh tr]. cbn.
  repeat (split_run; cbn).
  all: intros H; try discriminate H; injection H as <-; cbn.
  all: eexists _, _, _, _, _.
  all: (etrans; [|symmetry; apply app_assoc]).
  all: f_equal; normalize_trace; reflexivity.
Qed.

(** X15: a run of [createCluster] that returns (the kubeconfig listing
    had an entry) has made its calls into the Azure client in the order
    EnsureResourceGroup, ValidateDeployment, DeployTemplate, all for the
    receiver's resource group, location, name and templates, each one
    only after the one before returned nil.  It returns nil exactly when
    all three returned nil; otherwise it returns the error of the call
    that failed, behind "Could not ensure resource group: ", "Template
    invalid: " or "Cannot deploy: ", and that call was the last one.  No
    Cluster, credentials record, map or flag is changed. *)
Theorem createCluster_calls_in_order `{X : Externals} (c : nat) (w w' : World)
    (res : option string) :
  createCluster c w = Ret res w' →
  ∃ cl t,
    clusterHeap w !! c = Some cl ∧ trace w' = trace w ++ t ∧
    clusterHeap w' = clusterHeap w ∧ credsHeap w' = credsHeap w ∧
    mapHeap w' = mapHeap w ∧ flags w' = flags w ∧
    let E := EvEnsureResourceGroup (resourceGroup cl) (location cl) in
    let V := EvValidateDeployment (resourceGroup cl) (name cl)
               (templateJSON cl) (parametersJSON cl) in
    let D := EvDeployTemplate (resourceGroup cl) (name cl)
               (templateJSON cl) (parametersJSON cl) in
    (res = None ∧ cloud_calls t = [E None; V None; D None]) ∨
    (∃ e, res = Some ("Could not ensure resource group: " +:+ e) ∧
          cloud_calls t = [E (Some e)]) ∨
    (∃ e, res = Some ("Template invalid: " +:+ e) ∧
          cloud_calls t = [E None; V (Some e)]) ∨
    (∃ e, res = Some ("Cannot deploy: " +:+ e) ∧
          cloud_calls t = [E None; V None; D (Some e)]).
Proof.
  unfold createCluster. unfold_monad. destruct w as [fl env ch crh mh tr]. cbn.
  repeat (split_run; cbn).
  all: intros H; try discriminate H; injection H as <- <-; cbn.
  all: eexists _, _; (split; [reflexivity|]).
  all: (split; [normalize_trace; reflexivity|]).
  all: do 4 (split; [reflexivity|]).
  all: first [ by left
             | right; left; eexists; split; reflexivity
             | right; right; left; eexists; split; reflexivity
             | right; right; right; eexists; split; reflexivity ].
Qed.

Lemma createCluster_calls_in_order_witness :
  let w := demo_world (demo_flags "" "" "" "") in
  let w' := world_of (@createCluster validation_fails 0 w) in
  ∃ t, trace w' = t ∧
    cloud_calls t =
      [EvEnsureResourceGroup "kubetest-1-rg" "westus2" None;
       EvValidateDeployment "kubetest-1-rg" "kubetest-1" None None
         (Some "InvalidTemplate")].
Proof.
  intros w w'.
  destruct (@createCluster_calls_in_order validation_fails 0 w w'
              (Some "Template invalid: InvalidTemplate")
              ltac:(vm_compute; reflexivity))
    as (cl & t & Hcl & Ht & _ & _ & _ & _ & Hcalls).
  exists t. split; [exact Ht|].
  injection Hcl as <-.
  destruct Hcalls as [[H _]|[(e & H & _)|[(e & H & Hc)|(e & H & _)]]];
    try discriminate H.
  injection H as H. change ("InvalidTemplate" = e) in H. subst e. exact Hc.
Defined.

(** ** loadARMTemplates *)

(** X16: when [loadARMTemplates] returns nil, both files have been read,
    the template first, and both held a JSON document: the parameters
    file an object, the template file an object or null.  The map made
    for the parameters file, a new cell of the heap of maps, holds
    exactly what decoding that object leaves in it, and
    [c.parametersJSON] is not that map but the map found in it under
    "parameters".  [c.templateJSON] is the map made for the template,
    filled by decoding the template file, or nil when that file holds
    null.  No other field of the receiver changes, and no flag,
    credentials record or environment variable. *)
Theorem loadARMTemplates_keeps_the_envelope_content `{X : Externals} (c : nat)
    (w w' : World) :
  loadARMTemplates c w = Ret None w' →
  ∃ cl cl' template parameters members h inner entries,
    clusterHeap w !! c = Some cl ∧
    clusterHeap w' = <[c := cl']> (clusterHeap w) ∧
    cl' = set_parametersJSON (Some inner) (set_templateJSON (templateJSON cl') cl) ∧
    let tpath := path_Join [outputDir cl; "azuredeploy.json"] in
    let ppath := path_Join [outputDir cl; "azuredeploy.parameters.json"] in
    trace w' = trace w ++ [EvReadFile tpath; EvReadFile ppath] ∧
    ioutil_ReadFile (trace w) tpath = Ok template ∧
    ioutil_ReadFile (trace w ++ [EvReadFile tpath]) ppath = Ok parameters ∧
    (json_parse template = Ok TNull ∧ templateJSON cl' = None ∧
     h = mapHeap w ++ [∅]
     ∨
     ∃ tmembers,
       json_parse template = Ok (TObj tmembers) ∧
       templateJSON cl' = Some (length (mapHeap w)) ∧
       h = decode_members (length (mapHeap w)) tmembers (mapHeap w ++ [∅])) ∧
    json_parse parameters = Ok (TObj members) ∧
    mapHeap w' = decode_members (length h) members (h ++ [∅]) ∧
    mapHeap w' !! length h = Some entries ∧
    entries !! "parameters" = Some (VMap inner) ∧
    flags w' = flags w ∧ credsHeap w' = credsHeap w ∧ environ w' = environ w.
Proof.
  unfold loadARMTemplates, json_Unmarshal. unfold_monad.
  destruct w as [fl env ch crh mh tr]. cbn.
  destruct (ch !! c) as [cl|] eqn:Hc; [|discriminate].
  assert (Hlt : c < length ch) by (by eapply lookup_lt_Some).
  repeat (cbn;
          first [ rewrite Hc
                | rewrite list_lookup_insert_eq by (rewrite ?length_insert; exact Hlt)
                | rewrite list_insert_insert_eq
                | rewrite lookup_snoc
                | split_run ]).
  all: intros H; try discriminate H; injection H as <-; cbn.
  all: match goal with
       | Ht : ioutil_ReadFile _ (path_Join [_; "azuredeploy.json"]) = Ok ?template,
         Hp : ioutil_ReadFile _ (path_Join [_; "azuredeploy.parameters.json"])
              = Ok ?parameters,
         Hpp : json_parse ?parameters = Ok (TObj ?members),
         Hg : decode_members (length ?h) ?members (?h ++ [∅]) !! _ = Some ?g,
         Hv : default VNil (?g !! "parameters") = VMap ?l |- _ =>
           exists cl; eexists; exists template, parameters, members, h, l, g;
           split_and!;
           [ reflexivity | reflexivity | by destruct cl
           | normalize_trace; reflexivity | exact Ht | exact Hp
           | first [ left; split_and!; [assumption | reflexivity | reflexivity]
                   | right; eexists; split_and!;
                     [eassumption | reflexivity | reflexivity] ]
           | exact Hpp | reflexivity | exact Hg
           | destruct (g !! "parameters"); cbn in Hv; congruence
           | reflexivity | reflexivity | reflexivity ]
       end.
Qed.

Lemma loadARMTemplates_keeps_the_envelope_content_witness :
  let w := demo_world (demo_flags "" "" "" "") in
  let w' := world_of (@loadARMTemplates happy 0 w) in
  ∃ inner entries,
    clusterHeap w' =
      [set_parametersJSON (Some inner) (set_templateJSON (Some 0) demo_cluster)] ∧
    mapHeap w' =
      @decode_members 1
        [("parameters", TObj [("location", TObj [("value", TStr "westus2")])])]
        (@decode_members 0 [("resources", TArr [])] [∅] ++ [∅]) ∧
    mapHeap w' !! 1 = Some entries ∧
    entries !! "parameters" = Some (VMap inner).
Proof.
  intros w w'.
  destruct (@loadARMTemplates_keeps_the_envelope_content happy 0 w w'
              ltac:(vm_compute; reflexivity))
    as (cl & cl' & template & parameters & members & h & inner & entries
        & Hcl & Hheap & Hcl' & _ & Ht & Hp & Htemplate & Hmembers & Hm & He & Hi & _).
  injection Hcl as <-.
  injection Ht as <-. injection Hp as <-.
  injection Hmembers as <-.
  destruct Htemplate as [(Hnull & _)|(tmembers & Htm & Htj & ->)];
    [discriminate Hnull|].
  injection Htm as <-.
  exists inner, entries. split_and!; [|exact Hm | exact He | exact Hi].
  rewrite Hheap, Hcl', Htj. reflexivity.
Defined.

(** ** Up as a whole *)

Lemma stage_guard_reads `{X : Externals} s c w b w' :
  stage_guard s c w = Ret b w' → w' = w.
Proof.
  destruct s; cbn; unfold mbind, M_bind, mret, M_ret, flag, gets, loadC;
    try (by intros [= _ <-]).
  destruct (clusterHeap w !! c); [by intros [= _ <-] | discriminate].
Qed.

(** A run of a list of stages that returns an error stopped at a stage
    that ran and failed. *)
Lemma run_stages_error `{X : Externals} l c w0 e w' :
  run_stages l c w0 = Ret (Some e) w' →
  ∃ pre s post w1 e',
    l = pre ++ s :: post ∧
    run_stages pre c w0 = Ret None w1 ∧
    stage_guard s c w1 = Ret true w1 ∧
    stage_run s c w1 = Ret (Some e') w' ∧
    e = stage_context s +:+ e'.
Proof.
  revert w0. induction l as [|s l IH]; intros w0 Hrun; cbn in Hrun; [discriminate|].
  unfold mbind, M_bind in Hrun.
  destruct (stage_guard s c w0) as [b w1|] eqn:Hg; [|discriminate].
  pose proof (stage_guard_reads _ _ _ _ _ Hg) as ->.
  destruct b.
  - destruct (stage_run s c w0) as [[e'|] w2|] eqn:Hs; [| |discriminate].
    + injection Hrun as <- <-.
      exists [], s, l, w0, e'. by split_and!.
    + destruct (IH _ Hrun) as (pre & s' & post & w1 & e' & -> & Hpre & Hg' & Hs' & ->).
      exists (s :: pre), s', post, w1, e'. split_and!; try done.
      cbn. unfold mbind, M_bind. by rewrite Hg, Hs.
  - cbn in Hrun.
    destruct (IH _ Hrun) as (pre & s' & post & w1 & e' & -> & Hpre & Hg' & Hs' & ->).
    exists (s :: pre), s', post, w1, e'. split_and!; try done.
    cbn. unfold mbind, M_bind. by rewrite Hg.
Qed.

(** X17: every error that [Up] returns comes from a stage: there is a
    stage of the sequence that was reached with all the stages before it
    skipped or returning nil, that ran and returned an error, and the
    error of [Up] is that error behind the stage's text, returned in the
    world in which the stage returned.  [Up] has no error of its own. *)
Theorem Up_error_comes_from_a_stage `{X : Externals} (c0 : Cluster) (w w' : World)
    (e : string) :
  Up c0 w = Ret (Some e) w' →
  let c := length (clusterHeap w) in
  ∃ pre s post w1 e',
    Up_stages = pre ++ s :: post ∧
    run_stages pre c (Up_entry c0 w) = Ret None w1 ∧
    stage_guard s c w1 = Ret true w1 ∧
    stage_run s c w1 = Ret (Some e') w' ∧
    e = stage_context s +:+ e'.
Proof.
  intros Hrun c. rewrite Up_run_stages in Hrun. by apply run_stages_error.
Qed.

Lemma Up_error_comes_from_a_stage_witness :
  let w := demo_world (demo_flags "" "" "" "") in
  ∃ pre s post w1 e',
    Up_stages = pre ++ s :: post ∧
    @run_stages validation_fails pre 1 (Up_entry demo_cluster w) = Ret None w1 ∧
    stage_guard s 1 w1 = Ret true w1 ∧
    @stage_run validation_fails s 1 w1 =
      Ret (Some e') (world_of (@Up validation_fails demo_cluster w)) ∧
    "Error creating cluster: Template invalid: InvalidTemplate" =
      stage_context s +:+ e'.
Proof.
  intros w.
  apply (@Up_error_comes_from_a_stage validation_fails demo_cluster w).
  vm_compute; reflexivity.
Defined.

(** A run of stages that returns nil has run its last stages to nil. *)
Lemma run_stages_nil_app `{X : Externals} pre rest c w0 w' :
  run_stages (pre ++ rest) c w0 = Ret None w' →
  ∃ w1, run_stages pre c w0 = Ret None w1 ∧ run_stages rest c w1 = Ret None w'.
Proof.
  revert w0. induction pre as [|s pre IH]; intros w0 Hrun; cbn in *.
  - by exists w0.
  - unfold mbind, M_bind in *.
    destruct (stage_guard s c w0) as [b w1|]; [|discriminate].
    destruct ((if b then stage_run s c else mret None) w1) as [[e|] w2|];
      try discriminate.
    by apply IH.
Qed.

Section StagesKeep.
Context `{X : Externals}.
Variable P : Event → bool.
Variable w0 : World.
Variable c : nat.
Hypothesis Hc : length (clusterHeap w0) ≤ c.
Hypothesis HP : ∀ e, is_rollback e = false → P e = true.

Lemma HP_later e : is_hyperkube_build e || is_rollback e = false → P e = true.
Proof. intros He. apply HP. by apply orb_false_elim in He as [_ ?]. Qed.

Lemma stage_run_inv s : inv_ok (inv P w0) (stage_run s c).
Proof.
  destruct s; cbn.
  - by apply buildHyperKube_inv.
  - apply buildWinZip_inv; first [exact Hc | exact HP_later].
  - apply generateTemplate_inv; first [exact Hc | exact HP_later].
  - apply getAcsEngine_inv; first [exact Hc | exact HP_later].
  - apply inv_bind; [apply inv_loadC|]. intros cl.
    apply generateARMTemplates_inv; first [exact Hc | exact HP_later].
  - apply loadARMTemplates_inv; first [exact Hc | exact HP_later].
  - apply createCluster_inv; first [exact Hc | exact HP_later].
Qed.

Lemma stage_guard_inv s : inv_ok (inv P w0) (stage_guard s c).
Proof.
  destruct s; cbn; unfold flag;
    repeat first [ apply inv_bind; [|intros ?] | apply inv_gets | apply inv_ret
                 | apply inv_loadC ].
Qed.

Lemma run_stages_inv l : inv_ok (inv P w0) (run_stages l c).
Proof.
  induction l as [|s l IH]; cbn; [apply inv_ret|].
  apply inv_bind; [apply stage_guard_inv|]. intros b.
  apply inv_bind; [destruct b; [apply stage_run_inv | apply inv_ret]|].
  intros [e|]; [apply inv_ret | exact IH].
Qed.

End StagesKeep.

(** X18: [Up] returns nil only after a deployment: the last thing a run
    of [Up] that returns nil has done is a call of [DeployTemplate] that
    returned nil. *)
Theorem Up_success_means_deployed `{X : Externals} (c0 : Cluster) (w w' : World) :
  Up c0 w = Ret None w' →
  ∃ t rg n tm pm,
    trace w' = trace w ++ t ++ [EvDeployTemplate rg n tm pm None].
Proof.
  intros Hrun. rewrite Up_run_stages in Hrun.
  change Up_stages
    with ([StBuildHyperKube; StBuildWinZip; StGenerateTemplate; StGetAcsEngine;
           StGenerateARMTemplates; StLoadARMTemplates] ++ [StCreateCluster]) in Hrun.
  apply run_stages_nil_app in Hrun as (w1 & Hpre & Hlast).
  pose proof (run_stages_inv (λ _, true) w (length (clusterHeap w)) (le_n _)
                (λ _ _, eq_refl)
                [StBuildHyperKube; StBuildWinZip; StGenerateTemplate; StGetAcsEngine;
                 StGenerateARMTemplates; StLoadARMTemplates]
                _ (inv_Up_entry _ c0 w)) as Hinv.
  unfold wp in Hinv. rewrite Hpre in Hinv.
  destruct Hinv as (_ & (t0 & Ht0 & _) & _).
  cbn in Hlast. unfold mbind, M_bind, mret, M_ret in Hlast.
  destruct (createCluster _ w1) as [[e|] w2|] eqn:Hcreate; try discriminate.
  injection Hlast as ->.
  apply createCluster_nil in Hcreate as (t & rg & n & tm & pm & Ht).
  exists (t0 ++ t), rg, n, tm, pm. rewrite Ht, Ht0. by rewrite <- !app_assoc.
Qed.

Lemma Up_success_means_deployed_witness :
  let w := demo_world (demo_flags "" "" "" "") in
  ∃ t rg n tm pm,
    trace (world_of (@Up happy demo_cluster w)) =
      t ++ [EvDeployTemplate rg n tm pm None].
Proof.
  intros w.
  apply (@Up_success_means_deployed happy demo_cluster w).
  vm_compute; reflexivity.
Defined.

(** Each build stage writes one field of its receiver and nothing else. *)
Lemma buildHyperKube_writes_one_field `{X : Externals} c w w' res cl :
  clusterHeap w !! c = Some cl →
  buildHyperKube c w = Ret res w' →
  ∃ cl',
    clusterHeap w' !! c = Some cl' ∧
    cl' = set_acsCustomHyperKubeURL (acsCustomHyperKubeURL cl') cl ∧
    flags w' = flags w ∧ credsHeap w' = credsHeap w.
Proof.
  intros Hc. unfold buildHyperKube. unfold_monad.
  destruct w as [fl env ch crh mh tr]. cbn in *.
  assert (Hlt : c < length ch) by (by eapply lookup_lt_Some).
  repeat (cbn; first [rewrite Hc | rewrite list_lookup_insert_eq by exact Hlt
                     | split_run]).
  all: intros H; injection H as _ <-; cbn.
  all: first [ exists cl; by destruct cl
             | eexists; split; [by apply list_lookup_insert_eq | by destruct cl] ].
Qed.

Lemma buildWinZip_writes_one_field `{X : Externals} c w w' res cl :
  clusterHeap w !! c = Some cl →
  buildWinZip c w = Ret res w' →
  ∃ cl',
    clusterHeap w' !! c = Some cl' ∧
    cl' = set_acsCustomWinBinariesURL (acsCustomWinBinariesURL cl') cl ∧
    flags w' = flags w ∧ credsHeap w' = credsHeap w ∧
    (res = None → ∃ l cr, credentials cl = Some l ∧ credsHeap w !! l = Some cr).
Proof.
  intros Hc. unfold buildWinZip, getZipBuildScript, uploadZip. unfold_monad.
  destruct w as [fl env ch crh mh tr]. cbn -[downloadLoop] in *.
  assert (Hlt : c < length ch) by (by eapply lookup_lt_Some).
  destruct (os_Create _ _) as [msg|]; cbn -[downloadLoop].
  { intros H; injection H as <- <-. exists cl. by destruct cl. }
  match goal with
  | |- context [downloadLoop ?u ?p ?f ?r ?n ?i ?e ?w] =>
      destruct (downloadLoop_exit u p f r n i e w) as (ex & t & -> & _ & Hex)
  end.
  destruct ex as [e|[e|]]; [| |done].
  - repeat (cbn; first [rewrite Hc | rewrite list_lookup_insert_eq by exact Hlt
                       | split_run]).
    all: intros H; try discriminate H; injection H as <- <-; cbn.
    all: first [ exists cl; split_and!; [done | by destruct cl | done | done | done]
               | eexists; split_and!;
                 [ by apply list_lookup_insert_eq | by destruct cl | done | done
                 | intros _; eauto ] ].
  - cbn. intros H; injection H as <- <-. exists cl. by destruct cl.
Qed.

Lemma before_generateTemplate s rest :
  (s :: rest) `suffix_of` Up_stages →
  StGenerateTemplate ∈ rest →
  s = StBuildHyperKube ∨ s = StBuildWinZip.
Proof.
  intros [k Hk] Hin. unfold Up_stages in Hk.
  do 8 (destruct k as [|? k]; simplify_eq/=; auto;
        try (decompose_list_elem_of; done)).
Qed.

Section Decided.
Context `{X : Externals}.
Variable w : World.
Variable c0 : Cluster.

Let c := length (clusterHeap w).

Lemma stage_guard_decided s w1 cl :
  flags w1 = flags w →
  (s = StGenerateTemplate →
   clusterHeap w1 !! c = Some cl ∧ apiModelPath cl = apiModelPath c0) →
  stage_guard s c w1 = Ret (stage_enabled (flags w) c0 s) w1.
Proof.
  intros Hf Hcl.
  destruct s; cbn; unfold mbind, M_bind, mret, M_ret, flag, gets, loadC;
    rewrite ?Hf; try reflexivity.
  destruct (Hcl eq_refl) as [-> <-]. reflexivity.
Qed.

Lemma run_stages_decided l :
  l `suffix_of` Up_stages →
  ∀ w1,
    inv (λ _, true) w w1 →
    (StGenerateTemplate ∈ l →
     ∃ cl, clusterHeap w1 !! c = Some cl ∧ apiModelPath cl = apiModelPath c0) →
    run_stages l c w1 =
    run_unguarded (List.filter (stage_enabled (flags w) c0) l) c w1.
Proof.
  induction l as [|s rest IH]; intros Hsuf w1 Hinv Hcell; [reflexivity|].
  assert (Hrest : rest `suffix_of` Up_stages).
  { etrans; [|exact Hsuf]. by apply suffix_cons_r. }
  assert (Hg : stage_guard s c w1 = Ret (stage_enabled (flags w) c0 s) w1).
  { assert (Hdec : s = StGenerateTemplate ∨ s ≠ StGenerateTemplate)
      by (destruct s; first [by left | by right]).
    destruct Hdec as [->|Hne].
    - destruct Hcell as (cl & Hcl & Hpath); [apply list_elem_of_here|].
      by apply (stage_guard_decided _ _ cl); [apply Hinv|].
    - apply (stage_guard_decided _ _ c0); [apply Hinv | done]. }
  cbn [run_stages List.filter]. unfold mbind at 1, M_bind at 1. rewrite Hg.
  destruct (stage_enabled (flags w) c0 s) eqn:Hen.
  - cbn [run_unguarded]. unfold mbind, M_bind.
    pose proof (stage_run_inv (λ _, true) w c (le_n _) (λ _ _, eq_refl) s w1 Hinv)
      as Hinv2.
    unfold wp in Hinv2.
    destruct (stage_run s c w1) as [[e|] w2|] eqn:Hrun; [reflexivity| |reflexivity].
    apply IH; [exact Hrest | exact Hinv2 |].
    intros Hin.
    destruct Hcell as (cl & Hcl & Hpath); [by apply list_elem_of_further|].
    destruct (before_generateTemplate s rest Hsuf Hin) as [-> | ->]; cbn in Hrun.
    + destruct (buildHyperKube_writes_one_field _ _ _ _ _ Hcl Hrun)
        as (cl' & ? & Heq & _).
      exists cl'. split; [done | by rewrite Heq].
    + destruct (buildWinZip_writes_one_field _ _ _ _ _ Hcl Hrun)
        as (cl' & ? & Heq & _).
      exists cl'. split; [done | by rewrite Heq].
  - unfold mret, M_ret. apply IH; [exact Hrest | exact Hinv |].
    intros Hin. apply Hcell. by apply list_elem_of_further.
Qed.

End Decided.

(** X19: which stages a call of [Up] runs is settled when it is entered:
    the four conditions, read off the flags and the receiver at that
    moment, give the same run as testing each one when the sequence
    reaches it.  No stage changes a flag, and the two build stages leave
    [c.apiModelPath] alone.  So [Up] is the unconditional sequence of the
    enabled stages, stopped by the first error: with
    acsengine-win-binaries-url set nothing of [buildWinZip] happens, with
    no acsengine-download-url nothing of [getAcsEngine], with a template
    path given nothing of [generateTemplate]. *)
Theorem Up_stages_are_decided_at_entry `{X : Externals} (c0 : Cluster) (w : World) :
  Up c0 w =
  run_unguarded (List.filter (stage_enabled (flags w) c0) Up_stages)
    (length (clusterHeap w)) (Up_entry c0 w).
Proof.
  rewrite Up_run_stages.
  apply run_stages_decided; [done | apply inv_Up_entry |].
  intros _. exists c0. split; [|reflexivity].
  destruct w; cbn. apply lookup_snoc.
Qed.

(** ** What one stage hands to the next *)

(** X20: with both URL flags empty, what the two build stages record is
    what the model gets.  After [buildHyperKube] and then [buildWinZip]
    have returned nil on a receiver, [generateTemplate] on that receiver
    returns (it cannot panic: the upload has dereferenced the same
    credentials), and the model it writes carries as custom hyperkube
    image the URL that [buildHyperKube] recorded, which [buildWinZip] did
    not touch, and as custom Windows package the URL that [buildWinZip]
    recorded. *)
Theorem built_artifacts_reach_the_model `{X : Externals} (c : nat) (w0 w1 w2 : World)
    (cl0 : Cluster) :
  acsHyperKubeURL (flags w0) = "" →
  acsWinBinariesURL (flags w0) = "" →
  clusterHeap w0 !! c = Some cl0 →
  buildHyperKube c w0 = Ret None w1 →
  buildWinZip c w1 = Ret None w2 →
  ∃ cl1 cl2 v res w3,
    clusterHeap w1 !! c = Some cl1 ∧
    clusterHeap w2 !! c = Some cl2 ∧
    generateTemplate c w2 = Ret res w3 ∧
    trace w3 = trace w2 ++
      [EvNow;
       EvWriteFile (path_Join [outputDir cl0; "kubernetes.json"])
         (result_val "" (json_MarshalIndent v)) 420] ∧
    hyperkube_image_of v = acsCustomHyperKubeURL cl1 ∧
    windows_package_of v = acsCustomWinBinariesURL cl2.
Proof.
  intros Hh Hw Hc0 Hb1 Hb2.
  destruct (buildHyperKube_writes_one_field _ _ _ _ _ Hc0 Hb1)
    as (cl1 & Hc1 & Heq1 & Hf1 & Hcr1).
  destruct (buildWinZip_writes_one_field _ _ _ _ _ Hc1 Hb2)
    as (cl2 & Hc2 & Heq2 & Hf2 & Hcr2 & Hcreds).
  destruct (Hcreds eq_refl) as (l & cr & Hl & Hcr).
  assert (Hl2 : credentials cl2 = Some l) by (by rewrite Heq2).
  rewrite <- Hcr2 in Hcr.
  assert (Hdir : outputDir cl2 = outputDir cl0) by (by rewrite Heq2, Heq1).
  assert (Himg : acsCustomHyperKubeURL cl2 = acsCustomHyperKubeURL cl1)
    by (by rewrite Heq2).
  exists cl1, cl2,
    (apply_overrides (flags w2) cl2
       (apiModel_literal (flags w2) cl2 (time_Now_String (trace w2)) cr)).
  rewrite (generateTemplate_run c w2 cl2 l cr Hc2 Hl2 Hcr).
  eexists _, _. split_and!; [exact Hc1 | exact Hc2 | reflexivity | ..].
  - cbn. by rewrite Hdir.
  - rewrite apply_overrides_closed. cbn. rewrite Hf2, Hf1, Hh, <- Himg. cbn.
    destruct (is_empty (acsCustomHyperKubeURL cl2)) eqn:He; cbn; [|reflexivity].
    apply is_empty_true in He. by rewrite He.
  - rewrite apply_overrides_closed. cbn. rewrite Hf2, Hf1, Hw. cbn.
    destruct (is_empty (acsCustomWinBinariesURL cl2)) eqn:He; cbn; [|reflexivity].
    apply is_empty_true in He. by rewrite He.
Qed.

Lemma built_artifacts_reach_the_model_witness :
  let w0 := demo_world (demo_flags "" "" "" "") in
  let w1 := world_of (@buildHyperKube happy 0 w0) in
  let w2 := world_of (@buildWinZip happy 0 w1) in
  ∃ v res w3,
    @generateTemplate happy 0 w2 = Ret res w3 ∧
    trace w3 = trace w2 ++
      [EvNow;
       EvWriteFile "/home/ci/acs123/kubernetes.json"
         (result_val "" (@json_MarshalIndent happy v)) 420] ∧
    hyperkube_image_of v = "registry.example/hyperkube-amd64:42" ∧
    windows_package_of v = "https://account.blob.core.windows.net/kubetest/42.zip".
Proof.
  intros w0 w1 w2.
  destruct (@built_artifacts_reach_the_model happy 0 w0 w1 w2 demo_cluster
              eq_refl eq_refl eq_refl
              ltac:(vm_compute; reflexivity) ltac:(vm_compute; reflexivity))
    as (cl1 & cl2 & v & res & w3 & Hc1 & Hc2 & Hrun & Ht & Hi & Hp).
  exists v, res, w3. split_and!; [exact Hrun | exact Ht | |].
  - rewrite Hi. vm_compute in Hc1. by injection Hc1 as <-.
  - rewrite Hp. vm_compute in Hc2. by injection Hc2 as <-.
Defined.

Lemma getAcsEngine_writes_one_field `{X : Externals} c retry w w' res cl :
  clusterHeap w !! c = Some cl →
  getAcsEngine c retry w = Ret res w' →
  ∃ cl',
    clusterHeap w' !! c = Some cl' ∧
    cl' = set_acsEngineBinaryPath (acsEngineBinaryPath cl') cl.
Proof.
  intros Hc. unfold getAcsEngine. unfold_monad.
  destruct w as [fl env ch crh mh tr]. cbn -[downloadLoop] in *.
  assert (Hlt : c < length ch) by (by eapply lookup_lt_Some).
  destruct (os_Create _ _) as [msg|]; cbn -[downloadLoop].
  { intros H; injection H as _ <-. exists cl. by destruct cl. }
  match goal with
  | |- context [downloadLoop ?u ?p ?f ?r ?n ?i ?e ?w] =>
      destruct (downloadLoop_exit u p f r n i e w) as (ex & t & -> & _ & Hex)
  end.
  destruct ex as [e|[e|]]; [| |done].
  - repeat (cbn; first [rewrite Hc | split_run]).
    all: intros H; injection H as _ <-; cbn.
    all: first [ exists cl; by destruct cl
               | eexists; split; [by apply list_lookup_insert_eq | by destruct cl] ].
  - cbn. intros H; injection H as _ <-. exists cl. by destruct cl.
Qed.

Lemma generateTemplate_ret `{X : Externals} c w0 w1 res cl0 :
  clusterHeap w0 !! c = Some cl0 →
  generateTemplate c w0 = Ret res w1 →
  let model := path_Join [outputDir cl0; "kubernetes.json"] in
  ∃ content,
    trace w1 = trace w0 ++ [EvNow; EvWriteFile model content 420] ∧
    clusterHeap w1 !! c = Some (set_apiModelPath model cl0).
Proof.
  intros Hc0 Hgen model. subst model.
  destruct (credentials cl0) as [l|] eqn:Hl.
  2:{ revert Hgen. unfold generateTemplate. unfold_monad.
      destruct w0; cbn in *. rewrite Hc0. cbn. by rewrite Hl. }
  destruct (credsHeap w0 !! l) as [cr|] eqn:Hcr.
  2:{ revert Hgen. unfold generateTemplate. unfold_monad.
      destruct w0; cbn in *. rewrite Hc0. cbn. by rewrite Hl, Hcr. }
  rewrite (generateTemplate_run c w0 cl0 l cr Hc0 Hl Hcr) in Hgen.
  injection Hgen as _ <-. eexists. split; [destruct w0; reflexivity|].
  destruct w0; cbn in *. apply list_lookup_insert_eq. by eapply lookup_lt_Some.
Qed.

(** X21: the model that [generateTemplate] wrote is the one acs-engine
    is run on.  After [generateTemplate] has returned and [getAcsEngine]
    has returned nil on the same receiver, [generateARMTemplates] on the
    receiver's value runs one command: the binary that [getAcsEngine]
    recorded, with "generate", the path {outputDir}/kubernetes.json that
    [generateTemplate] wrote to, and --output-directory {outputDir}; its
    error comes back as "Failed to generate ARM templates: ...". *)
Theorem written_model_reaches_acs_engine `{X : Externals} (c : nat) (w0 w1 w2 : World)
    (cl0 : Cluster) (res : option string) :
  clusterHeap w0 !! c = Some cl0 →
  generateTemplate c w0 = Ret res w1 →
  getAcsEngine c 2 w1 = Ret None w2 →
  let model := path_Join [outputDir cl0; "kubernetes.json"] in
  ∃ content cl2,
    EvWriteFile model content 420 ∈ trace w1 ∧
    clusterHeap w2 !! c = Some cl2 ∧
    let argv := [acsEngineBinaryPath cl2; "generate"; model;
                 "--output-directory"; outputDir cl0] in
    let r := control_FinishRunning (trace w2) argv in
    generateARMTemplates cl2 w2 =
      Ret (match r with
           | Some e => Some ("Failed to generate ARM templates: " +:+ e +:+ ".")
           | None => None
           end)
        (set_trace (trace w2 ++ [EvFinishRunning argv r]) w2).
Proof.
  intros Hc0 Hgen Hget model. subst model.
  destruct (generateTemplate_ret c w0 w1 res cl0 Hc0 Hgen) as (content & Ht & Hc1).
  destruct (getAcsEngine_writes_one_field c 2 w1 w2 None _ Hc1 Hget)
    as (cl2 & Hc2 & Heq2).
  exists content, cl2. split_and!.
  - rewrite Ht. apply elem_of_app. right.
    apply list_elem_of_further, list_elem_of_here.
  - exact Hc2.
  - unfold generateARMTemplates. unfold_monad. rewrite Heq2. cbn.
    destruct (control_FinishRunning _ _); reflexivity.
Qed.

Lemma written_model_reaches_acs_engine_witness :
  let w0 := demo_world (demo_flags "" "" "https://example.org/acs-engine.tar.gz" "") in
  let w1 := world_of (@generateTemplate happy 0 w0) in
  let w2 := world_of (@getAcsEngine happy 0 2 w1) in
  ∃ content cl2,
    EvWriteFile "/home/ci/acs123/kubernetes.json" content 420 ∈ trace w1 ∧
    clusterHeap w2 !! 0 = Some cl2 ∧
    @generateARMTemplates happy cl2 w2 =
      Ret None
        (set_trace
           (trace w2 ++
            [EvFinishRunning
               [acsEngineBinaryPath cl2; "generate"; "/home/ci/acs123/kubernetes.json";
                "--output-directory"; "/home/ci/acs123"] None]) w2).
Proof.
  intros w0 w1 w2.
  exact (@written_model_reaches_acs_engine happy 0 w0 w1 w2 demo_cluster None
           eq_refl ltac:(vm_compute; reflexivity) ltac:(vm_compute; reflexivity)).
Defined.
